(** * TurboBackend worker: job orchestration engine

    A shallow embedding of the worker's orchestration code
    (dispatcher, creation / modification / secret-sync pipelines, the
    agentic loop, the agent command executor, the publisher and the cost
    and activity writers) and the properties of the specification that
    are stated about them.

    Conventions.
    - An [async] function that may reject is a computation in the monad
      [M]: it takes the observable world and returns an [outcome]
      (a value, or the message of the thrown [Error]) and the new world.
    - Whatever lies outside the repository (Redis, Postgres, the sandbox
      provider, the LLM, [JSON.parse]) is an oracle in an environment
      record; every oracle is arbitrary, so a theorem quantified over the
      environment covers every behaviour of the collaborators.
    - Floating point dollar amounts ([calculateCost]) are not modelled;
      the token counts they are computed from are. *)

From Stdlib Require Import String Ascii List Bool Arith Lia DecimalString.
Import ListNotations.
Open Scope string_scope.
Open Scope list_scope.
Open Scope nat_scope.

(** Template-literal concatenation of strings. *)
Infix "+++" := String.append (right associativity, at level 60).

(** The line feed and the double quote of a JavaScript string literal. *)
Definition nl : string := String (ascii_of_nat 10) EmptyString.
Definition dq : string := String (ascii_of_nat 34) EmptyString.

(* ================================================================== *)
(** * JavaScript string primitives used by the code *)

Module Str.

(** [`${n}`] for a non-negative integer. *)
Definition ofNat (n : nat) : string := NilZero.string_of_uint (Nat.to_uint n).

(** [String.prototype.toLowerCase] on the ASCII range (project ids are
    nano-ids over [A-Za-z0-9_-]). *)
Definition lowerAscii (c : ascii) : ascii :=
  let n := nat_of_ascii c in
  if (65 <=? n) && (n <=? 90) then ascii_of_nat (n + 32) else c.

Fixpoint toLowerCase (s : string) : string :=
  match s with
  | EmptyString => EmptyString
  | String c r => String (lowerAscii c) (toLowerCase r)
  end.

(** [s.replace(/-/g, '_')] *)
Fixpoint replaceHyphens (s : string) : string :=
  match s with
  | EmptyString => EmptyString
  | String c r =>
      String (if Ascii.eqb c "-"%char then "_"%char else c) (replaceHyphens r)
  end.

(** [s.includes(needle)] *)
Fixpoint includes (s needle : string) : bool :=
  String.prefix needle s ||
  match s with
  | EmptyString => false
  | String _ r => includes r needle
  end.

(** [s.endsWith(suffix)] *)
Definition endsWith (s suffix : string) : bool :=
  let n := String.length s in
  let k := String.length suffix in
  (k <=? n) && String.eqb (String.substring (n - k) k s) suffix.

(** The replacement callback of the sanitizer in the agentic loop:
    the five named control characters are escaped, every other
    character of [[\x00-\x1F\x7F]] is dropped. *)
Definition escapeControl (c : ascii) : string :=
  let n := nat_of_ascii c in
  if (n <? 32) || (n =? 127) then
    if n =? 10 then "\n"
    else if n =? 13 then "\r"
    else if n =? 9 then "\t"
    else if n =? 8 then "\b"
    else if n =? 12 then "\f"
    else EmptyString
  else String c EmptyString.

Fixpoint sanitize (s : string) : string :=
  match s with
  | EmptyString => EmptyString
  | String c r => escapeControl c +++ sanitize r
  end.

End Str.

(* ================================================================== *)
(** * Derived names (database slug, deployment app name) *)

Module Names.

(** The slug as the specification words it. *)
Definition specDbName (projectId : string) : string :=
  "turbobackend_proj_" +++ Str.toLowerCase (Str.replaceHyphens projectId).

Definition specAppName (projectId : string) : string :=
  "turbobackend-" +++ Str.toLowerCase projectId.

(** databaseProvisioner.js, [provisionAndCreateTables]:
    [`turbobackend_proj_${projectId.replace(/-/g, '_')}`.toLowerCase()] *)
Definition provisionerDbName (projectId : string) : string :=
  Str.toLowerCase ("turbobackend_proj_" +++ Str.replaceHyphens projectId).

(** devDatabaseExecutor.js, [executeDevDatabaseQueries] (no active row):
    [`turbobackend_proj_${projectId.replace(/-/g, '_')}`] *)
Definition devExecutorDbName (projectId : string) : string :=
  "turbobackend_proj_" +++ Str.replaceHyphens projectId.

(** flyioService.js ([deployProjectToFlyIO], [checkFlyAppExists],
    [createFlyApp], [createFlyToml]) and the creation handler:
    [`turbobackend-${projectId}`.toLowerCase()] *)
Definition appName (projectId : string) : string :=
  Str.toLowerCase ("turbobackend-" +++ projectId).

(** creation handler: [`https://${appName}.fly.dev`] *)
Definition appUrl (projectId : string) : string :=
  "https://" +++ appName projectId +++ ".fly.dev".

(** creation handler: [`https://turbobackend-${project_id}.fly.dev`] *)
Definition deploymentUrl (projectId : string) : string :=
  "https://turbobackend-" +++ projectId +++ ".fly.dev".

End Names.

(* ================================================================== *)
(** * Observable world and the effect monad *)

(** A payload published on the bus.  The code publishes
    [JSON.stringify] of an object; the object is kept.
    [{message, progress}] is [Progress], [{type, ...}] is [Typed] and
    [{complete: true, content, isError}] is [Terminal]. *)
Inductive Message : Type :=
| Progress (message : string) (progress : nat)
| Typed (type : string) (content : string)
| Terminal (content : string) (isError : bool).

(** Statements issued on the job's control-database client. *)
Inductive Stmt : Type :=
| Begin
| Commit
| Rollback
| Insert (table : string)
| Select (table : string)
| Update (table : string)
| Release.

(** A row of [message_cost_tracker]. *)
Record CostRow : Type := mkCostRow {
  cost_projectId : string;
  cost_jobId : string;
  cost_userId : string;
  cost_promptContent : string;
  cost_messageType : string;
  cost_model : string;
  cost_inputTokens : nat;
  cost_outputTokens : nat
}.

(** A row of [project_actions]. *)
Record ActivityRow : Type := mkActivityRow {
  act_projectId : string;
  act_requestId : string;
  act_actionType : string;
  act_actionDetails : string;
  act_status : string
}.

(** Operations of the sandbox service. *)
Inductive SandboxOp : Type :=
| OpExec (command : string)
| OpWrite (path content : string)
| OpRead (path : string)
| OpDelete (path : string).

Definition ContainerId : Type := option string.

(** What a connection to a database of the cluster (a project database,
    or [postgres] itself) is asked for. *)
Inductive DbStmt : Type :=
| DbConnect                  (* a client of a new pool is handed out *)
| DbBegin
| DbRun (query : string)
| DbCommit
| DbRollback
| DbEnd.                     (* the client is released and its pool ended *)

Record World : Type := mkWorld {
  bus : list (string * Message);        (* delivered messages, oldest first *)
  pubAttempts : nat;                    (* calls of publisher.publish so far *)
  ctl : list Stmt;                      (* control-database statements that ran *)
  costRows : list CostRow;              (* message_cost_tracker *)
  activities : list ActivityRow;        (* project_actions rows written by trackActivity *)
  projectDdl : list (string * DbStmt);  (* (dbName, statement) that ran on the cluster *)
  container : list (ContainerId * SandboxOp);  (* sandbox operations attempted *)
  errlog : list string                  (* console.error lines *)
}.

Definition emptyWorld : World := mkWorld [] 0 [] [] [] [] [] [].

(** A settled promise of a collaborator. *)
Inductive reply (A : Type) : Type :=
| Resolves (a : A)
| Rejects (message : string).
Arguments Resolves {A} a.
Arguments Rejects {A} message.

(** How a computation of the worker ends: with a value, with a thrown
    error (its message), or not within the turns the model unfolds
    ([OutOfFuel], only the unbounded [while] of the agentic loop
    produces it). *)
Inductive outcome (A : Type) : Type :=
| Ok (a : A)
| Throw (message : string)
| OutOfFuel.
Arguments Ok {A} a.
Arguments Throw {A} message.
Arguments OutOfFuel {A}.

Definition M (A : Type) : Type := World -> outcome A * World.

Definition ret {A} (a : A) : M A := fun w => (Ok a, w).

Definition throw {A} (message : string) : M A := fun w => (Throw message, w).

Definition bind {A B} (m : M A) (k : A -> M B) : M B :=
  fun w =>
    match m w with
    | (Ok a, w') => k a w'
    | (Throw e, w') => (Throw e, w')
    | (OutOfFuel, w') => (OutOfFuel, w')
    end.

(** [try { m } catch (error) { h error.message }] *)
Definition tryCatch {A} (m : M A) (h : string -> M A) : M A :=
  fun w =>
    match m w with
    | (Ok a, w') => (Ok a, w')
    | (Throw e, w') => h e w'
    | (OutOfFuel, w') => (OutOfFuel, w')
    end.

(** [try { m } finally { f }] *)
Definition finally {A} (m : M A) (f : M unit) : M A :=
  fun w =>
    match m w with
    | (OutOfFuel, w') => (OutOfFuel, w')
    | (r, w') =>
        match f w' with
        | (Ok _, w'') => (r, w'')
        | (Throw e, w'') => (Throw e, w'')
        | (OutOfFuel, w'') => (OutOfFuel, w'')
        end
    end.

(** Awaiting a collaborator whose effects are not observed. *)
Definition ext {A} (r : reply A) : M A :=
  fun w =>
    match r with
    | Resolves a => (Ok a, w)
    | Rejects e => (Throw e, w)
    end.

Notation "x <- m ;; k" := (bind m (fun x => k))
  (at level 61, m at next level, right associativity).
Notation "m ;;; k" := (bind m (fun _ => k))
  (at level 61, right associativity).

Definition when (b : bool) (m : M unit) : M unit := if b then m else ret tt.

(** World updates. *)
Definition deliver (channel : string) (msg : Message) (w : World) : World :=
  mkWorld (bus w ++ [(channel, msg)]) (S (pubAttempts w)) (ctl w) (costRows w)
          (activities w) (projectDdl w) (container w) (errlog w).

Definition dropped (w : World) : World :=
  mkWorld (bus w) (S (pubAttempts w)) (ctl w) (costRows w)
          (activities w) (projectDdl w) (container w) (errlog w).

Definition ran (s : Stmt) (w : World) : World :=
  mkWorld (bus w) (pubAttempts w) (ctl w ++ [s]) (costRows w)
          (activities w) (projectDdl w) (container w) (errlog w).

Definition costed (r : CostRow) (w : World) : World :=
  mkWorld (bus w) (pubAttempts w) (ctl w) (costRows w ++ [r])
          (activities w) (projectDdl w) (container w) (errlog w).

Definition acted (r : ActivityRow) (w : World) : World :=
  mkWorld (bus w) (pubAttempts w) (ctl w ++ [Insert "project_actions"]) (costRows w)
          (activities w ++ [r]) (projectDdl w) (container w) (errlog w).

Definition attempted (c : ContainerId) (op : SandboxOp) (w : World) : World :=
  mkWorld (bus w) (pubAttempts w) (ctl w) (costRows w)
          (activities w) (projectDdl w) (container w ++ [(c, op)]) (errlog w).

Definition applied (dbName : string) (stmt : DbStmt) (w : World) : World :=
  mkWorld (bus w) (pubAttempts w) (ctl w) (costRows w)
          (activities w) (projectDdl w ++ [(dbName, stmt)])
          (container w) (errlog w).

Definition logged (line : string) (w : World) : World :=
  mkWorld (bus w) (pubAttempts w) (ctl w) (costRows w)
          (activities w) (projectDdl w) (container w) (errlog w ++ [line]).

(** [console.error(line)] *)
Definition consoleError (line : string) : M unit := fun w => (Ok tt, logged line w).

(** [await client.query(stmt)]: the statement runs, or the query rejects. *)
Definition query {A} (s : Stmt) (r : reply A) : M A :=
  fun w =>
    match r with
    | Resolves a => (Ok a, ran s w)
    | Rejects e => (Throw e, w)
    end.

(** [client.release()] *)
Definition release : M unit := fun w => (Ok tt, ran Release w).

(** What a connection of its own to the database [dbName] is awaited
    for: the statement runs there, or the call rejects. *)
Definition onDatabase {A} (dbName : string) (stmt : DbStmt) (r : reply A) : M A :=
  fun w =>
    match r with
    | Resolves a => (Ok a, applied dbName stmt w)
    | Rejects e => (Throw e, w)
    end.

(* ================================================================== *)
(** * Publisher (pubsub-handlers.js) *)

Module Publisher.
Section WithBus.

(** [redisPublish n]: what the [n]-th call of [publisher.publish]
    does: it resolves (the message is delivered) or rejects. *)
Variable redisPublish : nat -> reply unit.

Definition publishToChannel (channel : string) (payload : Message) : M unit :=
  fun w =>
    match redisPublish (pubAttempts w) with
    | Resolves _ => (Ok tt, deliver channel payload w)
    | Rejects e => (Throw e, dropped w)
    end.

Definition publishProgress (streamId message : string) (progress : nat) : M unit :=
  publishToChannel streamId (Progress message progress).

Definition publishSuccess (streamId content : string) : M unit :=
  publishToChannel streamId (Terminal content false).

Definition publishError (streamId content : string) : M unit :=
  publishToChannel streamId (Terminal content true).

End WithBus.
End Publisher.

(** Observations on the bus. *)
Definition isTerminal (m : Message) : bool :=
  match m with Terminal _ _ => true | _ => false end.

Definition onStream (streamId : string) (b : list (string * Message)) : list Message :=
  map snd (filter (fun cm => String.eqb (fst cm) streamId) b).

Definition terminals (streamId : string) (b : list (string * Message)) : list Message :=
  filter isTerminal (onStream streamId b).

Fixpoint progressValues (ms : list Message) : list nat :=
  match ms with
  | [] => []
  | Progress _ p :: r => p :: progressValues r
  | Typed _ _ :: r => progressValues r
  | Terminal _ _ :: _ => []
  end.

Fixpoint nonDecreasing (l : list nat) : bool :=
  match l with
  | a :: (b :: _) as r => (a <=? b) && nonDecreasing r
  | _ => true
  end.

(* ================================================================== *)
(** * Cost accumulator (utils/messageCostTracker.js) *)

Module CostTracker.

(** [trackMessageCost]: [insert] is what [pool.query(INSERT ...)] does.
    The [catch] block logs and re-throws. *)
Definition trackMessageCost (insert : reply unit) (row : CostRow) : M unit :=
  tryCatch
    (fun w =>
       match insert with
       | Resolves _ => (Ok tt, costed row w)
       | Rejects e => (Throw e, w)
       end)
    (fun e =>
       consoleError "[trackMessageCost] Error tracking message cost:" ;;;
       throw e).

(** The cost block of [callGeminiStream] (llms/gemini-stream.js) and of
    [callOpenAIStream] (llms/openai-stream.js): the call is wrapped in
    a [try] whose [catch] only logs. *)
Definition streamCostBlock (insert : reply unit) (row : CostRow) : M unit :=
  tryCatch
    (trackMessageCost insert row)
    (fun e => consoleError "Cost tracking failed:").

End CostTracker.

(* ================================================================== *)
(** * Activity ledger (worker/utils/activityTracker.js) *)

Module ActivityTracker.

(** [trackActivity] with the caller's client.  Returns the action id
    ([Some], the id itself is not modelled) or [null]. *)
Definition trackActivity (insert : reply unit) (row : ActivityRow) : M (option unit) :=
  tryCatch
    (fun w =>
       match insert with
       | Resolves _ => (Ok (Some tt), acted row w)
       | Rejects e => (Throw e, w)
       end)
    (fun e =>
       consoleError "[ActivityTracker] Error logging activity:" ;;;
       ret None).

End ActivityTracker.

(* ================================================================== *)
(** * Agent protocol data *)

(** A command object emitted by the agent, by its [type] field. *)
Inductive Command : Type :=
| Execute (command : string)
| Write (path content : string)
| Read (path : string)
| Delete (path : string)
| DbQuery (query schemaName queryType : string)
| OtherCommand (type : string).

(** The [result] field of a successful entry. *)
Inductive ResultValue : Type :=
| FromSandbox (value : string)      (* the response to a command, the content of a file *)
| Written (path : string)           (* [{ success: true, path }] *)
| Removed                           (* [{ success: true }] *)
| Undefined                         (* [undefined] *)
| Stored (query : string).          (* [{ stored: true, query }] *)

(** One entry of the executor's result list:
    [{command, success: true, result}] or [{command, success: false, error}]. *)
Inductive CommandResult : Type :=
| Succeeded (command : Command) (result : ResultValue)
| Failed (command : Command) (error : string).

Definition resultCommand (r : CommandResult) : Command :=
  match r with Succeeded c _ => c | Failed c _ => c end.

Definition resultSuccess (r : CommandResult) : bool :=
  match r with Succeeded _ _ => true | Failed _ _ => false end.

(* ================================================================== *)
(** * Agent command executor (worker/utils/agentCommandExecutor.js) *)

Module CommandExecutor.
Section WithSandbox.

(** [sandbox n c op]: what the sandbox service does with the [n]-th
    operation it is asked for. *)
Variable sandbox : nat -> ContainerId -> SandboxOp -> reply string.

Definition sandboxCall (containerId : ContainerId) (op : SandboxOp) : M string :=
  fun w =>
    match sandbox (length (container w)) containerId op with
    | Resolves v => (Ok v, attempted containerId op w)
    | Rejects e => (Throw e, attempted containerId op w)
    end.

(** [deleteFileInContainer] (daytonaService.js): unlike its siblings it
    wraps the call in a [try] whose [catch] logs the error and falls
    through, so that a failed deletion resolves to [undefined].  The
    line logged is the text below followed by the error as a string. *)
Definition deleteFileInContainer (containerId : ContainerId) (path : string)
  : M ResultValue :=
  tryCatch
    (sandboxCall containerId (OpDelete path) ;;; ret Removed)
    (fun err =>
       consoleError ("There was an error deleting a file inside Daytona sandbox: " +++ err) ;;;
       ret Undefined).

(** The [switch] on [cmd.type]. *)
Definition runCommand (containerId : ContainerId) (cmd : Command) : M ResultValue :=
  match cmd with
  | Execute command =>
      v <- sandboxCall containerId (OpExec command) ;; ret (FromSandbox v)
  | Write path content =>
      sandboxCall containerId (OpWrite path content) ;;; ret (Written path)
  | Read path =>
      v <- sandboxCall containerId (OpRead path) ;; ret (FromSandbox v)
  | Delete path => deleteFileInContainer containerId path
  | DbQuery q _ _ => ret (Stored q)
  | OtherCommand type => throw ("Unknown command type: " +++ type)
  end.

(** One turn of the [for] loop: the [try] pushes a success entry, the
    [catch] pushes a failure entry. *)
Definition attempt (containerId : ContainerId) (cmd : Command) : M CommandResult :=
  tryCatch
    (result <- runCommand containerId cmd ;; ret (Succeeded cmd result))
    (fun e => ret (Failed cmd e)).

Fixpoint forCommands (containerId : ContainerId) (results : list CommandResult)
         (commands : list Command) : M (list CommandResult) :=
  match commands with
  | [] => ret results
  | cmd :: rest =>
      r <- attempt containerId cmd ;;
      forCommands containerId (results ++ [r]) rest
  end.

Definition executeAgentCommands (containerId : ContainerId)
           (commands : list Command) : M (list CommandResult) :=
  forCommands containerId [] commands.

End WithSandbox.
End CommandExecutor.

(** What the executor is expected to return, one command at a time. *)
Module ExecutorSpec.
Section WithSandbox.

Variable sandbox : nat -> ContainerId -> SandboxOp -> reply string.
Variable containerId : ContainerId.

(** The sandbox operation a command asks for, if any. *)
Definition operationOf (cmd : Command) : option SandboxOp :=
  match cmd with
  | Execute command => Some (OpExec command)
  | Write path content => Some (OpWrite path content)
  | Read path => Some (OpRead path)
  | Delete path => Some (OpDelete path)
  | DbQuery _ _ _ => None
  | OtherCommand _ => None
  end.

Fixpoint operationsOf (cmds : list Command) : list (ContainerId * SandboxOp) :=
  match cmds with
  | [] => []
  | cmd :: rest =>
      match operationOf cmd with
      | Some op => (containerId, op) :: operationsOf rest
      | None => operationsOf rest
      end
  end.

(** The entry a command gets when it is the next one attempted and
    the sandbox has served [n] operations so far: the outcome of its
    own operation. *)
Definition entryFor (n : nat) (cmd : Command) : CommandResult :=
  match cmd with
  | Execute command =>
      match sandbox n containerId (OpExec command) with
      | Resolves v => Succeeded cmd (FromSandbox v)
      | Rejects e => Failed cmd e
      end
  | Write path content =>
      match sandbox n containerId (OpWrite path content) with
      | Resolves _ => Succeeded cmd (Written path)
      | Rejects e => Failed cmd e
      end
  | Read path =>
      match sandbox n containerId (OpRead path) with
      | Resolves v => Succeeded cmd (FromSandbox v)
      | Rejects e => Failed cmd e
      end
  | Delete path =>
      match sandbox n containerId (OpDelete path) with
      | Resolves _ => Succeeded cmd Removed
      | Rejects e => Failed cmd e
      end
  | DbQuery q _ _ => Succeeded cmd (Stored q)
  | OtherCommand type => Failed cmd ("Unknown command type: " +++ type)
  end.

(** The entry the executor returns for it: a deletion that failed is
    entered as a success without a result. *)
Definition returnedFor (n : nat) (cmd : Command) : CommandResult :=
  match cmd with
  | Delete path =>
      match sandbox n containerId (OpDelete path) with
      | Resolves _ => Succeeded cmd Removed
      | Rejects _ => Succeeded cmd Undefined
      end
  | _ => entryFor n cmd
  end.

(** The line the sandbox service logs for it. *)
Definition loggedFor (n : nat) (cmd : Command) : list string :=
  match cmd with
  | Delete path =>
      match sandbox n containerId (OpDelete path) with
      | Resolves _ => []
      | Rejects e => ["There was an error deleting a file inside Daytona sandbox: " +++ e]
      end
  | _ => []
  end.

(** The entries of a batch attempted one command at a time, in order. *)
Fixpoint entriesFor (n : nat) (cmds : list Command) : list CommandResult :=
  match cmds with
  | [] => []
  | cmd :: rest =>
      returnedFor n cmd ::
      entriesFor (n + length (operationsOf [cmd])) rest
  end.

Fixpoint linesFor (n : nat) (cmds : list Command) : list string :=
  match cmds with
  | [] => []
  | cmd :: rest =>
      loggedFor n cmd ++ linesFor (n + length (operationsOf [cmd])) rest
  end.

End WithSandbox.
End ExecutorSpec.

(* ================================================================== *)
(** * Agentic loop (worker/llms/agenticLoopExecutor.js) *)

(** The object the agent must answer with.  [commands] is
    [agentResponse.commands || []] and [taskComplete] is
    [agentResponse.taskComplete === true]. *)
Record AgentResponse : Type := mkAgentResponse {
  reasoning : string;
  commands : list Command;
  taskComplete : bool;
  summary : string;
  apiBlueprint : option string
}.

(** What [callLLMNonStream] resolves to. *)
Record LLMReply : Type := mkLLMReply {
  text : string;
  inputTokens : nat;
  outputTokens : nat
}.

(** An element of [conversationHistory].  The user turn that carries
    the execution results keeps the result list instead of its
    rendering as text. *)
Inductive Turn : Type :=
| SystemTurn (content : string)
| UserTurn (content : string)
| ResultsTurn (executionResults : list CommandResult)
| AssistantTurn (content : string).

(** An element of [filesModified].  The loop builds the object
    [{path, content, type}]; [isNew] is the property the modification
    handler reads from it, [None] when the object has no such property. *)
Record FileModified : Type := mkFileModified {
  file_path : string;
  file_content : string;
  file_type : string;
  file_isNew : option bool
}.

(** An element of [dbQueries]: [{query, schemaName, type}]. *)
Record DbQueryEntry : Type := mkDbQueryEntry {
  dbq_query : string;
  dbq_schemaName : string;
  dbq_type : string
}.

Record LoopParams : Type := mkLoopParams {
  containerId : ContainerId;
  projectId : string;
  userId : string;
  userRequest : string;
  requestId : string;
  systemPrompt : string;            (* the assembled prompt, lines 35-144 *)
  existingFiles : list string;
  maxIterations : option nat        (* [None] is [Infinity] *)
}.

Record LoopResult : Type := mkLoopResult {
  success : bool;
  iterations : nat;
  res_filesModified : list FileModified;
  res_dbQueries : list DbQueryEntry;
  res_summary : string;
  res_conversationHistory : list Turn;
  res_apiBlueprint : option string
}.

Module AgenticLoop.

Definition determineFileType (filePath : string) : string :=
  if Str.includes filePath "/api/" then "route"
  else if Str.includes filePath "/middleware/" then "middleware"
  else if Str.includes filePath "/models/" then "model"
  else if Str.includes filePath "/utils/" then "utility"
  else if Str.endsWith filePath ".config.ts" || Str.endsWith filePath ".config.js"
       then "config"
  else "other".

(** The local variables of [runAgenticLoop] that the [while] loop updates. *)
Record LoopState : Type := mkLoopState {
  iteration : nat;
  conversationHistory : list Turn;
  filesModified : list FileModified;
  dbQueries : list DbQueryEntry;
  totalInputTokens : nat;
  totalOutputTokens : nat
}.

(** [iteration < maxIterations] *)
Definition belowCap (iteration : nat) (maxIterations : option nat) : bool :=
  match maxIterations with
  | None => true
  | Some cap => iteration <? cap
  end.

(** "Track modifications": the [for] loop over the commands. *)
Fixpoint trackModifications (cmds : list Command)
         (files : list FileModified) (queries : list DbQueryEntry)
  : list FileModified * list DbQueryEntry :=
  match cmds with
  | [] => (files, queries)
  | Write path content :: rest =>
      trackModifications rest
        (files ++ [mkFileModified path content (determineFileType path) None]) queries
  | DbQuery q schemaName queryType :: rest =>
      trackModifications rest files (queries ++ [mkDbQueryEntry q schemaName queryType])
  | _ :: rest => trackModifications rest files queries
  end.

Definition invalidJsonNotice : string :=
  "ERROR: Your previous response contained invalid JSON with control characters. Please respond with valid JSON only. Ensure all strings are properly escaped.".

Section WithAgent.

(** [llm n]: what the [n]-th call of [callLLMNonStream] does. *)
Variable llm : nat -> reply LLMReply.
(** [JSON.parse]: the parsed object, or [None] when it throws. *)
Variable jsonParse : string -> option AgentResponse.
Variable sandbox : nat -> ContainerId -> SandboxOp -> reply string.
(** The [INSERT] of the aggregated cost row. *)
Variable costInsert : reply unit.

Variable params : LoopParams.

(** [JSON.parse(result.text)], and on failure [JSON.parse] of the
    sanitized text. *)
Definition parseAgentResponse (text : string) : option AgentResponse :=
  match jsonParse text with
  | Some r => Some r
  | None => jsonParse (Str.sanitize text)
  end.

(** One turn of the [while] body.  The boolean says whether the turn
    ended in [break]. *)
Definition iterationBody (st : LoopState) : M (bool * LoopState) :=
  let iteration := S (iteration st) in
  result <- ext (llm iteration) ;;
  match parseAgentResponse (text result) with
  | None =>
      consoleError "[AgenticLoop] Sanitization failed, using fallback response" ;;;
      (* conversationHistory.push({role: 'user', ...}); continue *)
      ret (false,
           mkLoopState iteration
             (conversationHistory st ++ [UserTurn invalidJsonNotice])
             (filesModified st) (dbQueries st)
             (totalInputTokens st) (totalOutputTokens st))
  | Some agentResponse =>
      let totalInputTokens := totalInputTokens st + inputTokens result in
      let totalOutputTokens := totalOutputTokens st + outputTokens result in
      let history1 := conversationHistory st ++ [AssistantTurn (text result)] in
      executionResults <-
        CommandExecutor.executeAgentCommands sandbox
          (containerId params) (commands agentResponse) ;;
      let '(files, queries) :=
        trackModifications (commands agentResponse)
          (filesModified st) (dbQueries st) in
      let history2 := history1 ++ [ResultsTurn executionResults] in
      ret (taskComplete agentResponse,
           mkLoopState iteration history2 files queries
             totalInputTokens totalOutputTokens)
  end.

(** [while (iteration < maxIterations) { ... }].  [fuel] bounds the
    number of turns the model unfolds. *)
Fixpoint whileLoop (fuel : nat) (st : LoopState) : M LoopState :=
  if belowCap (iteration st) (maxIterations params) then
    match fuel with
    | 0 => fun w => (OutOfFuel, w)
    | S fuel' =>
        step <- iterationBody st ;;
        if fst step then ret (snd step) else whileLoop fuel' (snd step)
    end
  else ret st.

Definition initialState : LoopState :=
  mkLoopState 0
    [SystemTurn (systemPrompt params);
     UserTurn ("User Request: " +++ dq +++ userRequest params +++ dq)]
    [] [] 0 0.

(** The assistant turns that parse (as they are) to a response with
    [taskComplete === true], oldest first. *)
Fixpoint completedResponses (history : list Turn) : list AgentResponse :=
  match history with
  | [] => []
  | AssistantTurn content :: rest =>
      match jsonParse content with
      | Some parsed =>
          if taskComplete parsed then parsed :: completedResponses rest
          else completedResponses rest
      | None => completedResponses rest
      end
  | _ :: rest => completedResponses rest
  end.

(** [finalResponse?.apiBlueprint || null] with [finalResponse] the
    [pop()] of the list above. *)
Definition extractBlueprint (history : list Turn) : option string :=
  match rev (completedResponses history) with
  | [] => None
  | finalResponse :: _ => apiBlueprint finalResponse
  end.

Definition aggregatedCostRow (st : LoopState) : CostRow :=
  mkCostRow (projectId params) (requestId params) (userId params)
            (userRequest params) "agentic-container-execution" "grok-4-fast"
            (totalInputTokens st) (totalOutputTokens st).

(** Everything after the [while] loop. *)
Definition afterLoop (st : LoopState) : M LoopResult :=
  CostTracker.trackMessageCost costInsert (aggregatedCostRow st) ;;;
  let below := belowCap (iteration st) (maxIterations params) in
  ret (mkLoopResult
         below
         (iteration st)
         (filesModified st)
         (dbQueries st)
         (if below then "Task completed successfully"
          else "Max iterations reached before task completion")
         (conversationHistory st)
         (extractBlueprint (conversationHistory st))).

Definition runAgenticLoop (fuel : nat) : M LoopResult :=
  st <- whileLoop fuel initialState ;;
  afterLoop st.

End WithAgent.
End AgenticLoop.

(* ================================================================== *)
(** * Jobs and shared collaborators *)

(** [job.data]; a property a payload does not carry is the empty string. *)
Record JobData : Type := mkJobData {
  mcp_key_id : string;
  tool_name : string;
  user_id : string;
  project_id : string;
  streamId : string;
  userPrompt : string;              (* request_params.userPrompt *)
  modificationRequest : string;     (* request_params.modificationRequest *)
  shouldRedeploy : bool;            (* request_params.shouldRedeploy, default true *)
  credentialName : string;
  credentialValue : string
}.

Record Job : Type := mkJob {
  job_name : string;
  job_data : JobData
}.

(** The control database and the bus. *)
Record Infra : Type := mkInfra {
  redisPublish : nat -> reply unit;
  poolConnect : reply unit;          (* [pool.connect()] of the handler *)
  txBegin : reply unit;
  txCommit : reply unit;
  txRollback : reply unit;
  logRequest : reply string;         (* [logMCPRequest]: the new request id *)
  activityInsert : string -> reply unit   (* the INSERT of [trackActivity], by action type *)
}.

(** The collaborators of the agentic loop. *)
Record AgentEnv : Type := mkAgentEnv {
  llm : nat -> reply LLMReply;
  jsonParse : string -> option AgentResponse;
  sandbox : nat -> ContainerId -> SandboxOp -> reply string;
  costInsert : reply unit;
  fuel : nat                         (* turns of the loop the model unfolds *)
}.

(** Transactions of the control database, as Postgres runs the
    statements of one client: an [Insert] inside a transaction is
    pending until [Commit]; [Rollback] drops what is pending. *)
Record TxState : Type := mkTxState {
  inTransaction : bool;
  pendingRows : list string;
  committedRows : list string
}.

Definition txStep (s : TxState) (stmt : Stmt) : TxState :=
  match stmt with
  | Begin => mkTxState true [] (committedRows s)
  | Commit => mkTxState false [] (committedRows s ++ pendingRows s)
  | Rollback => mkTxState false [] (committedRows s)
  | Insert table =>
      if inTransaction s
      then mkTxState true (pendingRows s ++ [table]) (committedRows s)
      else mkTxState false [] (committedRows s ++ [table])
  | _ => s
  end.

(** The tables of the rows that persist once the statements of [log]
    have run. *)
Definition persisted (log : list Stmt) : list string :=
  committedRows (fold_left txStep log (mkTxState false [] [])).

(** [provisionDaytonaContainer] (daytonaService.js): a failure of
    [daytona.create] is logged and [undefined] is returned. *)
Definition provisionDaytonaContainer (create : reply string) : M ContainerId :=
  tryCatch
    (id <- ext create ;; ret (Some id))
    (fun e =>
       consoleError "There was an error provisioning the daytona sandbox: " ;;;
       ret None).

(** [getContainer] (daytonaService.js) looks the sandbox up in
    [daytona.list()] by its id; for the [undefined] that a failed
    provisioning leaves it finds none, and its callers throw at
    [sandbox.getUserHomeDir()]. *)
Definition noSandbox : string :=
  "Cannot read properties of undefined (reading 'getUserHomeDir')".

(** What a call of the sandbox service settles to for this container
    id: without a sandbox it cannot resolve (it rejects with the error
    of the listing, or with the one above). *)
Definition inContainer {A : Type} (containerId : ContainerId) (r : reply A) : reply A :=
  match containerId, r with
  | None, Resolves _ => Rejects noSandbox
  | _, _ => r
  end.

(* ================================================================== *)
(** * Endpoint derivation (worker/utils/projectContextLoader.js) *)

(** The [files.map] callback of [loadProjectContext]; the creation
    handler derives the endpoint list of its activity row with the same
    three expressions.  File paths are taken over the ASCII range, as
    [find server/api] prints them. *)
Module Endpoints.

(** [String.prototype.toUpperCase] on the ASCII range. *)
Definition upperAscii (c : ascii) : ascii :=
  let n := nat_of_ascii c in
  if (97 <=? n) && (n <=? 122) then ascii_of_nat (n - 32) else c.

Fixpoint toUpperCase (s : string) : string :=
  match s with
  | EmptyString => EmptyString
  | String c r => String (upperAscii c) (toUpperCase r)
  end.

(** [s.split(sep)] for a one-character separator; the array is never
    empty ([''.split('/')] is [['']]). *)
Fixpoint split (sep : ascii) (s : string) : list string :=
  match s with
  | EmptyString => [EmptyString]
  | String c r =>
      if Ascii.eqb c sep then EmptyString :: split sep r
      else
        match split sep r with
        | head :: tail => String c head :: tail
        | [] => [String c EmptyString]
        end
  end.

(** [parts.join(sep)] *)
Fixpoint join (sep : string) (parts : list string) : string :=
  match parts with
  | [] => EmptyString
  | [p] => p
  | p :: rest => p +++ sep +++ join sep rest
  end.

(** [s.slice(n)] *)
Fixpoint slice (n : nat) (s : string) : string :=
  match n, s with
  | 0, _ => s
  | S _, EmptyString => EmptyString
  | S n', String _ r => slice n' r
  end.

(** [filePath.split('/').pop()] *)
Definition fileNameOf (filePath : string) : string :=
  last (split "/" filePath) EmptyString.

(** [fileName.split('.')[1]?.toUpperCase() || 'UNKNOWN'] *)
Definition methodOf (fileName : string) : string :=
  match nth_error (split "." fileName) 1 with
  | Some verb =>
      if String.eqb (toUpperCase verb) EmptyString then "UNKNOWN"
      else toUpperCase verb
  | None => "UNKNOWN"
  end.

(** The characters the [.] of a regular expression does not match. *)
Definition isLineTerminator (c : ascii) : bool :=
  (nat_of_ascii c =? 10) || (nat_of_ascii c =? 13).

(** The match of [/^.*\/api\//]: the greedy [.*] stops before the last
    ["/api/"] that no line terminator precedes.  The result is what
    follows that match, [None] when the expression does not match. *)
Fixpoint afterLastApi (s : string) : option string :=
  match s with
  | EmptyString => None
  | String c r =>
      if isLineTerminator c then None
      else
        match afterLastApi r with
        | Some t => Some t
        | None => if String.prefix "/api/" s then Some (slice 5 s) else None
        end
  end.

(** [s.replace(/^.*\/api\//, '/api/')] *)
Definition toApiPath (s : string) : string :=
  match afterLastApi s with
  | Some t => "/api/" +++ t
  | None => s
  end.

(** [s.replace(/\.[^.]+\.js$/, '')]: the expression matches when the
    text ends with a dot, a non-empty run without dots and [.js]; that
    is when splitting at the dots gives at least three pieces, the last
    one [js] and the one before it not empty. *)
Definition stripVerb (s : string) : string :=
  match rev (split "." s) with
  | ext :: verb :: ((_ :: _) as before) =>
      if String.eqb ext "js" && negb (String.eqb verb EmptyString)
      then join "." (rev before)
      else s
  | _ => s
  end.

(** An element of [endpoints]: [{method, path, file}]. *)
Record Endpoint : Type := mkEndpoint {
  ep_method : string;
  ep_path : string;
  ep_file : string
}.

Definition endpointOf (filePath : string) : Endpoint :=
  mkEndpoint (methodOf (fileNameOf filePath))
             (stripVerb (toApiPath filePath))
             filePath.

End Endpoints.

(* ================================================================== *)
(** * Shell commands in the sandbox (worker/services/daytonaService.js) *)

(** What [executeCommandInContainer] resolves to: the response of the
    sandbox, with its [exitCode] and its [result] text. *)
Record ExecResult : Type := mkExecResult {
  exitCode : nat;
  execResult : string
}.

Module Daytona.
Section WithShell.

(** [shell n c command]: what the sandbox does with a shell command
    when it is the [n]-th operation it is asked for. *)
Variable shell : nat -> ContainerId -> string -> reply ExecResult.

Definition executeCommandInContainer (containerId : ContainerId) (command : string)
  : M ExecResult :=
  fun w =>
    match shell (length (container w)) containerId command with
    | Resolves r => (Ok r, attempted containerId (OpExec command) w)
    | Rejects e => (Throw e, attempted containerId (OpExec command) w)
    end.

(** [upload n c path content]: what the sandbox does with a file to
    write when it is the [n]-th operation it is asked for. *)
Variable upload : nat -> ContainerId -> string -> string -> reply unit.

(** The [{success: true, path}] it resolves to is not used. *)
Definition writeFileInContainer (containerId : ContainerId) (path content : string)
  : M unit :=
  fun w =>
    match upload (length (container w)) containerId path content with
    | Resolves _ => (Ok tt, attempted containerId (OpWrite path content) w)
    | Rejects e => (Throw e, attempted containerId (OpWrite path content) w)
    end.

End WithShell.
End Daytona.

(** What the sandbox service does for one job, and how the code reads
    its responses. *)
Record SandboxEnv : Type := mkSandboxEnv {
  sb_shell : nat -> ContainerId -> string -> reply ExecResult;
  sb_upload : nat -> ContainerId -> string -> string -> reply unit;
  sb_stringify : ExecResult -> string;         (* [JSON.stringify] of a response *)
  sb_stdout : ExecResult -> string;            (* [.stdout], empty when there is none *)
  sb_artifactsStdout : ExecResult -> string;   (* [.artifacts?.stdout] *)
  sb_trim : string -> string                   (* [String.prototype.trim] *)
}.

(** The service as a job meets it: a call for [undefined] in place of
    a container id finds no sandbox. *)
Definition shellOf (box : SandboxEnv) : nat -> ContainerId -> string -> reply ExecResult :=
  fun n c command => inContainer c (sb_shell box n c command).

Definition uploadOf (box : SandboxEnv)
  : nat -> ContainerId -> string -> string -> reply unit :=
  fun n c path content => inContainer c (sb_upload box n c path content).

(** A row of [project_github_repos], as the code reads it. *)
Record RepoRow : Type := mkRepoRow {
  repo_url : string;
  branch : string
}.

(* ================================================================== *)
(** * Git operations in the sandbox (worker/utils/githubBranchManager.js) *)

Module GitBranchManager.

(** [s.replace(pattern, replacement)] with a string pattern: the first
    occurrence is replaced.  The replacement is taken as it is written
    (an access token holds no [$]). *)
Fixpoint replaceFirst (pattern replacement s : string) : string :=
  if String.prefix pattern s
  then replacement +++ Endpoints.slice (String.length pattern) s
  else
    match s with
    | EmptyString => EmptyString
    | String c r => String c (replaceFirst pattern replacement r)
    end.

Section WithShell.

Variable shell : nat -> ContainerId -> string -> reply ExecResult.
(** [process.env.GITHUB_ACCESS_TOKEN] *)
Variable githubAccessToken : string.

Let executeCommandInContainer := Daytona.executeCommandInContainer shell.

(** The two [try] blocks around [ls -la]: the [catch] only logs. *)
Definition listDirectory (containerId : ContainerId) (line : string) : M unit :=
  tryCatch
    (executeCommandInContainer containerId "ls -la" ;;; ret tt)
    (fun e => consoleError line).

(** A step of the clone whose exit code is checked. *)
Definition checked (containerId : ContainerId) (command failure : string) : M unit :=
  r <- executeCommandInContainer containerId command ;;
  if negb (exitCode r =? 0) then throw (failure +++ execResult r) else ret tt.

Definition authenticatedUrl (repoInfo : RepoRow) : string :=
  replaceFirst "https://" ("https://" +++ githubAccessToken +++ "@") (repo_url repoInfo).

Definition cloneProjectFromGitHub (containerId : ContainerId) (repoInfo : RepoRow)
  : M unit :=
  listDirectory containerId "[GitHub] Error checking directory:" ;;;
  checked containerId "git init" "Git init failed: " ;;;
  checked containerId ("git remote add origin " +++ authenticatedUrl repoInfo)
    "Git remote add failed: " ;;;
  checked containerId ("git fetch origin " +++ branch repoInfo) "Git fetch failed: " ;;;
  checked containerId ("git checkout " +++ branch repoInfo) "Git checkout failed: " ;;;
  listDirectory containerId "[GitHub] Error checking directory after clone:" ;;;
  executeCommandInContainer containerId
    ("git config user.name " +++ dq +++ "TurboBackend Agent" +++ dq) ;;;
  executeCommandInContainer containerId
    ("git config user.email " +++ dq +++ "agent@turbobackend.dev" +++ dq) ;;;
  ret tt.

Definition createFeatureBranch (containerId : ContainerId) (branchName : string)
  : M unit :=
  executeCommandInContainer containerId ("git checkout -b " +++ branchName) ;;;
  ret tt.

Definition commitChanges (containerId : ContainerId) (commitMessage : string)
  : M unit :=
  executeCommandInContainer containerId "git add ." ;;;
  executeCommandInContainer containerId
    ("git commit -m " +++ dq +++ commitMessage +++ dq) ;;;
  ret tt.

Definition pushFeatureBranch (containerId : ContainerId) (branchName : string)
  : M unit :=
  executeCommandInContainer containerId ("git push origin " +++ branchName) ;;;
  ret tt.

Definition mergeFeatureBranch (containerId : ContainerId) (branchName : string)
  : M unit :=
  executeCommandInContainer containerId "git checkout main" ;;;
  executeCommandInContainer containerId ("git merge " +++ branchName) ;;;
  ret tt.

Definition pushToMain (containerId : ContainerId) : M unit :=
  executeCommandInContainer containerId "git push origin main" ;;;
  ret tt.

End WithShell.
End GitBranchManager.

(* ================================================================== *)
(** * Deployment platform (worker/services/flyioService.js) *)

(** What [createFlyApp] returns: [{success, appName}], with
    [alreadyExists: true] on two of its paths.  No path sets [error]. *)
Record FlyAppResult : Type := mkFlyAppResult {
  fly_success : bool;
  fly_appName : string;
  fly_alreadyExists : bool
}.

(** The [databaseInfo] handed to a deployment, as its fields read in
    a template literal. *)
Record ConnectionInfo : Type := mkConnectionInfo {
  ci_host : string;
  ci_port : string;
  ci_dbName : string;
  ci_user : string;
  ci_password : string
}.

(** What [deployProjectToFlyIO] returns:
    [{success: true, deploymentUrl, appName}] or [{success: false, error}]. *)
Record DeployResult : Type := mkDeployResult {
  dep_success : bool;
  dep_deploymentUrl : option string;
  dep_appName : option string;
  dep_error : option string
}.

Module FlyioService.

(** A template literal written over several lines: each line ends
    with a line feed. *)
Definition unlines (ls : list string) : string :=
  fold_right (fun l r => l +++ nl +++ r) EmptyString ls.

Definition flyTomlContent (appName : string) : string :=
  unlines
    ["app = " +++ dq +++ appName +++ dq;
     "primary_region = " +++ dq +++ "iad" +++ dq;
     EmptyString;
     "[build]";
     EmptyString;
     "[env]";
     "  PORT = " +++ dq +++ "3000" +++ dq;
     "  NODE_ENV = " +++ dq +++ "production" +++ dq;
     EmptyString;
     "[http_service]";
     "  internal_port = 3000";
     "  force_https = true";
     "  auto_stop_machines = true";
     "  auto_start_machines = true";
     "  min_machines_running = 0";
     "  processes = [" +++ dq +++ "app" +++ dq +++ "]";
     EmptyString;
     "[[vm]]";
     "  cpu_kind = " +++ dq +++ "shared" +++ dq;
     "  cpus = 1";
     "  memory_mb = 256";
     EmptyString;
     "[http_service.concurrency]";
     "  type = " +++ dq +++ "requests" +++ dq;
     "  soft_limit = 200";
     "  hard_limit = 250";
     EmptyString;
     "[experimental]";
     "  auto_stop_machines = true";
     "  auto_start_machines = true";
     "  min_machines_running = 0"].

Definition dockerfileContent : string :=
  unlines
    ["FROM node:20-alpine";
     EmptyString;
     "WORKDIR /app";
     EmptyString;
     "# Install pnpm";
     "RUN npm install -g pnpm";
     EmptyString;
     "# Copy package files";
     "COPY package.json pnpm-lock.yaml ./";
     "RUN pnpm install --prod --frozen-lockfile";
     EmptyString;
     "COPY . .";
     "RUN pnpm run build";
     EmptyString;
     "EXPOSE 3000";
     EmptyString;
     "CMD [" +++ dq +++ "node" +++ dq +++ ", " +++ dq +++ ".output/server/index.mjs" +++ dq +++ "]"].

Section WithShell.

Variable shell : nat -> ContainerId -> string -> reply ExecResult.
(** [JSON.stringify] of the response of the sandbox. *)
Variable stringify : ExecResult -> string.
(** [process.env.FLY_API_TOKEN] *)
Variable flyApiToken : string.

Let executeCommandInContainer := Daytona.executeCommandInContainer shell.

Definition createFlyApp (containerId : ContainerId) (projectId : string)
  : M FlyAppResult :=
  let appName := Names.appName projectId in
  tryCatch
    (result <-
       executeCommandInContainer containerId
         ("export FLY_API_TOKEN=" +++ dq +++ flyApiToken +++ dq
          +++ " && ~/.fly/bin/flyctl apps create " +++ appName +++ " --org personal") ;;
     let resultStr := stringify result in
     if Str.includes resultStr "created" || Str.includes resultStr "New app created"
     then ret (mkFlyAppResult true appName false)
     else if Str.includes resultStr "already exists" || Str.includes resultStr "taken"
     then ret (mkFlyAppResult true appName true)
     else ret (mkFlyAppResult true appName false))
    (fun errorMsg =>
       consoleError "[Fly.io] Error creating app:" ;;;
       if Str.includes errorMsg "already exists" || Str.includes errorMsg "taken"
       then ret (mkFlyAppResult true appName true)
       else throw errorMsg).

(** The creation handler's use of the result:
    [if (!flyAppResult.success) throw new Error(...)]. *)
Definition createFlyAppOrFail (containerId : ContainerId) (projectId : string)
  : M unit :=
  flyAppResult <- createFlyApp containerId projectId ;;
  if negb (fly_success flyAppResult)
  then throw "Failed to create Fly.io app: Unknown error"
  else ret tt.

(** [result.artifacts?.stdout], empty when there is none. *)
Variable artifactsStdout : ExecResult -> string.
(** [JSON.parse(text).some(app => app.Name === appName)]; [None] when
    it throws. *)
Variable listsApp : string -> string -> option bool.
Variable upload : nat -> ContainerId -> string -> string -> reply unit.
(** [fetch(url, ...)]: the [status] of the response. *)
Variable fetchStatus : string -> reply nat.
Variable deploymentInsert : reply unit.
Variable activityInsert : reply unit.

Let writeFileInContainer := Daytona.writeFileInContainer upload.

Definition exportToken : string :=
  "export FLY_API_TOKEN=" +++ dq +++ flyApiToken +++ dq +++ " && ".

Definition createFlyToml (containerId : ContainerId) (projectId : string) : M unit :=
  let appName := Names.appName projectId in
  writeFileInContainer containerId "fly.toml" (flyTomlContent appName) ;;;
  writeFileInContainer containerId "Dockerfile" dockerfileContent.

Definition appsListCommand : string :=
  exportToken +++ "~/.fly/bin/flyctl apps list --json".

(** The response of the sandbox is an object and no array. *)
Definition checkFlyAppExists (containerId : ContainerId) (projectId : string)
  : M bool :=
  let appName := Names.appName projectId in
  tryCatch
    (result <- executeCommandInContainer containerId appsListCommand ;;
     let resultStr :=
       if String.eqb (execResult result) EmptyString
       then artifactsStdout result
       else execResult result in
     if String.eqb resultStr EmptyString
     then ret false
     else
       match listsApp resultStr appName with
       | Some exists_ => ret exists_
       | None =>
           consoleError "[Fly.io] Failed to parse apps list:" ;;;
           ret false
       end)
    (fun _ =>
       consoleError "[Fly.io] Error checking if app exists:" ;;;
       ret false).

Definition verifyDeployment (appUrl : string) : M bool :=
  tryCatch
    (status <- ext (fetchStatus (appUrl +++ "/api/health")) ;;
     ret (status =? 200))
    (fun _ =>
       consoleError "[Fly.io] Deployment verification failed:" ;;;
       ret false).

Definition secretsCommand (appName : string) (databaseInfo : ConnectionInfo) : string :=
  exportToken +++ "~/.fly/bin/flyctl secrets set DB_HOST=" +++ dq +++ ci_host databaseInfo +++ dq
  +++ " DB_PORT=" +++ dq +++ ci_port databaseInfo +++ dq
  +++ " DB_NAME=" +++ dq +++ ci_dbName databaseInfo +++ dq
  +++ " DB_USER=" +++ dq +++ ci_user databaseInfo +++ dq
  +++ " DB_PASSWORD=" +++ dq +++ ci_password databaseInfo +++ dq
  +++ " --app " +++ appName.

Definition setDatabaseSecrets (containerId : ContainerId) (appName : string)
           (databaseInfo : ConnectionInfo) : M unit :=
  tryCatch
    (executeCommandInContainer containerId (secretsCommand appName databaseInfo) ;;;
     ret tt)
    (fun e =>
       consoleError "[Fly.io] Error setting database secrets:" ;;;
       throw e).

Definition installCommand : string := "curl -L https://fly.io/install.sh | sh".

Definition deployCommand (projectId : string) : string :=
  exportToken +++ "~/.fly/bin/flyctl deploy --remote-only --app " +++ Names.appName projectId.

(** The output names a finished deployment (compared in lower case). *)
Definition deployed (resultStr : string) : bool :=
  let resultStrLower := Str.toLowerCase resultStr in
  Str.includes resultStrLower "successfully deployed"
  || Str.includes resultStrLower "deployed successfully"
  || Str.includes resultStrLower "visit your newly deployed app".

(** "7. Store in database" and "Track deployment activity". *)
Definition recordDeployment (projectId userId requestId appName appUrl : string)
  : M DeployResult :=
  query (Insert "project_deployments") deploymentInsert ;;;
  (if negb (String.eqb userId EmptyString)
   then
     tryCatch
       (ActivityTracker.trackActivity activityInsert
          (mkActivityRow projectId requestId "deployment"
             ("Deployed to fly.io: " +++ appUrl) "success") ;;;
        ret tt)
       (fun _ => consoleError "[ActivityTracker] Failed to track deployment:")
   else ret tt) ;;;
  ret (mkDeployResult true (Some appUrl) (Some appName) None).

(** [githubRepoUrl] is not used; [userId] and [requestId] are [null]
    when not given, which reads as the empty text. *)
Definition deployProjectToFlyIO (projectId githubRepoUrl : string)
           (containerId : ContainerId) (databaseInfo : option ConnectionInfo)
           (userId requestId : string) : M DeployResult :=
  let appName := Names.appName projectId in
  createFlyToml containerId projectId ;;;
  executeCommandInContainer containerId installCommand ;;;
  appExists <- checkFlyAppExists containerId projectId ;;
  (if negb appExists
   then createFlyApp containerId projectId ;;; ret tt
   else ret tt) ;;;
  match databaseInfo with
  | Some info => setDatabaseSecrets containerId appName info
  | None => ret tt
  end ;;;
  tryCatch
    (deployResult <- executeCommandInContainer containerId (deployCommand projectId) ;;
     let resultStr := stringify deployResult in
     if deployed resultStr
     then
       let appUrl := "https://" +++ appName +++ ".fly.dev" in
       isHealthy <- verifyDeployment appUrl ;;
       if isHealthy
       then recordDeployment projectId userId requestId appName appUrl
       else
         consoleError "[Fly.io] Deployment verification failed" ;;;
         ret (mkDeployResult false None None (Some "Deployment verification failed"))
     else
       consoleError "[Fly.io] Deployment failed:" ;;;
       ret (mkDeployResult false None None (Some resultStr)))
    (fun e =>
       consoleError "[Fly.io] Deployment error:" ;;;
       ret (mkDeployResult false None None (Some e))).

End WithShell.
End FlyioService.

(* ================================================================== *)
(** * Push to GitHub (worker/utils/githubIntegration.js) *)

(** The body of a response of the GitHub API, as the code reads it. *)
Record GitHubBody : Type := mkGitHubBody {
  body_text : string;               (* [JSON.stringify] of the body *)
  body_message : string;            (* [.message], empty when there is none *)
  body_clone_url : option string    (* [.clone_url] *)
}.

Record GitHubResponse : Type := mkGitHubResponse {
  gh_ok : bool;
  gh_status : nat;
  gh_json : reply GitHubBody        (* [response.json()] *)
}.

(** What [pushToGitHubDeterministic] returns (its [success] is the
    literal [true]). *)
Record PushResult : Type := mkPushResult {
  push_commitSha : string;
  push_commitMessage : string;
  push_filesCount : nat;
  push_repoUrl : string
}.

Module GitHubIntegration.
Section WithShell.

Variable shell : nat -> ContainerId -> string -> reply ExecResult.
(** [JSON.stringify] of the response of the sandbox. *)
Variable stringify : ExecResult -> string.
(** The [stdout] of the response of the sandbox, empty when it has none. *)
Variable stdout : ExecResult -> string.
(** [String.prototype.trim] *)
Variable trim : string -> string.
(** [s.replace(/https:\/\/.*@/, 'https://')] *)
Variable stripCredentials : string -> string.
(** [process.env.GITHUB_ACCESS_TOKEN] *)
Variable githubAccessToken : string.
(** [fetch("https://api.github.com/user/repos", ...)] *)
Variable createRepo : reply GitHubResponse.
(** [new Date().toISOString()] *)
Variable isoNow : string.
Variable repoInsert : reply unit.
Variable historyInsert : reply unit.
Variable activityInsert : reply unit.

Let executeCommandInContainer := Daytona.executeCommandInContainer shell.

Definition createGitHubRepo (projectId : string) : M (option string) :=
  let repoName := "turbobackend-" +++ projectId in
  tryCatch
    (response <- ext createRepo ;;
     if negb (gh_ok response)
     then
       errorData <- ext (gh_json response) ;;
       let errorMsg := Str.toLowerCase (body_text errorData) in
       if (gh_status response =? 422)
          && (Str.includes errorMsg "already" || Str.includes errorMsg "exist")
       then ret (Some ("https://github.com/SaaSManDan/" +++ repoName +++ ".git"))
       else
         throw ("GitHub API error: " +++ Str.ofNat (gh_status response) +++ " - "
                +++ (if String.eqb (body_message errorData) EmptyString
                     then body_text errorData
                     else body_message errorData))
     else
       repoData <- ext (gh_json response) ;;
       ret (body_clone_url repoData))
    (fun err =>
       consoleError "[GitHub] Error creating GitHub repo:" ;;;
       throw err).

(** [if (pushResult.exitCode !== 0) throw ...] *)
Definition pushToOrigin (containerId : ContainerId) : M unit :=
  pushResult <- executeCommandInContainer containerId "git push origin main" ;;
  if negb (exitCode pushResult =? 0)
  then
    consoleError "[GitHub] Push failed:" ;;;
    throw ("Git push failed: " +++ stringify pushResult)
  else ret tt.

(** The branch taken when no remote [origin] is seen. *)
Definition firstPush (containerId : ContainerId) (projectId : string) : M string :=
  repoUrl <- createGitHubRepo projectId ;;
  executeCommandInContainer containerId "git init" ;;;
  executeCommandInContainer containerId "git add ." ;;;
  let commitMessage := "Initial commit - Backend project files" in
  executeCommandInContainer containerId
    ("git commit -m " +++ dq +++ commitMessage +++ dq) ;;;
  authenticatedUrl <-
    match repoUrl with
    | Some url =>
        ret (GitBranchManager.replaceFirst "https://"
               ("https://" +++ githubAccessToken +++ "@") url)
    | None => throw "Cannot read properties of undefined (reading 'replace')"
    end ;;
  executeCommandInContainer containerId ("git remote add origin " +++ authenticatedUrl) ;;;
  executeCommandInContainer containerId "git branch -M main" ;;;
  pushToOrigin containerId ;;;
  query (Insert "project_github_repos") repoInsert ;;;
  ret commitMessage.

(** The branch taken when the remote is there. *)
Definition laterPush (containerId : ContainerId) : M string :=
  gitStatus <- executeCommandInContainer containerId "git status --porcelain" ;;
  commitMessage <-
    (if String.eqb (stdout gitStatus) EmptyString
        || String.eqb (trim (stdout gitStatus)) EmptyString
     then ret "Backend project files"
     else
       executeCommandInContainer containerId "git add ." ;;;
       let commitMessage := "Update backend files - " +++ isoNow in
       executeCommandInContainer containerId
         ("git commit -m " +++ dq +++ commitMessage +++ dq) ;;;
       ret commitMessage) ;;
  pushToOrigin containerId ;;;
  ret commitMessage.

Definition pushToGitHubDeterministic (containerId : ContainerId) (projectId : string)
           (filesModified : list FileModified) (userId requestId : string)
  : M PushResult :=
  remoteResult <- executeCommandInContainer containerId "git remote -v" ;;
  commitMessage <-
    (if String.eqb (stdout remoteResult) EmptyString
        || negb (Str.includes (stdout remoteResult) "origin")
     then firstPush containerId projectId
     else laterPush containerId) ;;
  commitShaResult <- executeCommandInContainer containerId "git rev-parse HEAD" ;;
  if String.eqb (execResult commitShaResult) EmptyString
  then throw ("Failed to get commit SHA. Result: " +++ stringify commitShaResult)
  else
    let commitSha := trim (execResult commitShaResult) in
    repoUrlResult <-
      executeCommandInContainer containerId "git config --get remote.origin.url" ;;
    if String.eqb (execResult repoUrlResult) EmptyString
    then throw ("Failed to get repo URL. Result: " +++ stringify repoUrlResult)
    else
      let repoUrl := stripCredentials (trim (execResult repoUrlResult)) in
      query (Insert "github_push_history") historyInsert ;;;
      (if negb (String.eqb userId EmptyString)
       then
         tryCatch
           (ActivityTracker.trackActivity activityInsert
              (mkActivityRow projectId requestId "github_push"
                 ("Pushed " +++ Str.ofNat (length filesModified) +++ " files to " +++ repoUrl)
                 "success") ;;;
            ret tt)
           (fun _ => consoleError "[ActivityTracker] Failed to track GitHub push:")
       else ret tt) ;;;
      ret (mkPushResult commitSha commitMessage (length filesModified) repoUrl).

End WithShell.
End GitHubIntegration.

(* ================================================================== *)
(** * Modification pipeline
      (worker/handlers/projectModificationExecutionHandler.js,
       worker/utils/githubBranchManager.js,
       worker/processors/projectModification.js) *)

(** What [loadProjectContext] returns; [databaseSchema] is always
    [null]. *)
Record ProjectContext : Type := mkProjectContext {
  ctx_databaseInfo : option ConnectionInfo;
  ctx_files : list string;
  ctx_endpoints : list Endpoints.Endpoint
}.

(** What the collaborators of one modification job do, call by call. *)
Record ModificationEnv : Type := mkModificationEnv {
  m_infra : Infra;
  m_agent : AgentEnv;
  m_box : SandboxEnv;
  m_sandboxCreate : reply string;       (* [daytona.create]: the sandbox id *)
  m_repoRows : reply (list RepoRow);    (* active rows of project_github_repos *)
  m_githubAccessToken : string;         (* [process.env.GITHUB_ACCESS_TOKEN] *)
  m_dateNow : string;                   (* [Date.now()] *)
  m_contextDatabases : reply (list ConnectionInfo);
                                        (* active rows of project_databases, as
                                           [loadProjectContext] reads them *)
  m_prompt : ProjectContext -> string;  (* the system prompt the loop assembles
                                           from the files and endpoints *)
  m_activeDatabases : reply (list string);  (* active rows of project_databases *)
  m_blueprintJson : string -> option string;  (* [JSON.parse] of api-blueprint.json *)
  m_updateBlueprint : reply unit;       (* the UPDATE of api_blueprints *)
  m_flyApiToken : string;               (* [process.env.FLY_API_TOKEN] *)
  m_listsApp : string -> string -> option bool;
                                        (* does the parsed list of apps hold the name *)
  m_fetchStatus : string -> reply nat;  (* [fetch(url)]: the status of the response *)
  m_deploymentInsert : reply unit;      (* the INSERT into project_deployments *)
  m_sessionInsert : reply unit          (* the INSERT into container_sessions *)
}.

(** The local variables of the handler that are alive after COMMIT. *)
Record ModificationLocals : Type := mkModificationLocals {
  ml_containerId : ContainerId;
  ml_branchName : string;
  ml_agentResult : LoopResult;
  ml_deploymentResult : option DeployResult
}.

Record ModificationResult : Type := mkModificationResult {
  mod_requestId : string;
  mod_containerId : ContainerId;
  mod_branchName : string;
  mod_filesModified : list FileModified;
  mod_deploymentResult : option DeployResult
}.

(** [loadProjectContext] (worker/utils/projectContextLoader.js) *)
Module ContextLoader.
Section WithShell.

Variable shell : nat -> ContainerId -> string -> reply ExecResult.
Variable trim : string -> string.
(** The active rows of project_databases. *)
Variable databases : reply (list ConnectionInfo).

Definition findCommand : string :=
  "find server/api -name " +++ dq +++ "*.js" +++ dq +++ " -o -name " +++ dq +++ "*.ts"
  +++ dq +++ " 2>/dev/null || echo " +++ dq +++ "No API files found" +++ dq.

(** [filesResult.result ? filesResult.result.split("\n").filter(...) : []] *)
Definition listedFiles (result : string) : list string :=
  if String.eqb result EmptyString then []
  else
    filter (fun f => negb (String.eqb (trim f) EmptyString)
                     && negb (String.eqb f "No API files found"))
           (Endpoints.split (ascii_of_nat 10) result).

Definition loadProjectContext (containerId : ContainerId) (projectId : string)
  : M ProjectContext :=
  dbResult <- query (Select "project_databases") databases ;;
  let databaseInfo := match dbResult with
                      | [] => None
                      | row :: _ => Some row
                      end in
  filesResult <- Daytona.executeCommandInContainer shell containerId findCommand ;;
  let files := listedFiles (execResult filesResult) in
  ret (mkProjectContext databaseInfo files (map Endpoints.endpointOf files)).

End WithShell.
End ContextLoader.

Module Modification.

Definition getProjectGitHubRepo (projectId : string)
           (rows : reply (list RepoRow)) : M RepoRow :=
  result <- query (Select "project_github_repos") rows ;;
  match result with
  | [] => throw ("No GitHub repository found for project " +++ projectId)
  | row :: _ => ret row
  end.

Definition determineModificationType (filesModified : list FileModified) : string :=
  let hasNewRoutes :=
    existsb (fun f => String.eqb (file_type f) "route" &&
                      match file_isNew f with Some true => true | _ => false end)
            filesModified in
  let hasModifiedRoutes :=
    existsb (fun f => String.eqb (file_type f) "route" &&
                      negb match file_isNew f with Some true => true | _ => false end)
            filesModified in
  if hasNewRoutes then "endpoints_added"
  else if hasModifiedRoutes then "endpoints_modified"
  else "business_logic_modified".

(** The body ends in a TODO comment: the queries are not run. *)
Definition addTablesToExistingDatabase (projectId userId : string)
           (createTableQueries : list DbQueryEntry)
           (rows : reply (list string)) (requestId : string) : M unit :=
  dbResult <- query (Select "project_databases") rows ;;
  match dbResult with
  | [] => throw "No active database found for project"
  | dbInfo :: _ => ret tt
  end.

Section WithEnv.

Variable env : ModificationEnv.

Let publishProgress := Publisher.publishProgress (redisPublish (m_infra env)).
Let publishSuccess := Publisher.publishSuccess (redisPublish (m_infra env)).
Let publishError := Publisher.publishError (redisPublish (m_infra env)).
Let publishToChannel := Publisher.publishToChannel (redisPublish (m_infra env)).
Let trackActivity (projectId requestId actionType details : string) :=
  ActivityTracker.trackActivity (activityInsert (m_infra env) actionType)
    (mkActivityRow projectId requestId actionType details "success").
Let shell := shellOf (m_box env).

(** [readFileFromContainer] (daytonaService.js) *)
Definition readFileFromContainer (containerId : ContainerId) (path : string) : M string :=
  CommandExecutor.sandboxCall
    (fun n c op => inContainer c (sandbox (m_agent env) n c op))
    containerId (OpRead path).

(** Phase 10 *)
Definition redeploy (job : JobData) (requestId : string) (containerId : ContainerId)
           (repoInfo : RepoRow) (projectContext : ProjectContext) : M DeployResult :=
  FlyioService.deployProjectToFlyIO shell (sb_stringify (m_box env)) (m_flyApiToken env)
    (sb_artifactsStdout (m_box env)) (m_listsApp env) (uploadOf (m_box env))
    (m_fetchStatus env) (m_deploymentInsert env)
    (activityInsert (m_infra env) "deployment")
    (project_id job) (repo_url repoInfo) containerId
    (ctx_databaseInfo projectContext) (user_id job) requestId.

(** Phase 7 *)
Definition handleNewTables (job : JobData) (requestId : string)
           (agentResult : LoopResult) : M unit :=
  when (0 <? length (res_dbQueries agentResult))
    (let createTableQueries :=
       filter (fun q => String.eqb (dbq_type q) "CREATE TABLE")
              (res_dbQueries agentResult) in
     when (0 <? length createTableQueries)
       (addTablesToExistingDatabase (project_id job) (user_id job)
          createTableQueries (m_activeDatabases env) requestId ;;;
        trackActivity (project_id job) requestId "tables_added"
          ("Added " +++ Str.ofNat (length createTableQueries) +++ " new tables") ;;;
        ret tt)).

(** Phase 9.5 *)
Definition refreshBlueprint (job : JobData) (streamId : string)
           (containerId : ContainerId) (agentResult : LoopResult) : M unit :=
  when (existsb (fun f => String.eqb (file_path f) "api-blueprint.json")
                (res_filesModified agentResult))
    (tryCatch
       (blueprintContent <- readFileFromContainer containerId "api-blueprint.json" ;;
        match m_blueprintJson env blueprintContent with
        | None => throw "Unexpected token in JSON"
        | Some blueprint =>
            query (Update "api_blueprints") (m_updateBlueprint env) ;;;
            publishToChannel streamId (Typed "apiBlueprint" blueprint)
        end)
       (fun e => consoleError "[ProjectModification] Failed to update API blueprint:")).

(** The [try] block up to, and without, [publishSuccess]. *)
Definition modificationPhases (job : JobData) (requestId streamId : string)
  : M ModificationLocals :=
  query Begin (txBegin (m_infra env)) ;;;
  publishProgress streamId "Provisioning new sandbox..." 10 ;;;
  containerId <- provisionDaytonaContainer (m_sandboxCreate env) ;;
  publishProgress streamId "Sandbox provisioned" 15 ;;;
  repoInfo <- getProjectGitHubRepo (project_id job) (m_repoRows env) ;;
  publishProgress streamId "Repository found" 20 ;;;
  GitBranchManager.cloneProjectFromGitHub shell (m_githubAccessToken env)
    containerId repoInfo ;;;
  publishProgress streamId "Project cloned" 25 ;;;
  let branchName := "feature/modification-" +++ m_dateNow env in
  GitBranchManager.createFeatureBranch shell containerId branchName ;;;
  publishProgress streamId ("Feature branch created: " +++ branchName) 30 ;;;
  projectContext <-
    ContextLoader.loadProjectContext shell (sb_trim (m_box env))
      (m_contextDatabases env) containerId (project_id job) ;;
  publishProgress streamId "Project context loaded" 35 ;;;
  publishProgress streamId "Processing modifications" 40 ;;;
  agentResult <-
    AgenticLoop.runAgenticLoop
      (llm (m_agent env)) (jsonParse (m_agent env)) (sandbox (m_agent env))
      (costInsert (m_agent env))
      (mkLoopParams containerId (project_id job) (user_id job)
         (modificationRequest job) requestId (m_prompt env projectContext)
         (ctx_files projectContext) None)
      (fuel (m_agent env)) ;;
  publishProgress streamId "Modifications complete" 70 ;;;
  handleNewTables job requestId agentResult ;;;
  GitBranchManager.commitChanges shell containerId
    ("Modification: " +++ modificationRequest job) ;;;
  GitBranchManager.pushFeatureBranch shell containerId branchName ;;;
  publishProgress streamId "Feature branch pushed" 80 ;;;
  GitBranchManager.mergeFeatureBranch shell containerId branchName ;;;
  GitBranchManager.pushToMain shell containerId ;;;
  publishProgress streamId "Changes merged to main" 85 ;;;
  refreshBlueprint job streamId containerId agentResult ;;;
  trackActivity (project_id job) requestId "github_push"
    ("Pushed " +++ Str.ofNat (length (res_filesModified agentResult))
     +++ " modified files to " +++ repo_url repoInfo) ;;;
  when (0 <? length (res_filesModified agentResult))
    (trackActivity (project_id job) requestId
       (determineModificationType (res_filesModified agentResult))
       (modificationRequest job +++ " ("
        +++ Str.ofNat (length (res_filesModified agentResult)) +++ " files changed)") ;;;
     ret tt) ;;;
  deploymentResult <-
    (if shouldRedeploy job then
       d <- redeploy job requestId containerId repoInfo projectContext ;;
       publishProgress streamId "Redeployment complete" 95 ;;;
       ret (Some d)
     else ret None) ;;
  query (Insert "container_sessions") (m_sessionInsert env) ;;;
  query Commit (txCommit (m_infra env)) ;;;
  ret (mkModificationLocals containerId branchName agentResult deploymentResult).

(** No result of [deployProjectToFlyIO] has a [url], so that
    [deploymentResult.url] reads as [undefined]. *)
Definition successMessage (l : ModificationLocals) : string :=
  "Project modifications completed successfully!" +++ nl +++ nl +++ "Files modified: "
  +++ Str.ofNat (length (res_filesModified (ml_agentResult l))) +++ nl
  +++ match ml_deploymentResult l with
      | Some _ => "Redeployed to: undefined"
      | None => EmptyString
      end
  +++ nl +++ nl +++ "Summary: " +++ res_summary (ml_agentResult l).

(** The [try] block. *)
Definition modificationBody (job : JobData) (requestId streamId : string)
  : M ModificationResult :=
  l <- modificationPhases job requestId streamId ;;
  publishSuccess streamId (successMessage l) ;;;
  ret (mkModificationResult requestId (ml_containerId l) (ml_branchName l)
         (res_filesModified (ml_agentResult l)) (ml_deploymentResult l)).

Definition handleProjectModificationOrchestration
           (job : JobData) (requestId streamId : string) : M ModificationResult :=
  ext (poolConnect (m_infra env)) ;;;
  finally
    (tryCatch
       (modificationBody job requestId streamId)
       (fun e =>
          query Rollback (txRollback (m_infra env)) ;;;
          consoleError "[ProjectModification] Error:" ;;;
          publishError streamId ("Modification failed: " +++ e) ;;;
          throw e))
    release.

Definition projectModificationProcessor (job : Job) : M ModificationResult :=
  requestId <- ext (logRequest (m_infra env)) ;;
  handleProjectModificationOrchestration
    (job_data job) requestId (streamId (job_data job)).

End WithEnv.
End Modification.

(* ================================================================== *)
(** * Database provisioner (worker/utils/databaseProvisioner.js) *)

Record TableDesign : Type := mkTableDesign {
  tableName : string;
  createQuery : string
}.

Record DatabaseInfo : Type := mkDatabaseInfo {
  db_dbName : string;
  db_tables : nat               (* [schema.tables.length] *)
}.

Record ProvisionEnv : Type := mkProvisionEnv {
  p_createDatabase : string -> reply unit;  (* CREATE DATABASE, by name *)
  p_adminEnd : reply unit;                  (* [adminConnection.end()] *)
  p_databaseInsert : reply unit;
  p_projectConnect : reply unit;            (* [projectDbConnection.connect()] *)
  p_projectBegin : reply unit;
  p_runDdl : string -> reply unit;          (* a createQuery on the project database *)
  p_queryInsert : reply unit;
  p_projectCommit : reply unit;
  p_projectRollback : reply unit;
  p_projectEnd : reply unit;                (* [projectDbConnection.end()] *)
  p_activityInsert : reply unit
}.

Module DatabaseProvisioner.
Section WithEnv.

Variable env : ProvisionEnv.

(** The [for] loop over [schemaDesign.tables]: each query runs on the
    project database and is recorded on the job's client. *)
Fixpoint createTables (dbName : string) (tables : list TableDesign) : M unit :=
  match tables with
  | [] => ret tt
  | table :: rest =>
      onDatabase dbName (DbRun (createQuery table)) (p_runDdl env (createQuery table)) ;;;
      query (Insert "generated_queries") (p_queryInsert env) ;;;
      createTables dbName rest
  end.

(** [schemaDesign.tables.map(t => t.tableName).join(', ')] *)
Definition tableNames (tables : list TableDesign) : string :=
  Endpoints.join ", " (map tableName tables).

Definition provisionAndCreateTables (projectId userId : string)
           (tables : list TableDesign) (requestId : string) : M DatabaseInfo :=
  let dbName := Names.provisionerDbName projectId in
  tryCatch
    (onDatabase "postgres" (DbRun ("CREATE DATABASE " +++ dbName))
       (p_createDatabase env dbName) ;;;
     ext (p_adminEnd env) ;;;
     query (Insert "project_databases") (p_databaseInsert env) ;;;
     onDatabase dbName DbConnect (p_projectConnect env) ;;;
     finally
       (tryCatch
          (onDatabase dbName DbBegin (p_projectBegin env) ;;;
           createTables dbName tables ;;;
           onDatabase dbName DbCommit (p_projectCommit env))
          (fun e => onDatabase dbName DbRollback (p_projectRollback env) ;;; throw e))
       (onDatabase dbName DbEnd (p_projectEnd env)) ;;;
     tryCatch
       (ActivityTracker.trackActivity (p_activityInsert env)
          (mkActivityRow projectId requestId "database_created"
             ("Database '" +++ dbName +++ "' created with "
              +++ Str.ofNat (length tables) +++ " tables: " +++ tableNames tables)
             "success") ;;;
        ret tt)
       (fun e => consoleError "[ActivityTracker] Failed to track database creation:") ;;;
     ret (mkDatabaseInfo dbName (length tables)))
    (fun e =>
       consoleError "[DatabaseProvisioner] Error provisioning database:" ;;;
       throw ("Database provisioning failed: " +++ e)).

End WithEnv.
End DatabaseProvisioner.

(* ================================================================== *)
(** * Intent detectors (worker/utils/authPaymentDetector.js,
      worker/utils/databaseNeedDetector.js) *)

Record Detection : Type := mkDetection {
  needed : bool;
  det_inputTokens : nat;
  det_outputTokens : nat
}.

(** [detectAuthenticationNeed], [detectPaymentNeed], [detectDatabaseNeed]:
    the LLM is called, its answer parsed; any failure gives the default. *)
Definition detectNeed (call : reply LLMReply) (parse : string -> option bool)
  : M Detection :=
  tryCatch
    (result <- ext call ;;
     match parse (text result) with
     | Some answer => ret (mkDetection answer (inputTokens result) (outputTokens result))
     | None => throw "Unexpected token in JSON"
     end)
    (fun e =>
       consoleError "Error detecting need:" ;;;
       ret (mkDetection false 0 0)).

(* ================================================================== *)
(** * Creation pipeline
      (worker/handlers/projectCreationExecutionHandler.js,
       worker/processors/initialProjectCreation.js) *)

(** What the collaborators of one creation job do, call by call. *)
Record CreationEnv : Type := mkCreationEnv {
  c_infra : Infra;
  c_agent : AgentEnv;
  c_prompt : string;                     (* the assembled system prompt *)
  c_authCall : reply LLMReply;           (* the LLM call of the auth detector *)
  c_authParse : string -> option bool;   (* [JSON.parse(...).needsAuth], as a truth value *)
  c_paymentCall : reply LLMReply;
  c_paymentParse : string -> option bool;
  c_dbCall : reply LLMReply;
  c_dbParse : string -> option bool;
  c_designSchema : reply (list TableDesign);  (* [designDatabaseSchema]: its tables *)
  c_provision : ProvisionEnv;
  c_box : SandboxEnv;
  c_sandboxCreate : reply string;        (* [daytona.create]: the sandbox id *)
  c_initializeNitro : reply unit;        (* [initializeNitroProject] *)
  c_containerInsert : reply unit;        (* the INSERT into container_sessions *)
  c_fetchIntegrationSpecs : reply unit;
  c_sessionSelect : reply unit;          (* the SELECT on container_sessions *)
  c_injectCors : reply unit;
  c_exec : string -> reply unit;         (* [executeCommandInContainer], by command *)
  c_injectWorkflow : reply unit;
  c_createFlyToml : reply unit;
  c_createFlyApp : reply (option string);   (* [None]: success; [Some error] *)
  c_deploymentInsert : reply unit;
  c_stripCredentials : string -> string; (* [s.replace(/https:\/\/.*@/, 'https://')] *)
  c_githubAccessToken : string;          (* [process.env.GITHUB_ACCESS_TOKEN] *)
  c_createRepo : reply GitHubResponse;   (* the POST to the GitHub API *)
  c_isoNow : string;                     (* [new Date().toISOString()] *)
  c_repoInsert : reply unit;             (* the INSERT into project_github_repos *)
  c_historyInsert : reply unit;          (* the INSERT into github_push_history *)
  c_setGitHubSecret : reply unit;
  c_syncToS3 : reply string;             (* the object-store path *)
  c_writeBlueprint : reply unit;         (* [writeFileInContainer] of api-blueprint.json *)
  c_nanoid : string;                     (* the blueprint id *)
  c_blueprintInsert : reply unit;
  c_envVarsInsert : reply unit;
  c_credentialInsert : reply unit;
  c_blueprintSelect : reply (list string);   (* [blueprint_content] of the rows read back *)
  c_costText : string                     (* [totalCost.toFixed(4)] *)
}.

(** The local variables of the handler that are alive after COMMIT. *)
Record CreationLocals : Type := mkCreationLocals {
  loc_containerId : ContainerId;
  loc_authInfo : bool;                (* [authInfo?.needsAuth] *)
  loc_paymentInfo : bool;
  loc_databaseInfo : option DatabaseInfo;
  loc_agentResult : LoopResult;
  loc_githubPushResult : option PushResult;
  loc_s3UploadResult : option string;
  loc_blueprintId : option string
}.

Record CreationResult : Type := mkCreationResult {
  cre_requestId : string;
  cre_containerId : ContainerId;
  cre_iterations : nat;
  cre_filesModified : list FileModified;
  cre_databaseInfo : option DatabaseInfo
}.

Module Creation.

(** The filter of "Track endpoints added":
    [f.path && f.path.includes('/api/') && f.path.endsWith('.js')] *)
Definition isRouteFile (f : FileModified) : bool :=
  negb (String.eqb (file_path f) EmptyString) &&
  Str.includes (file_path f) "/api/" && Str.endsWith (file_path f) ".js".

(** envVarTracker.js: both writers catch and log their own failures. *)
Definition storeEnvVarRequirements (insert : reply unit) : M unit :=
  tryCatch
    (query (Insert "project_actions") insert)
    (fun e => consoleError "[EnvVarTracker] Failed to store env var requirements:").

Fixpoint insertCredentials (insert : reply unit) (n : nat) : M unit :=
  match n with
  | 0 => ret tt
  | S k => query (Insert "cloud_credentials") insert ;;; insertCredentials insert k
  end.

Definition storeCredentialPlaceholders (insert : reply unit)
           (authInfo paymentInfo : bool) : M unit :=
  tryCatch
    (insertCredentials insert ((if authInfo then 3 else 0) + (if paymentInfo then 3 else 0)))
    (fun e => consoleError "[CredentialTracker] Failed to store credential placeholders:").

Section WithEnv.

Variable env : CreationEnv.

Let publishProgress := Publisher.publishProgress (redisPublish (c_infra env)).
Let publishSuccess := Publisher.publishSuccess (redisPublish (c_infra env)).
Let publishError := Publisher.publishError (redisPublish (c_infra env)).
Let publishToChannel := Publisher.publishToChannel (redisPublish (c_infra env)).
Let trackActivity (projectId requestId actionType details : string) :=
  ActivityTracker.trackActivity (activityInsert (c_infra env) actionType)
    (mkActivityRow projectId requestId actionType details "success").
Let exec (command : string) : M unit := ext (c_exec env command).
Let shell := shellOf (c_box env).

(** [getOrProvisionContainer] (daytonaService.js): a new sandbox is
    provisioned, its tools installed and the project initialized; the
    session is recorded on the job's client. *)
Definition getOrProvisionContainer : M ContainerId :=
  containerId <- provisionDaytonaContainer (c_sandboxCreate env) ;;
  Daytona.executeCommandInContainer shell containerId
    "apt update && apt install -y tree awscli" ;;;
  ext (inContainer containerId (c_initializeNitro env)) ;;;
  query (Insert "container_sessions") (c_containerInsert env) ;;;
  ret containerId.

(** [`${containerId}`] *)
Definition idText (containerId : ContainerId) : string :=
  match containerId with
  | Some id => id
  | None => "undefined"
  end.

(** Phase 0.3 and Phase 0.5 *)
Definition detectionPhases (job : JobData) (requestId streamId : string)
  : M (bool * bool * option DatabaseInfo) :=
  authResult <- detectNeed (c_authCall env) (c_authParse env) ;;
  when (needed authResult)
    (publishProgress streamId "Authentication required - Clerk will be configured" 8) ;;;
  paymentResult <- detectNeed (c_paymentCall env) (c_paymentParse env) ;;
  when (needed paymentResult)
    (publishProgress streamId "Payment processing required - Stripe will be configured" 9) ;;;
  detectionResult <- detectNeed (c_dbCall env) (c_dbParse env) ;;
  databaseInfo <-
    (if needed detectionResult then
       publishProgress streamId "Database required - designing schema..." 12 ;;;
       schema <- ext (c_designSchema env) ;;
       publishProgress streamId "Provisioning database..." 15 ;;;
       info <- DatabaseProvisioner.provisionAndCreateTables (c_provision env)
                 (project_id job) (user_id job) schema requestId ;;
       publishProgress streamId ("Database provisioned: " +++ db_dbName info) 18 ;;;
       ret (Some info)
     else ret None) ;;
  ret (needed authResult, needed paymentResult, databaseInfo).

(** "Track project creation": a [try] whose [catch] only logs. *)
Definition trackProjectCreated (job : JobData) (requestId : string)
           (containerId : ContainerId) : M unit :=
  tryCatch
    (query (Select "container_sessions") (c_sessionSelect env) ;;;
     trackActivity (project_id job) requestId "project_created"
       ("Project created with container " +++ idText containerId) ;;;
     ret tt)
    (fun e => consoleError "[ActivityTracker] Failed to track project creation:").

(** From "Inject CORS middleware" to the deployment record. *)
Definition deploymentPreparation (job : JobData) (streamId : string)
           (databaseInfo : option DatabaseInfo) : M unit :=
  ext (c_injectCors env) ;;;
  publishProgress streamId "CORS configured" 72 ;;;
  when (match databaseInfo with Some _ => true | None => false end)
    (exec "git add server/utils/db.js" ;;;
     exec ("git commit -m " +++ dq +++ "Add database connection file" +++ dq) ;;;
     publishProgress streamId "Database connection file committed" 73) ;;;
  ext (c_injectWorkflow env) ;;;
  publishProgress streamId "GitHub Actions configured" 74 ;;;
  ext (c_createFlyToml env) ;;;
  publishProgress streamId "Deployment files created" 76 ;;;
  exec "curl -L https://fly.io/install.sh | sh" ;;;
  publishProgress streamId "flyctl installed" 77 ;;;
  flyAppResult <- ext (c_createFlyApp env) ;;
  match flyAppResult with
  | Some error => throw ("Failed to create Fly.io app: " +++ error)
  | None => ret tt
  end ;;;
  publishProgress streamId "Fly.io app created" 78 ;;;
  when (match databaseInfo with Some _ => true | None => false end)
    (exec ("flyctl secrets set --app " +++ Names.appName (project_id job)) ;;;
     publishProgress streamId "Database secrets configured in Fly.io" 79) ;;;
  query (Insert "project_deployments") (c_deploymentInsert env).

(** [`${method} ${path}`] of a route file, derived as in
    [loadProjectContext]. *)
Definition endpointText (f : FileModified) : string :=
  let endpoint := Endpoints.endpointOf (file_path f) in
  Endpoints.ep_method endpoint +++ " " +++ Endpoints.ep_path endpoint.

(** "Track endpoints added": a [try] whose [catch] only logs. *)
Definition trackEndpoints (job : JobData) (requestId : string)
           (agentResult : LoopResult) : M unit :=
  when (0 <? length (res_filesModified agentResult))
    (tryCatch
       (let routeFiles := filter isRouteFile (res_filesModified agentResult) in
        when (0 <? length routeFiles)
          (let endpointList := Endpoints.join ", " (map endpointText routeFiles) in
           trackActivity (project_id job) requestId "endpoints_added"
             ("Added " +++ Str.ofNat (length routeFiles) +++ " endpoints: "
              +++ endpointList) ;;;
           ret tt))
       (fun e => consoleError "[ActivityTracker] Failed to track endpoints:")).

(** [pushToGitHubDeterministic] with the collaborators of the job. *)
Definition pushToGitHub (job : JobData) (requestId : string) (containerId : ContainerId)
           (agentResult : LoopResult) : M PushResult :=
  GitHubIntegration.pushToGitHubDeterministic shell (sb_stringify (c_box env))
    (sb_stdout (c_box env)) (sb_trim (c_box env)) (c_stripCredentials env)
    (c_githubAccessToken env) (c_createRepo env) (c_isoNow env)
    (c_repoInsert env) (c_historyInsert env)
    (activityInsert (c_infra env) "github_push")
    containerId (project_id job) (res_filesModified agentResult)
    (user_id job) requestId.

(** Phase 3: commit, push, repository secret, object store. *)
Definition postExecution (job : JobData) (requestId streamId : string)
           (containerId : ContainerId) (agentResult : LoopResult)
  : M (option PushResult * option string) :=
  if 0 <? length (res_filesModified agentResult) then
    exec "git add server/middleware/00.cors.js .github/workflows/fly.yml fly.toml Dockerfile" ;;;
    exec ("git commit -m " +++ dq
          +++ "Add CORS middleware, GitHub Actions workflow, and Fly.io deployment files"
          +++ dq) ;;;
    githubPushResult <- pushToGitHub job requestId containerId agentResult ;;
    publishProgress streamId "Code pushed to GitHub" 80 ;;;
    tryCatch (ext (c_setGitHubSecret env))
      (fun e => consoleError "[AgenticExecution] Failed to set GitHub secret:") ;;;
    s3Path <- ext (c_syncToS3 env) ;;
    publishProgress streamId "Files uploaded to S3" 90 ;;;
    ret (Some githubPushResult, Some s3Path)
  else ret (None, None).

(** "Save API blueprint to database and file if generated" *)
Definition saveBlueprint (agentResult : LoopResult) : M (option string) :=
  match res_apiBlueprint agentResult with
  | Some blueprint =>
      ext (c_writeBlueprint env) ;;;
      exec "git add api-blueprint.json" ;;;
      exec ("git commit -m " +++ dq +++ "Add API blueprint" +++ dq) ;;;
      query (Insert "api_blueprints") (c_blueprintInsert env) ;;;
      ret (Some (c_nanoid env))
  | None => ret None
  end.

(** The [try] block from Phase 0.3 up to, and without, [publishSuccess]. *)
Definition pipelinePhases (job : JobData) (requestId streamId : string)
  : M CreationLocals :=
  detected <- detectionPhases job requestId streamId ;;
  let '(authInfo, paymentInfo, databaseInfo) := detected in
  containerId <- getOrProvisionContainer ;;
  publishProgress streamId "Container provisioned" 20 ;;;
  when (authInfo || paymentInfo)
    (publishProgress streamId "Loading integration specifications..." 25 ;;;
     ext (c_fetchIntegrationSpecs env) ;;;
     publishProgress streamId "Integration specs loaded" 28) ;;;
  trackProjectCreated job requestId containerId ;;;
  publishProgress streamId "Starting agentic loop" 30 ;;;
  agentResult <-
    AgenticLoop.runAgenticLoop
      (llm (c_agent env)) (jsonParse (c_agent env)) (sandbox (c_agent env))
      (costInsert (c_agent env))
      (mkLoopParams containerId (project_id job) (user_id job)
         (userPrompt job) requestId (c_prompt env) [] None)
      (fuel (c_agent env)) ;;
  publishProgress streamId "Agentic loop complete" 70 ;;;
  deploymentPreparation job streamId databaseInfo ;;;
  trackEndpoints job requestId agentResult ;;;
  pushed <- postExecution job requestId streamId containerId agentResult ;;
  blueprintId <- saveBlueprint agentResult ;;
  when (authInfo || paymentInfo)
    (storeEnvVarRequirements (c_envVarsInsert env) ;;;
     storeCredentialPlaceholders (c_credentialInsert env) authInfo paymentInfo) ;;;
  query Commit (txCommit (c_infra env)) ;;;
  match blueprintId with
  | Some _ =>
      rows <- query (Select "api_blueprints") (c_blueprintSelect env) ;;
      match rows with
      | content :: _ => publishToChannel streamId (Typed "apiBlueprint" content)
      | [] => ret tt
      end
  | None => ret tt
  end ;;;
  ret (mkCreationLocals containerId authInfo paymentInfo databaseInfo agentResult
         (fst pushed) (snd pushed) blueprintId).

(** The [try] block up to, and without, [publishSuccess]: BEGIN, the
    initial progress, then the phases. *)
Definition creationPhases (job : JobData) (requestId streamId : string)
  : M CreationLocals :=
  query Begin (txBegin (c_infra env)) ;;;
  publishProgress streamId "Starting execution..." 10 ;;;
  pipelinePhases job requestId streamId.

(** [successParts.join('\n')] *)
Definition successMessage (job : JobData) (l : CreationLocals) : string :=
  let agentResult := loc_agentResult l in
  "Project created successfully!" +++ nl +++ nl
  +++ "Files modified: " +++ Str.ofNat (length (res_filesModified agentResult)) +++ nl
  +++ match loc_databaseInfo l with
      | Some d => "Database: " +++ db_dbName d +++ " (" +++ Str.ofNat (db_tables d)
                  +++ " tables)" +++ nl
      | None => EmptyString
      end
  +++ match loc_githubPushResult l with
      | Some pushed =>
          if String.eqb (push_repoUrl pushed) EmptyString then EmptyString
          else "GitHub: " +++ push_repoUrl pushed +++ nl
      | None => EmptyString
      end
  +++ match loc_s3UploadResult l with
      | Some _ => "S3: Files backed up" +++ nl
      | None => EmptyString
      end
  +++ (if loc_authInfo l
       then nl +++ "CLERK: Add CLERK_SECRET_KEY and CLERK_PUBLISHABLE_KEY to .env" +++ nl
       else EmptyString)
  +++ (if loc_paymentInfo l
       then "STRIPE: Add STRIPE_SECRET_KEY, STRIPE_PUBLISHABLE_KEY, and STRIPE_WEBHOOK_SECRET to .env" +++ nl
       else EmptyString)
  +++ match loc_blueprintId l with
      | Some id => nl +++ "API Blueprint: " +++ id +++ nl
      | None => EmptyString
      end
  +++ "Summary: " +++ res_summary agentResult +++ nl
  +++ "Cost: $" +++ c_costText env +++ nl
  +++ nl +++ "Deploying to: " +++ Names.deploymentUrl (project_id job) +++ nl
  +++ "(GitHub Actions deployment triggered, check "
  +++ match loc_githubPushResult l with
      | Some pushed => push_repoUrl pushed
      | None => "undefined"
      end
  +++ "/actions)".

(** "Notify that GitHub Actions will handle deployment" *)
Definition notifyDeployment (job : JobData) (streamId : string)
           (l : CreationLocals) : M unit :=
  when ((0 <? length (res_filesModified (loc_agentResult l))) &&
        match loc_githubPushResult l with Some _ => true | None => false end)
    (publishToChannel streamId
       (Typed "deployment_triggered" (Names.deploymentUrl (project_id job)))).

Definition creationBody (job : JobData) (requestId streamId : string)
  : M CreationResult :=
  l <- creationPhases job requestId streamId ;;
  publishSuccess streamId (successMessage job l) ;;;
  notifyDeployment job streamId l ;;;
  ret (mkCreationResult requestId (loc_containerId l)
         (iterations (loc_agentResult l))
         (res_filesModified (loc_agentResult l))
         (loc_databaseInfo l)).

Definition handleProjectCreationOrchestration
           (job : JobData) (requestId streamId : string) : M CreationResult :=
  ext (poolConnect (c_infra env)) ;;;
  finally
    (tryCatch
       (creationBody job requestId streamId)
       (fun e =>
          query Rollback (txRollback (c_infra env)) ;;;
          consoleError "[AgenticExecution] Error:" ;;;
          publishError streamId
            ("Execution failed: " +++ (if String.eqb e EmptyString then "Unknown error" else e)) ;;;
          throw e))
    release.

Definition initialProjectCreationProcessor (job : Job) : M CreationResult :=
  requestId <- ext (logRequest (c_infra env)) ;;
  handleProjectCreationOrchestration
    (job_data job) requestId (streamId (job_data job)).

End WithEnv.
End Creation.

(* ================================================================== *)
(** * Secret-sync job
      (worker/processors/flyioSecretsSyncProcessor.js,
       worker/handlers/flyioSecretsHandler.js) *)

(** What the collaborators of one secret-sync job do, call by call. *)
Record SecretSyncEnv : Type := mkSecretSyncEnv {
  s_infra : Infra;
  s_deployments : reply (list string);   (* app names of deployed records *)
  s_sandboxCreate : reply string;
  s_install : reply unit;
  s_flyApiToken : option string;
  s_setSecret : reply (nat * string);    (* flyctl: its exit code and the text of
                                            [result.stderr || result.stdout] *)
  s_successInsert : reply unit;
  s_failureInsert : reply unit;
  s_stop : reply unit
}.

(** [{success: true}] or [{success: false, error}] *)
Inductive SyncResult : Type :=
| Synced
| NotSynced (error : string).

Module SecretSync.
Section WithEnv.

Variable env : SecretSyncEnv.

(** The [try] block of [syncCredentialsToFlyio]; the container id is
    returned with the outcome because the [finally] block reads it. *)
Definition syncAttempt (containerId : ContainerId) : M SyncResult :=
  ext (inContainer containerId (s_install env)) ;;;
  match s_flyApiToken env with
  | None => throw "FLY_API_TOKEN not found in environment variables"
  | Some _ =>
      result <- ext (inContainer containerId (s_setSecret env)) ;;
      if negb (fst result =? 0) then throw ("flyctl command failed: " +++ snd result)
      else
        query (Insert "project_actions") (s_successInsert env) ;;;
        ret Synced
  end.

Definition recordFailure (e : string) : M SyncResult :=
  consoleError "[FlyioSecrets] Error syncing credentials:" ;;;
  query (Insert "project_actions") (s_failureInsert env) ;;;
  ret (NotSynced e).

Definition tearDown (containerId : ContainerId) : M unit :=
  match containerId with
  | Some _ =>
      tryCatch (ext (s_stop env))
        (fun e => consoleError "[FlyioSecrets] Error stopping container:")
  | None => ret tt
  end.

Definition syncCredentialsToFlyio (projectId credentialName credentialValue : string)
  : M SyncResult :=
  fun w =>
    match query (Select "project_deployments") (s_deployments env) w with
    | (Throw e, w1) => recordFailure e w1
    | (OutOfFuel, w1) => (OutOfFuel, w1)
    | (Ok [], w1) => (Ok (NotSynced "No Fly.io deployment found for this project"), w1)
    | (Ok (appName :: _), w1) =>
        match provisionDaytonaContainer (s_sandboxCreate env) w1 with
        | (Ok containerId, w2) =>
            finally (tryCatch (syncAttempt containerId) recordFailure)
                    (tearDown containerId) w2
        | (Throw e, w2) => recordFailure e w2
        | (OutOfFuel, w2) => (OutOfFuel, w2)
        end
    end.

Definition flyioSecretsSyncProcessor (job : Job) : M unit :=
  ext (poolConnect (s_infra env)) ;;;
  finally
    (tryCatch
       (query Begin (txBegin (s_infra env)) ;;;
        result <- syncCredentialsToFlyio (project_id (job_data job))
                    (credentialName (job_data job)) (credentialValue (job_data job)) ;;
        match result with
        | Synced => query Commit (txCommit (s_infra env))
        | NotSynced error =>
            query Rollback (txRollback (s_infra env)) ;;;
            consoleError "[FlyioSecretsProcessor] Job failed:" ;;;
            throw error
        end)
       (fun e =>
          query Rollback (txRollback (s_infra env)) ;;;
          consoleError "[FlyioSecretsProcessor] Error:" ;;;
          throw e))
    release.

End WithEnv.
End SecretSync.

(* ================================================================== *)
(** * Dispatcher (worker/index.js, worker/processors/processorFunctions.js) *)

Record WorkerEnv : Type := mkWorkerEnv {
  w_creation : CreationEnv;
  w_modification : ModificationEnv;
  w_secretSync : SecretSyncEnv
}.

(** What the callback of the worker returns to the queue: the result
    of a processor, or what a built-in of [Object.prototype] returns
    when it is called in its place. *)
Inductive JobReturn : Type :=
| Created (r : CreationResult)
| Modified (r : ModificationResult)
| SecretsSynced
| Boxed (job : Job)                (* [Object(job)], the job itself *)
| Text (value : string).

Module Dispatcher.
Section WithEnv.

Variable env : WorkerEnv.

(** The registry is an object literal, so [registry[jobName]] also
    finds what the literal inherits from [Object.prototype].  What is
    found is called as [processor(job)], without a receiver:
    [Object(job)] is the job, [toString] answers for [undefined], the
    other methods throw when they convert their receiver, and the
    prototype itself ([__proto__]) is no function.  The messages are
    those of the engine. *)
Definition receiverless : list string :=
  ["toLocaleString"; "valueOf"; "hasOwnProperty"; "isPrototypeOf";
   "propertyIsEnumerable"; "__defineGetter__"; "__defineSetter__";
   "__lookupGetter__"; "__lookupSetter__"].

Definition inherited (jobName : string) : option (Job -> M JobReturn) :=
  if String.eqb jobName "constructor" then Some (fun job => ret (Boxed job))
  else if String.eqb jobName "toString" then Some (fun _ => ret (Text "[object Undefined]"))
  else if String.eqb jobName "__proto__" then
    Some (fun _ => throw "processor is not a function")
  else if existsb (String.eqb jobName) receiverless then
    Some (fun _ => throw "Cannot convert undefined or null to object")
  else None.

(** [getProcessor]: the registry of processors by job name. *)
Definition getProcessor (jobName : string) : option (Job -> M JobReturn) :=
  if String.eqb jobName "initialProjectCreationJob" then
    Some (fun job =>
            r <- Creation.initialProjectCreationProcessor (w_creation env) job ;;
            ret (Created r))
  else if String.eqb jobName "projectModificationJob" then
    Some (fun job =>
            r <- Modification.projectModificationProcessor (w_modification env) job ;;
            ret (Modified r))
  else if String.eqb jobName "sync-flyio-secrets" then
    Some (fun job =>
            SecretSync.flyioSecretsSyncProcessor (w_secretSync env) job ;;;
            ret SecretsSynced)
  else inherited jobName.

(** The callback given to the BullMQ [Worker]. *)
Definition processJob (job : Job) : M JobReturn :=
  match getProcessor (job_name job) with
  | None =>
      throw ("No processor registered for job " +++ dq +++ job_name job +++ dq)
  | Some processor => processor job
  end.

End WithEnv.
End Dispatcher.

(* ================================================================== *)
(** * Queries on the project database (worker/utils/devDatabaseExecutor.js) *)

(** An element of [executionResults]:
    [{query, schemaName, type, success: true, rowsAffected}] or
    [{query, schemaName, type, success: false, error}]; the row count
    is not kept. *)
Record DevQueryResult : Type := mkDevQueryResult {
  dqr_query : string;
  dqr_schemaName : string;
  dqr_type : string;
  dqr_success : bool;
  dqr_error : option string
}.

(** What [executeDevDatabaseQueries] returns (its [success] is the
    literal [true]). *)
Record DevExecution : Type := mkDevExecution {
  dev_queriesExecuted : nat;
  dev_results : list DevQueryResult;
  dev_dbName : string
}.

(** What the collaborators of one call do. *)
Record DevDatabaseEnv : Type := mkDevDatabaseEnv {
  d_activeDatabases : reply (list string);  (* [db_name] of the active rows *)
  d_createDatabase : string -> reply unit;  (* CREATE DATABASE, by name *)
  d_adminEnd : reply unit;                  (* [adminConnection.end()] *)
  d_databaseInsert : reply unit;
  d_connect : reply unit;                   (* [devDbConnection.connect()] *)
  d_begin : reply unit;
  d_run : string -> reply unit;             (* a query on the project database *)
  d_executedInsert : reply unit;            (* the row of generated_queries, 'executed' *)
  d_failedInsert : reply unit;              (* the row of generated_queries, 'failed' *)
  d_commit : reply unit;
  d_rollback : reply unit;
  d_activityInsert : reply unit;
  d_end : reply unit                        (* [devDbConnection.end()] *)
}.

Module DevDatabaseExecutor.

(** [s.replace(/pattern/g, replacement)] for a pattern that is a fixed
    text: [skip] counts the characters of the match being replaced
    that are still to be passed over. *)
Fixpoint replaceAllFrom (pattern replacement : string) (skip : nat) (s : string)
  : string :=
  match s with
  | EmptyString => EmptyString
  | String c r =>
      match skip with
      | S k => replaceAllFrom pattern replacement k r
      | 0 =>
          if String.prefix pattern s
          then replacement +++ replaceAllFrom pattern replacement (String.length pattern - 1) r
          else String c (replaceAllFrom pattern replacement 0 r)
      end
  end.

(** [[...new Set(names)]]: the names in the order of their first
    occurrence. *)
Fixpoint unique (seen names : list string) : list string :=
  match names with
  | [] => []
  | name :: rest =>
      if existsb (String.eqb name) seen then unique seen rest
      else name :: unique (name :: seen) rest
  end.

(** [queryObj.query.replace(/turbobackend\./g, 'public.')] *)
Definition modifiedQuery (q : DbQueryEntry) : string :=
  replaceAllFrom "turbobackend." "public." 0 (dbq_query q).

Section WithEnv.

Variable env : DevDatabaseEnv.

(** The body of the [for] loop: the inner [try] holds the query and
    the bookkeeping row, the [catch] records the failure and throws
    the error again (the entry it pushes is lost with the local list,
    which is not returned). *)
Definition runQuery (dbName : string) (q : DbQueryEntry)
           (executionResults : list DevQueryResult) : M (list DevQueryResult) :=
  fun w =>
    match onDatabase dbName (DbRun (modifiedQuery q)) (d_run env (modifiedQuery q)) w with
    | (Ok _, w1) =>
        let pushed :=
          executionResults
          ++ [mkDevQueryResult (modifiedQuery q) (dbq_schemaName q) (dbq_type q) true None] in
        match query (Insert "generated_queries") (d_executedInsert env) w1 with
        | (Ok _, w2) => (Ok pushed, w2)
        | (Throw e, w2) =>
            (query (Insert "generated_queries") (d_failedInsert env) ;;;
             consoleError "[DevDB] Failed:" ;;;
             throw e) w2
        | (OutOfFuel, w2) => (OutOfFuel, w2)
        end
    | (Throw e, w1) =>
        (query (Insert "generated_queries") (d_failedInsert env) ;;;
         consoleError "[DevDB] Failed:" ;;;
         throw e) w1
    | (OutOfFuel, w1) => (OutOfFuel, w1)
    end.

Fixpoint forQueries (dbName : string) (queries : list DbQueryEntry)
         (executionResults : list DevQueryResult) : M (list DevQueryResult) :=
  match queries with
  | [] => ret executionResults
  | q :: rest =>
      results <- runQuery dbName q executionResults ;;
      forQueries dbName rest results
  end.

(** "Check if project has a database": the name of the active
    database, or of the one created and recorded for the project. *)
Definition projectDatabase (projectId : string) : M string :=
  rows <- query (Select "project_databases") (d_activeDatabases env) ;;
  match rows with
  | [] =>
      let dbName := Names.devExecutorDbName projectId in
      onDatabase "postgres" (DbRun ("CREATE DATABASE " +++ dbName))
        (d_createDatabase env dbName) ;;;
      ext (d_adminEnd env) ;;;
      query (Insert "project_databases") (d_databaseInsert env) ;;;
      ret dbName
  | row :: _ => ret row
  end.

(** From "Connect to project's database" to the end of the function. *)
Definition runOnDatabase (dbName projectId : string) (queries : list DbQueryEntry)
           (userId requestId : string) : M DevExecution :=
  onDatabase dbName DbConnect (d_connect env) ;;;
  finally
    (tryCatch
       (onDatabase dbName DbBegin (d_begin env) ;;;
        executionResults <- forQueries dbName queries [] ;;
        onDatabase dbName DbCommit (d_commit env) ;;;
        when (negb (String.eqb userId EmptyString) && (0 <? length executionResults))
          (tryCatch
             (let tableNames :=
                Endpoints.join ", " (unique [] (map dqr_schemaName executionResults)) in
              ActivityTracker.trackActivity (d_activityInsert env)
                (mkActivityRow projectId requestId "queries_executed"
                   ("Executed " +++ Str.ofNat (length executionResults)
                    +++ " queries affecting tables: " +++ tableNames) "success") ;;;
              ret tt)
             (fun e =>
                consoleError "[ActivityTracker] Failed to track query execution:")) ;;;
        ret (mkDevExecution (length executionResults) executionResults dbName))
       (fun e => onDatabase dbName DbRollback (d_rollback env) ;;; throw e))
    (onDatabase dbName DbEnd (d_end env)).

Definition executeDevDatabaseQueries (projectId : string) (queries : list DbQueryEntry)
           (userId requestId : string) : M DevExecution :=
  dbName <- projectDatabase projectId ;;
  runOnDatabase dbName projectId queries userId requestId.

End WithEnv.
End DevDatabaseExecutor.

(* ================================================================== *)
(** * Usage objects and the cost row
      (utils/messageCostTracker.js, worker/llms/openai-stream.js) *)

Module Usage.

(** A usage object: its own properties, the values being counts. *)
Definition UsageMetadata : Type := list (string * nat).

(** [object[key]]: [None] is [undefined]. *)
Fixpoint field (object : UsageMetadata) (key : string) : option nat :=
  match object with
  | [] => None
  | (k, v) :: rest => if String.eqb k key then Some v else field rest key
  end.

(** [value || 0] *)
Definition orZero (value : option nat) : nat :=
  match value with
  | Some n => n
  | None => 0
  end.

(** [trackMessageCost] from the object it is called with: the token
    counts are read from [usageMetadata.inputTokens] and
    [usageMetadata.outputTokens]. *)
Definition trackMessageCost (insert : reply unit) (usageMetadata : UsageMetadata)
           (projectId jobId userId promptContent messageType model : string) : M unit :=
  let tokenIn := orZero (field usageMetadata "inputTokens") in
  let tokenOut := orZero (field usageMetadata "outputTokens") in
  CostTracker.trackMessageCost insert
    (mkCostRow projectId jobId userId promptContent messageType model tokenIn tokenOut).

(** The block [if (chunk.usage) { try { ... } catch { ... } }] of
    [callOpenAIStream], for a chunk that carries a usage. *)
Definition openAIUsageBlock (insert : reply unit)
           (prompt_tokens completion_tokens total_tokens : nat)
           (jobId prompt projectId userId : string) : M unit :=
  tryCatch
    (trackMessageCost insert
       [("promptTokenCount", prompt_tokens);
        ("candidatesTokenCount", completion_tokens);
        ("totalTokenCount", total_tokens)]
       projectId jobId userId (String.substring 0 500 prompt)
       "openai-stream" "gpt-5-nano")
    (fun e => consoleError "[callOpenAIStream] Cost tracking failed:").

End Usage.

(* ================================================================== *)
(** * Vocabulary of the properties *)

(** [keeps f m]: running [m] does not change the observation [f] of the
    world, however [m] ends. *)
Definition keeps {X A : Type} (f : World -> X) (m : M A) : Prop :=
  forall w, f (snd (m w)) = f w.

(** [blind f u]: the observation [f] does not see the update [u]. *)
Definition blind {X : Type} (f : World -> X) (u : World -> World) : Prop :=
  forall w, f (u w) = f w.

(** The turn of the loop at which this reply ends it: the call
    rejects, or the answer parses to [taskComplete === true]. *)
Definition endsLoop (jsonParse : string -> option AgentResponse)
           (r : reply LLMReply) : bool :=
  match r with
  | Rejects _ => true
  | Resolves result =>
      match AgenticLoop.parseAgentResponse jsonParse (text result) with
      | Some agentResponse => taskComplete agentResponse
      | None => false
      end
  end.

(** The classification of a modification as the specification words it. *)
Definition newRoutes (filesModified : list FileModified) : list FileModified :=
  filter (fun f => String.eqb (file_type f) "route" &&
                   match file_isNew f with Some true => true | _ => false end)
         filesModified.

Definition changedRoutes (filesModified : list FileModified) : list FileModified :=
  filter (fun f => String.eqb (file_type f) "route" &&
                   negb match file_isNew f with Some true => true | _ => false end)
         filesModified.

Definition specModificationType (filesModified : list FileModified) : string :=
  match newRoutes filesModified, changedRoutes filesModified with
  | _ :: _, _ => "endpoints_added"
  | [], _ :: _ => "endpoints_modified"
  | [], [] => "business_logic_modified"
  end.


(** [settles m]: [m] ends within the turns the model unfolds. *)
Definition settles {A : Type} (m : M A) : Prop :=
  forall w, fst (m w) <> OutOfFuel.

(** The agent ends its loop within the turns the model unfolds: one of
    the first [fuel] calls of the LLM rejects or answers with
    [taskComplete === true]. *)
Definition agentEnds (a : AgentEnv) : Prop :=
  exists k, 1 <= k <= fuel a /\ endsLoop (jsonParse a) (llm a k) = true.

(** The progress values of the messages on the bus, oldest first. *)
Fixpoint allProgress (b : list (string * Message)) : list nat :=
  match b with
  | [] => []
  | (_, Progress _ p) :: r => p :: allProgress r
  | _ :: r => allProgress r
  end.

(** [ascending lo ps]: [ps] is non-decreasing and starts at [lo] or above. *)
Fixpoint ascending (lo : nat) (ps : list nat) : Prop :=
  match ps with
  | [] => True
  | p :: r => lo <= p /\ ascending p r
  end.

(** [climbs lo hi m]: the progress values that [m] publishes are
    non-decreasing from [lo] on, and when [m] returns the last one (or
    [lo], if there is none) is at most [hi]. *)
Definition climbs {A : Type} (lo hi : nat) (m : M A) : Prop :=
  forall w, exists ps,
    allProgress (bus (snd (m w))) = allProgress (bus w) ++ ps
    /\ ascending lo ps
    /\ (forall a, fst (m w) = Ok a -> last ps lo <= hi).

(** [emits Q m]: the progress values that [m] publishes, in order,
    satisfy [Q], however [m] ends. *)
Definition emits {A : Type} (Q : list nat -> Prop) (m : M A) : Prop :=
  forall w, exists ps,
    allProgress (bus (snd (m w))) = allProgress (bus w) ++ ps /\ Q ps.

(** The tokens of the first [n] turns of a loop whose answer parsed
    (as it was, or after sanitizing): input and output. *)
Fixpoint parsedTokens (llm : nat -> reply LLMReply)
         (jsonParse : string -> option AgentResponse) (n : nat) : nat * nat :=
  match n with
  | 0 => (0, 0)
  | S k =>
      let (i, o) := parsedTokens llm jsonParse k in
      match llm (S k) with
      | Resolves result =>
          match AgenticLoop.parseAgentResponse jsonParse (text result) with
          | Some _ => (i + inputTokens result, o + outputTokens result)
          | None => (i, o)
          end
      | Rejects _ => (i, o)
      end
  end.

(** The tokens that the first [n] calls of the LLM used. *)
Fixpoint usedTokens (llm : nat -> reply LLMReply) (n : nat) : nat * nat :=
  match n with
  | 0 => (0, 0)
  | S k =>
      let (i, o) := usedTokens llm k in
      match llm (S k) with
      | Resolves result => (i + inputTokens result, o + outputTokens result)
      | Rejects _ => (i, o)
      end
  end.

(** The control database of a job does what the handler's frame asks
    of it: the request is logged, a client is handed out and ROLLBACK
    runs. *)
Definition workable (i : Infra) : Prop :=
  (exists requestId, logRequest i = Resolves requestId)
  /\ poolConnect i = Resolves tt
  /\ txRollback i = Resolves tt.

(** The publication of the terminal error was lost: the job has
    published no terminal message, the last publication it attempted
    was rejected by the bus, and what the job threw is that rejection. *)
Definition terminalErrorLost {A} (i : Infra) (streamId : string) (w : World)
           (run : outcome A * World) : Prop :=
  terminals streamId (bus (snd run)) = terminals streamId (bus w)
  /\ exists n e,
       pubAttempts (snd run) = S n
       /\ redisPublish i n = Rejects e
       /\ fst run = Throw e.


(* ================================================================== *)
(** * Concrete runs

    Collaborators that behave in a fixed way, used to run the code on
    concrete jobs. *)

Module Scenarios.

(** An agent whose answers are the texts below; [parseAnswer] is what
    [JSON.parse] makes of them (any other text is not JSON). *)
Definition doneAnswer : AgentResponse :=
  mkAgentResponse "nothing left to do" [] true "done" None.

Definition newRouteAnswer : AgentResponse :=
  mkAgentResponse "add the endpoint"
    [Write "server/api/users/[id].get.js" "export default defineEventHandler(...)"]
    true "added GET /api/users/[id]" None.

Definition newTableAnswer : AgentResponse :=
  mkAgentResponse "add the table"
    [DbQuery "CREATE TABLE orders (order_id VARCHAR(255) PRIMARY KEY)" "orders" "CREATE TABLE"]
    true "added table orders" None.

Definition parseAnswer (text : string) : option AgentResponse :=
  if String.eqb text "{done}" then Some doneAnswer
  else if String.eqb text "{new route}" then Some newRouteAnswer
  else if String.eqb text "{new table}" then Some newTableAnswer
  else None.

Definition sandboxOk : nat -> ContainerId -> SandboxOp -> reply string :=
  fun _ _ _ => Resolves "ok".

(** The agent completes in its first turn. *)
Definition doneAtOnce : nat -> reply LLMReply :=
  fun _ => Resolves (mkLLMReply "{done}" 10 5).

(** The first answer is not JSON, also after sanitizing; the second
    completes. *)
Definition garbledThenDone : nat -> reply LLMReply :=
  fun n =>
    match n with
    | 1 => Resolves (mkLLMReply "Sure! Here is the plan" 100 50)
    | _ => Resolves (mkLLMReply "{done}" 10 5)
    end.

Definition newRouteAtOnce : nat -> reply LLMReply :=
  fun _ => Resolves (mkLLMReply "{new route}" 10 5).

Definition newTableAtOnce : nat -> reply LLMReply :=
  fun _ => Resolves (mkLLMReply "{new table}" 10 5).

Definition loopParams (maxIterations : option nat) : LoopParams :=
  mkLoopParams (Some "sandbox-1") "p1" "u1" "make a weather passthrough API" "req-1"
    "You are an expert backend developer" [] maxIterations.

Definition agentWith (llm : nat -> reply LLMReply) : AgentEnv :=
  mkAgentEnv llm parseAnswer sandboxOk (Resolves tt) 5.

(** Control database and bus that never fail. *)
Definition infraOk : Infra :=
  mkInfra (fun _ => Resolves tt) (Resolves tt) (Resolves tt) (Resolves tt)
          (Resolves tt) (Resolves "req-1") (fun _ => Resolves tt).

Definition jobData (projectId streamId : string) : JobData :=
  mkJobData "key-1" "tool" "u1" projectId streamId
    "make a weather passthrough API" "add GET /api/users/[id]" true
    "STRIPE_SECRET_KEY" "sk_live".

(** A sandbox in which every command exits with 0 and prints [ok];
    [find] lists the two route files of the project and [git config]
    names its remote. *)
Definition routeFiles : string :=
  "server/api/users/index.get.js" +++ nl +++ "server/api/users/index.post.js".

Definition shellOk : nat -> ContainerId -> string -> reply ExecResult :=
  fun _ _ command =>
    if String.prefix "find " command then Resolves (mkExecResult 0 routeFiles)
    else if String.prefix "git config --get " command
    then Resolves (mkExecResult 0 "https://github.com/SaaSManDan/turbobackend-p1.git")
    else Resolves (mkExecResult 0 "ok").

(** A sandbox in which the commands that begin with [prefix] time out. *)
Definition shellTimingOut (prefix : string)
  : nat -> ContainerId -> string -> reply ExecResult :=
  fun n c command =>
    if String.prefix prefix command then Rejects "Command timed out after 120000ms"
    else shellOk n c command.

(** Responses are read as their [result]; they have no [stdout]. *)
Definition boxWith (shell : nat -> ContainerId -> string -> reply ExecResult)
  : SandboxEnv :=
  mkSandboxEnv shell (fun _ _ _ _ => Resolves tt) execResult
    (fun _ => EmptyString) (fun _ => EmptyString) (fun text => text).

Definition boxOk : SandboxEnv := boxWith shellOk.

Definition projectDatabase : ConnectionInfo :=
  mkConnectionInfo "undefined" "undefined" "undefined" "undefined" "undefined".

(** A modification run on a project with an active repository and an
    active database; the infrastructure, the agent, the sandbox and its
    creation and the repository lookup vary. *)
Definition modificationEnvWith (infra : Infra) (agent : AgentEnv) (box : SandboxEnv)
           (create : reply string) (repos : list RepoRow) : ModificationEnv :=
  mkModificationEnv infra agent box create (Resolves repos)
    "ghp_token" "1700000000000" (Resolves [projectDatabase])
    (fun _ => "You are an expert backend developer")
    (Resolves ["turbobackend_proj_p5"])
    (fun t => Some t) (Resolves tt)
    "fly-token" (fun _ _ => Some true) (fun _ => Resolves 200) (Resolves tt)
    (Resolves tt).

Definition modificationEnv (agent : AgentEnv) (repos : list RepoRow) : ModificationEnv :=
  modificationEnvWith infraOk agent boxOk (Resolves "sandbox-1") repos.

Definition activeRepo : RepoRow :=
  mkRepoRow "https://github.com/SaaSManDan/turbobackend-p5" "main".

Definition provisionOk : ProvisionEnv :=
  mkProvisionEnv (fun _ => Resolves tt) (Resolves tt) (Resolves tt) (Resolves tt)
    (Resolves tt) (fun _ => Resolves tt) (Resolves tt) (Resolves tt) (Resolves tt)
    (Resolves tt) (Resolves tt).

(** A creation run in which every collaborator but the sandbox
    succeeds; the answers of the three detectors vary. *)
Definition creationEnvIn (infra : Infra) (agent : AgentEnv) (box : SandboxEnv)
           (needsAuth needsPayments needsDatabase : bool) : CreationEnv :=
  mkCreationEnv infra agent "You are an expert backend developer"
    (Resolves (mkLLMReply "auth" 3 1)) (fun _ => Some needsAuth)
    (Resolves (mkLLMReply "payment" 3 1)) (fun _ => Some needsPayments)
    (Resolves (mkLLMReply "database" 3 1)) (fun _ => Some needsDatabase)
    (Resolves [mkTableDesign "users" "CREATE TABLE users (user_id VARCHAR(255) PRIMARY KEY)"])
    provisionOk
    box (Resolves "sandbox-1") (Resolves tt) (Resolves tt)
    (Resolves tt) (Resolves tt) (Resolves tt)
    (fun _ => Resolves tt) (Resolves tt) (Resolves tt) (Resolves None)
    (Resolves tt)
    (fun url => url) "ghp_token"
    (Resolves (mkGitHubResponse true 201
                 (Resolves (mkGitHubBody "{}" EmptyString
                              (Some "https://github.com/SaaSManDan/turbobackend-p1.git")))))
    "2024-01-01T00:00:00.000Z" (Resolves tt) (Resolves tt)
    (Resolves tt) (Resolves "s3://bucket/p1/") (Resolves tt) "bp-1" (Resolves tt)
    (Resolves tt) (Resolves tt) (Resolves ["{}"]) "0.0001".

Definition creationEnvWith (infra : Infra) (agent : AgentEnv)
  : bool -> bool -> bool -> CreationEnv :=
  creationEnvIn infra agent boxOk.

Definition creationEnv : bool -> bool -> bool -> CreationEnv :=
  creationEnvWith infraOk (agentWith doneAtOnce).

(** A bus on which exactly the [n]-th publication is lost. *)
Definition infraLosing (n : nat) : Infra :=
  mkInfra (fun k => if k =? n then Rejects "Connection is closed." else Resolves tt)
          (Resolves tt) (Resolves tt) (Resolves tt)
          (Resolves tt) (Resolves "req-1") (fun _ => Resolves tt).

Definition secretSyncEnv : SecretSyncEnv :=
  mkSecretSyncEnv infraOk (Resolves ["turbobackend-p1"]) (Resolves "sandbox-2")
    (Resolves tt) (Some "fly-token") (Resolves (0, EmptyString)) (Resolves tt)
    (Resolves tt) (Resolves tt).

Definition workerEnv (m : ModificationEnv) (c : CreationEnv) : WorkerEnv :=
  mkWorkerEnv c m secretSyncEnv.

End Scenarios.

(* ------------------------------------------------------------------ *)
(** ** Vocabulary of the string properties *)

(** Every character of the string satisfies the test. *)
Fixpoint allChars (p : ascii -> bool) (s : string) : bool :=
  match s with
  | EmptyString => true
  | String c r => p c && allChars p r
  end.

(** A character of [[\x00-\x1F\x7F]], the class the sanitizer replaces. *)
Definition isControl (c : ascii) : bool :=
  (nat_of_ascii c <? 32) || (nat_of_ascii c =? 127).

(** A printable ASCII character. *)
Definition isPrintable (c : ascii) : bool :=
  (32 <=? nat_of_ascii c) && (nat_of_ascii c <? 127).

Definition isUpper (c : ascii) : bool :=
  (65 <=? nat_of_ascii c) && (nat_of_ascii c <=? 90).

(** The string has no occurrence of the character. *)
Definition without (c : ascii) (s : string) : bool :=
  allChars (fun x => negb (Ascii.eqb x c)) s.

(** A character a database slug may hold: no upper-case letter, no hyphen. *)
Definition slugChar (c : ascii) : bool := negb (isUpper c) && negb (Ascii.eqb c "-").

(** Every non-empty suffix of [k] holds the character [c]. *)
Fixpoint tailsHave (c : ascii) (k : string) : bool :=
  match k with
  | EmptyString => true
  | String _ k' => negb (without c k) && tailsHave c k'
  end.

(** No character that the [.] of a regular expression refuses. *)
Definition noTerminator (s : string) : bool :=
  allChars (fun c => negb (Endpoints.isLineTerminator c)) s.

(* ------------------------------------------------------------------ *)
(** ** Vocabulary of the loop properties *)

(** The entries that the loop's tracking adds to [filesModified] and to
    [dbQueries] for a batch of commands. *)
Fixpoint writesOf (cmds : list Command) : list FileModified :=
  match cmds with
  | [] => []
  | Write path content :: rest =>
      mkFileModified path content (AgenticLoop.determineFileType path) None
      :: writesOf rest
  | _ :: rest => writesOf rest
  end.

Fixpoint queriesOf (cmds : list Command) : list DbQueryEntry :=
  match cmds with
  | [] => []
  | DbQuery q schemaName queryType :: rest =>
      mkDbQueryEntry q schemaName queryType :: queriesOf rest
  | _ :: rest => queriesOf rest
  end.

(** The answer of a turn, when the call resolved and its text parsed
    (as it was, or after sanitizing). *)
Definition parsedAnswer (jsonParse : string -> option AgentResponse)
           (r : reply LLMReply) : option AgentResponse :=
  match r with
  | Resolves result => AgenticLoop.parseAgentResponse jsonParse (text result)
  | Rejects _ => None
  end.

(** The commands of the parsed answers of the first [n] turns, in order. *)
Fixpoint parsedCommands (llm : nat -> reply LLMReply)
         (jsonParse : string -> option AgentResponse) (n : nat) : list Command :=
  match n with
  | 0 => []
  | S k =>
      parsedCommands llm jsonParse k ++
      match parsedAnswer jsonParse (llm (S k)) with
      | Some agentResponse => commands agentResponse
      | None => []
      end
  end.

(** What a loop that started in world [w0] has tracked and asked of the
    sandbox once it is in state [st] and world [w]. *)
Definition tracked (llm : nat -> reply LLMReply)
           (jsonParse : string -> option AgentResponse) (params : LoopParams)
           (w0 : World) (st : AgenticLoop.LoopState) (w : World) : Prop :=
  let cmds := parsedCommands llm jsonParse (AgenticLoop.iteration st) in
  AgenticLoop.filesModified st = writesOf cmds
  /\ AgenticLoop.dbQueries st = queriesOf cmds
  /\ container w = container w0 ++ ExecutorSpec.operationsOf (containerId params) cmds.

(* ================================================================== *)
(** * More concrete runs *)

Module Runs.

(** An agent that works in its first turn (a route file, a table, a
    shell command) and finishes in its second, with a blueprint. *)
Definition workAnswer : AgentResponse :=
  mkAgentResponse "write the route and the table"
    [Write "server/api/orders/index.get.js" "export default defineEventHandler(...)";
     DbQuery "CREATE TABLE orders (order_id VARCHAR(255) PRIMARY KEY)" "orders"
       "CREATE TABLE";
     Execute "npm install";
     Write "README.js" "// notes"]
    false EmptyString None.

Definition finishAnswer : AgentResponse :=
  mkAgentResponse "all done" [] true "added GET /api/orders" (Some "{blueprint}").

(** A last answer whose text holds a raw line feed: it parses only
    after sanitizing. *)
Definition rawFinishText : string := "{finish" +++ nl +++ "}".

Definition parse (text : string) : option AgentResponse :=
  if String.eqb text "{work}" then Some workAnswer
  else if String.eqb text "{finish}" then Some finishAnswer
  else if String.eqb text "{finish\n}" then Some finishAnswer
  else None.

Definition workThenFinish : nat -> reply LLMReply :=
  fun n =>
    if n =? 1 then Resolves (mkLLMReply "{work}" 10 5)
    else Resolves (mkLLMReply "{finish}" 4 2).

Definition workThenRawFinish : nat -> reply LLMReply :=
  fun n =>
    if n =? 1 then Resolves (mkLLMReply "{work}" 10 5)
    else Resolves (mkLLMReply rawFinishText 4 2).

(** The provider of the LLM goes down after the first turn. *)
Definition workThenDown : nat -> reply LLMReply :=
  fun n =>
    if n =? 1 then Resolves (mkLLMReply "{work}" 10 5)
    else Rejects "503 Service Unavailable".

(** A sandbox in which every operation fails. *)
Definition sandboxFull : nat -> ContainerId -> SandboxOp -> reply string :=
  fun _ _ _ => Rejects "ENOSPC: no space left on device".

End Runs.

(* ------------------------------------------------------------------ *)
(** ** Vocabulary of the transaction properties *)

(** The state of the control database's transaction after the
    statements that ran so far. *)
Definition txOf (w : World) : TxState :=
  fold_left txStep (ctl w) (mkTxState false [] []).

(** [triple P m Q E]: started where the transaction state satisfies
    [P], [m] leaves it satisfying [Q] when it returns and [E] when it
    throws. *)
Definition triple {A : Type} (P : TxState -> Prop) (m : M A)
           (Q E : TxState -> Prop) : Prop :=
  forall w, P (txOf w) ->
    match fst (m w) with
    | Ok _ => Q (txOf (snd (m w)))
    | Throw _ => E (txOf (snd (m w)))
    | OutOfFuel => True
    end.

(** A transaction is open, [pending] are the rows inserted in it and
    [rows] the rows that persist. *)
Definition txOpen (rows pending : list string) (s : TxState) : Prop :=
  inTransaction s = true /\ pendingRows s = pending /\ committedRows s = rows.

(** A transaction is open over the persisted [rows]. *)
Definition txBegun (rows : list string) (s : TxState) : Prop :=
  inTransaction s = true /\ committedRows s = rows.

(** The rows that persist are [rows]. *)
Definition txRows (rows : list string) (s : TxState) : Prop :=
  committedRows s = rows.


(** No transaction is open, nothing is pending, and the rows that
    persist are [rows] and more, the last of them [table]'s. *)
Definition txGrown (rows : list string) (table : string) (s : TxState) : Prop :=
  inTransaction s = false /\ pendingRows s = []
  /\ exists more, committedRows s = rows ++ more ++ [table].

(** No transaction is open, nothing is pending, and the rows that
    persist are [rows]. *)
Definition txIdle (rows : list string) (s : TxState) : Prop :=
  s = mkTxState false [] rows.

(** A transaction is open over the persisted [rows] and the last row
    inserted in it is [table]'s. *)
Definition txLast (rows : list string) (table : string) (s : TxState) : Prop :=
  inTransaction s = true /\ committedRows s = rows
  /\ exists pending, pendingRows s = pending ++ [table].

(** The statements of the log that ran on the database [dbName],
    oldest first. *)
Definition statementsOn (dbName : string) (log : list (string * DbStmt)) : list DbStmt :=
  map snd (filter (fun entry => String.eqb (fst entry) dbName) log).

(** A database of the cluster, as Postgres runs the statements of one
    connection after the other: a query inside a transaction is pending
    until COMMIT, outside of one it is applied at once; ROLLBACK and
    the end of the connection drop what is pending, and a new
    connection starts outside of a transaction.  The rows of the state
    are the queries. *)
Definition dbStep (s : TxState) (stmt : DbStmt) : TxState :=
  match stmt with
  | DbConnect => mkTxState false [] (committedRows s)
  | DbBegin => mkTxState true [] (committedRows s)
  | DbRun q =>
      if inTransaction s
      then mkTxState true (pendingRows s ++ [q]) (committedRows s)
      else mkTxState false [] (committedRows s ++ [q])
  | DbCommit => mkTxState false [] (committedRows s ++ pendingRows s)
  | DbRollback => mkTxState false [] (committedRows s)
  | DbEnd => mkTxState false [] (committedRows s)
  end.

Definition dbOf (dbName : string) (w : World) : TxState :=
  fold_left dbStep (statementsOn dbName (projectDdl w)) (mkTxState false [] []).

(** The queries that have been applied to the database [dbName]. *)
Definition appliedTo (dbName : string) (w : World) : list string :=
  committedRows (dbOf dbName w).

(* ------------------------------------------------------------------ *)
(** ** Vocabulary of the sandbox properties *)

(** The call of the sandbox resolved and the command exited with 0. *)
Definition exitsWithZero (r : reply ExecResult) : bool :=
  match r with
  | Resolves x => exitCode x =? 0
  | Rejects _ => false
  end.

(** The call resolved, whatever it resolved to. *)
Definition resolves {A : Type} (r : reply A) : bool :=
  match r with
  | Resolves _ => true
  | Rejects _ => false
  end.

(** The shell commands of a clone, in the order the code sends them. *)
Definition cloneScript (githubAccessToken : string) (repoInfo : RepoRow) : list string :=
  ["ls -la";
   "git init";
   "git remote add origin " +++ GitBranchManager.authenticatedUrl githubAccessToken repoInfo;
   "git fetch origin " +++ branch repoInfo;
   "git checkout " +++ branch repoInfo;
   "ls -la";
   "git config user.name " +++ dq +++ "TurboBackend Agent" +++ dq;
   "git config user.email " +++ dq +++ "agent@turbobackend.dev" +++ dq].

(** Shell commands as entries of the sandbox log. *)
Definition asked (c : ContainerId) (commands : list string)
  : list (ContainerId * SandboxOp) :=
  map (fun command => (c, OpExec command)) commands.

(** A sandbox in which every shell command runs and exits with 1. *)
Module SandboxRuns.

Definition shellRefusing : nat -> ContainerId -> string -> reply ExecResult :=
  fun _ _ _ => Resolves (mkExecResult 1 "! [rejected] main -> main (non-fast-forward)").

End SandboxRuns.

(** The command with which [createFlyApp] creates the app. *)
Definition createAppCommand (flyApiToken projectId : string) : string :=
  "export FLY_API_TOKEN=" +++ dq +++ flyApiToken +++ dq
  +++ " && ~/.fly/bin/flyctl apps create " +++ Names.appName projectId
  +++ " --org personal".

(** The entry of [executionResults] for a query that ran. *)
Definition successEntry (q : DbQueryEntry) : DevQueryResult :=
  mkDevQueryResult (DevDatabaseExecutor.modifiedQuery q) (dbq_schemaName q) (dbq_type q)
    true None.

(* ------------------------------------------------------------------ *)
(** ** Vocabulary of the ledger properties *)

(** What a job shows outside the activity ledger, the statement log of
    the control database and the error log: the bus, the cost rows, the
    project databases and the sandbox. *)
Definition visible (w : World)
  : list (string * Message) * nat * list CostRow * list (string * DbStmt)
    * list (ContainerId * SandboxOp) :=
  (bus w, pubAttempts w, costRows w, projectDdl w, container w).

(** Two computations end the same way: both return, or both throw the
    same error. *)
Definition sameEnd {A B : Type} (r : outcome A) (r' : outcome B) : Prop :=
  match r, r' with
  | Ok _, Ok _ => True
  | Throw e, Throw e' => e = e'
  | OutOfFuel, OutOfFuel => True
  | _, _ => False
  end.

(** [alike m m']: from worlds that show the same, [m] and [m'] end the
    same way and leave worlds that show the same. *)
Definition alike {A B : Type} (m : M A) (m' : M B) : Prop :=
  forall w w', visible w = visible w' ->
    sameEnd (fst (m w)) (fst (m' w'))
    /\ visible (snd (m w)) = visible (snd (m' w')).

(** [twin m m']: moreover they return the same value. *)
Definition twin {A : Type} (m m' : M A) : Prop :=
  forall w w', visible w = visible w' ->
    fst (m w) = fst (m' w')
    /\ visible (snd (m w)) = visible (snd (m' w')).

(** The collaborators of a job with another activity ledger: [ledger]
    is what the INSERT of [trackActivity] does instead. *)
Definition withLedger (ledger : string -> reply unit) (i : Infra) : Infra :=
  mkInfra (redisPublish i) (poolConnect i) (txBegin i) (txCommit i) (txRollback i)
          (logRequest i) ledger.

Definition modificationWithLedger (ledger : string -> reply unit)
           (env : ModificationEnv) : ModificationEnv :=
  mkModificationEnv (withLedger ledger (m_infra env)) (m_agent env) (m_box env)
    (m_sandboxCreate env) (m_repoRows env) (m_githubAccessToken env) (m_dateNow env)
    (m_contextDatabases env) (m_prompt env) (m_activeDatabases env)
    (m_blueprintJson env) (m_updateBlueprint env) (m_flyApiToken env)
    (m_listsApp env) (m_fetchStatus env) (m_deploymentInsert env)
    (m_sessionInsert env).

(** The collaborators of a creation job with other ancillary writes:
    the INSERT of [trackActivity] (in the handler and in the
    provisioner), the SELECT of "Track project creation", the writes
    of the environment-variable tracker and the repository secret. *)
Record Ancillary : Type := mkAncillary {
  anc_ledger : string -> reply unit;
  anc_provisionLedger : reply unit;
  anc_sessionSelect : reply unit;
  anc_envVarsInsert : reply unit;
  anc_credentialInsert : reply unit;
  anc_setGitHubSecret : reply unit
}.

Definition provisionWithLedger (ledger : reply unit) (p : ProvisionEnv) : ProvisionEnv :=
  mkProvisionEnv (p_createDatabase p) (p_adminEnd p) (p_databaseInsert p)
    (p_projectConnect p) (p_projectBegin p) (p_runDdl p) (p_queryInsert p)
    (p_projectCommit p) (p_projectRollback p) (p_projectEnd p) ledger.

Definition creationWithAncillary (a : Ancillary) (env : CreationEnv) : CreationEnv :=
  mkCreationEnv (withLedger (anc_ledger a) (c_infra env)) (c_agent env) (c_prompt env)
    (c_authCall env) (c_authParse env) (c_paymentCall env) (c_paymentParse env)
    (c_dbCall env) (c_dbParse env) (c_designSchema env)
    (provisionWithLedger (anc_provisionLedger a) (c_provision env))
    (c_box env) (c_sandboxCreate env) (c_initializeNitro env) (c_containerInsert env)
    (c_fetchIntegrationSpecs env)
    (anc_sessionSelect a) (c_injectCors env) (c_exec env) (c_injectWorkflow env)
    (c_createFlyToml env) (c_createFlyApp env) (c_deploymentInsert env)
    (c_stripCredentials env) (c_githubAccessToken env) (c_createRepo env)
    (c_isoNow env) (c_repoInsert env) (c_historyInsert env)
    (anc_setGitHubSecret a) (c_syncToS3 env)
    (c_writeBlueprint env) (c_nanoid env) (c_blueprintInsert env)
    (anc_envVarsInsert a) (anc_credentialInsert a) (c_blueprintSelect env)
    (c_costText env).

(* ------------------------------------------------------------------ *)
(** ** Vocabulary of the push properties *)

(** [holds P m Q E]: started in a world that satisfies [P], [m] ends,
    in a world that satisfies [Q] of its value when it returns and
    [E] when it throws. *)
Definition holds {A : Type} (P : World -> Prop) (m : M A)
           (Q : A -> World -> Prop) (E : World -> Prop) : Prop :=
  forall w, P w ->
    match fst (m w) with
    | Ok a => Q a (snd (m w))
    | Throw _ => E (snd (m w))
    | OutOfFuel => False
    end.

(** [lasting P]: [P] survives an operation of the sandbox and a line
    of the error log. *)
Definition lasting (P : World -> Prop) : Prop :=
  (forall c op w, P w -> P (attempted c op w))
  /\ (forall line w, P w -> P (logged line w)).

(** Since the world [w0], [git push origin main] has been sent to the
    sandbox [c] and has exited with 0. *)
Definition pushed (shell : nat -> ContainerId -> string -> reply ExecResult)
           (c : ContainerId) (w0 w : World) : Prop :=
  exists n res,
    length (container w0) <= n
    /\ nth_error (container w) n = Some (c, OpExec "git push origin main")
    /\ shell n c "git push origin main" = Resolves res
    /\ exitCode res = 0.

(* ------------------------------------------------------------------ *)
(** ** Vocabulary of the sandbox property *)

(** A modification run in which the sandbox cannot be created and
    every other collaborator succeeds. *)
Definition withoutSandbox : ModificationEnv :=
  Scenarios.modificationEnvWith Scenarios.infraOk
    (Scenarios.agentWith Scenarios.doneAtOnce) Scenarios.boxOk
    (Rejects "Total CPU quota exceeded") [Scenarios.activeRepo].

(* ================================================================== *)
(* ================================================================== *)
(** * Properties *)

(** ** Strings *)

Lemma toLowerCase_app (a b : string) :
  Str.toLowerCase (a +++ b) = Str.toLowerCase a +++ Str.toLowerCase b.
Proof.
  induction a as [|c a IH]; simpl; [reflexivity | now rewrite IH].
Qed.

Lemma prefix_app (a b : string) : String.prefix a (a +++ b) = true.
Proof.
  induction a as [|c a IH]; simpl.
  - now destruct b.
  - destruct (ascii_dec c c) as [_|ne]; [exact IH | now elim ne].
Qed.

Lemma includes_app (pre needle post : string) :
  Str.includes (pre +++ needle +++ post) needle = true.
Proof.
  induction pre as [|c pre IH]; simpl.
  - assert (H : forall s, String.prefix needle s = true -> Str.includes s needle = true)
      by (intros [|a s] Hs; cbn [Str.includes]; now rewrite Hs).
    apply H, prefix_app.
  - rewrite IH. apply orb_true_r.
Qed.

(** ** Derived names *)

(** The provisioner's database name is the slug of the specification. *)
Lemma provisionerDbName_spec (projectId : string) :
  Names.provisionerDbName projectId = Names.specDbName projectId.
Proof.
  unfold Names.provisionerDbName, Names.specDbName.
  now rewrite toLowerCase_app.
Qed.

(** The deployment app name of flyioService.js and of the creation
    handler is the slug of the specification. *)
Lemma appName_spec (projectId : string) :
  Names.appName projectId = Names.specAppName projectId.
Proof.
  unfold Names.appName, Names.specAppName.
  now rewrite toLowerCase_app.
Qed.

(** C10.  [executeDevDatabaseQueries] derives the database name without
    lowercasing it: for the project id ["t9mpmjuljOinbwqkv5Zkq"] it
    yields ["turbobackend_proj_t9mpmjuljOinbwqkv5Zkq"], which is neither
    the slug of the specification nor the name the provisioner derives
    for the same project. *)
Theorem devExecutorDbName_keeps_upper_case :
  Names.devExecutorDbName "t9mpmjuljOinbwqkv5Zkq"
    = "turbobackend_proj_t9mpmjuljOinbwqkv5Zkq"
  /\ Names.specDbName "t9mpmjuljOinbwqkv5Zkq"
    = "turbobackend_proj_t9mpmjuljoinbwqkv5zkq"
  /\ Names.devExecutorDbName "t9mpmjuljOinbwqkv5Zkq"
    <> Names.specDbName "t9mpmjuljOinbwqkv5Zkq"
  /\ Names.devExecutorDbName "t9mpmjuljOinbwqkv5Zkq"
    <> Names.provisionerDbName "t9mpmjuljOinbwqkv5Zkq".
Proof.
  repeat split; try reflexivity; vm_compute; discriminate.
Qed.

(** The deployment URL that the creation handler publishes embeds the
    project id as it is, unlike the URL it stores with the deployment
    record. *)
Lemma deploymentUrl_keeps_upper_case :
  Names.deploymentUrl "t9mpmjuljOinbwqkv5Zkq"
    = "https://turbobackend-t9mpmjuljOinbwqkv5Zkq.fly.dev"
  /\ Names.appUrl "t9mpmjuljOinbwqkv5Zkq"
    = "https://turbobackend-t9mpmjuljoinbwqkv5zkq.fly.dev".
Proof. split; reflexivity. Qed.

(** ** Agent command executor *)

Section ExecutorFacts.

Variable sandbox : nat -> ContainerId -> SandboxOp -> reply string.
Variable containerId : ContainerId.

Local Abbreviation operationOf := ExecutorSpec.operationOf.
Local Abbreviation operationsOf := (ExecutorSpec.operationsOf containerId).
Local Abbreviation entryFor := (ExecutorSpec.entryFor sandbox containerId).
Local Abbreviation returnedFor := (ExecutorSpec.returnedFor sandbox containerId).
Local Abbreviation loggedFor := (ExecutorSpec.loggedFor sandbox containerId).
Local Abbreviation entriesFor := (ExecutorSpec.entriesFor sandbox containerId).
Local Abbreviation linesFor := (ExecutorSpec.linesFor sandbox containerId).

Lemma attempt_entry (cmd : Command) (w : World) :
  CommandExecutor.attempt sandbox containerId cmd w
  = (Ok (returnedFor (length (container w)) cmd),
     mkWorld (bus w) (pubAttempts w) (ctl w) (costRows w) (activities w)
             (projectDdl w) (container w ++ operationsOf [cmd])
             (errlog w ++ loggedFor (length (container w)) cmd)).
Proof.
  destruct w as [b pa c cr a pd co el].
  destruct cmd; simpl;
    unfold CommandExecutor.attempt, CommandExecutor.runCommand,
           CommandExecutor.deleteFileInContainer,
           CommandExecutor.sandboxCall, tryCatch, bind, ret, throw, attempted,
           consoleError, logged;
    simpl;
    try (destruct (sandbox (length co) containerId _); simpl;
         rewrite ?app_nil_r; reflexivity);
    now rewrite !app_nil_r.
Qed.

Lemma operationsOf_cons (cmd : Command) (rest : list Command) :
  operationsOf (cmd :: rest) = operationsOf [cmd] ++ operationsOf rest.
Proof. simpl. now destruct (operationOf cmd). Qed.

Lemma forCommands_entries (cmds : list Command) :
  forall (results : list CommandResult) (w : World),
    CommandExecutor.forCommands sandbox containerId results cmds w
    = (Ok (results ++ entriesFor (length (container w)) cmds),
       mkWorld (bus w) (pubAttempts w) (ctl w) (costRows w) (activities w)
               (projectDdl w) (container w ++ operationsOf cmds)
               (errlog w ++ linesFor (length (container w)) cmds)).
Proof.
  induction cmds as [|cmd rest IH]; intros results w.
  - simpl. unfold ret. rewrite !app_nil_r. now destruct w.
  - cbn [CommandExecutor.forCommands]. unfold bind at 1.
    rewrite attempt_entry. rewrite IH. cbn [container bus pubAttempts ctl costRows
      activities projectDdl errlog].
    rewrite length_app, <- !app_assoc, (operationsOf_cons cmd rest).
    reflexivity.
Qed.

Lemma returnedFor_command (n : nat) (cmd : Command) :
  resultCommand (returnedFor n cmd) = cmd.
Proof. destruct cmd; simpl; try reflexivity; now destruct (sandbox n containerId _). Qed.

Lemma entriesFor_commands (cmds : list Command) :
  forall n, map resultCommand (entriesFor n cmds) = cmds.
Proof.
  induction cmds as [|cmd rest IH]; intro n; [reflexivity|].
  cbn [ExecutorSpec.entriesFor map]. now rewrite IH, returnedFor_command.
Qed.

Lemma entriesFor_nth (cmds : list Command) :
  forall n i cmd,
    nth_error cmds i = Some cmd ->
    nth_error (entriesFor n cmds) i
    = Some (returnedFor (n + length (operationsOf (firstn i cmds))) cmd).
Proof.
  induction cmds as [|c rest IH]; intros n i cmd H.
  - now destruct i.
  - destruct i as [|i].
    + simpl in H. injection H as ->. simpl. now rewrite Nat.add_0_r.
    + cbn [nth_error ExecutorSpec.entriesFor] in *. rewrite (IH _ _ _ H).
      cbn [firstn]. rewrite (operationsOf_cons c (firstn i rest)), length_app.
      now rewrite Nat.add_assoc.
Qed.

(** X27.  A batch given to the executor always returns a result
    list (no command makes the call throw); the list is parallel to the
    input (the [i]-th entry carries the [i]-th command); every command
    is attempted, in declared order, whatever the earlier ones did (the
    sandbox sees exactly the operations of the batch, in order); and
    the [i]-th entry reports that command's own outcome (success with
    the value when its operation resolved, [{success: false, error}]
    with the message when it rejected or when the type is unknown)
    unless the command is a deletion that failed, which is entered as
    a success. *)
Theorem executeAgentCommands_parallel_results (commands : list Command) (w : World) :
  exists results w',
    CommandExecutor.executeAgentCommands sandbox containerId commands w = (Ok results, w')
    /\ map resultCommand results = commands
    /\ container w' = container w ++ operationsOf commands
    /\ (forall i cmd,
           nth_error commands i = Some cmd ->
           let n := length (container w) + length (operationsOf (firstn i commands)) in
           nth_error results i = Some (returnedFor n cmd)
           /\ ((forall path, cmd <> Delete path) -> returnedFor n cmd = entryFor n cmd)
           /\ (forall path, cmd = Delete path ->
                 resultSuccess (returnedFor n cmd) = true)).
Proof.
  unfold CommandExecutor.executeAgentCommands.
  rewrite forCommands_entries. cbn [app].
  eexists _, _. split; [reflexivity|].
  split; [apply entriesFor_commands|].
  split; [reflexivity|].
  intros i cmd H. cbv zeta. split; [now apply entriesFor_nth|]. split.
  - intro Hd. destruct cmd; try reflexivity. now elim (Hd path).
  - intros path ->. simpl. now destruct (sandbox _ containerId _).
Qed.

End ExecutorFacts.

(** C9.  On a sandbox in which every operation fails, the batch of a
    deletion followed by a read: both commands are attempted, in order,
    and the result list is parallel to the input; the read is entered
    as [{success: false, error}], but the deletion, which failed in the
    same way, is entered as a success whose result is [undefined]
    (where its own outcome is the failure), the error being left on the
    console. *)
Theorem failed_deletion_is_entered_as_success :
  let batch := [Delete "server/api/users/index.get.js"; Read "package.json"] in
  exists w,
    CommandExecutor.executeAgentCommands Runs.sandboxFull (Some "sandbox-1") batch emptyWorld
    = (Ok [Succeeded (Delete "server/api/users/index.get.js") Undefined;
           Failed (Read "package.json") "ENOSPC: no space left on device"], w)
    /\ container w = [(Some "sandbox-1", OpDelete "server/api/users/index.get.js");
                      (Some "sandbox-1", OpRead "package.json")]
    /\ errlog w = ["There was an error deleting a file inside Daytona sandbox: ENOSPC: no space left on device"]
    /\ ExecutorSpec.entryFor Runs.sandboxFull (Some "sandbox-1") 0
         (Delete "server/api/users/index.get.js")
       = Failed (Delete "server/api/users/index.get.js") "ENOSPC: no space left on device".
Proof.
  eexists. split; [vm_compute; reflexivity|]. repeat split.
Qed.

(** ** Framing: what a computation leaves untouched *)

Section Framing.

Context {X : Type} (f : World -> X).

Lemma keeps_ret {A} (a : A) : keeps f (ret a).
Proof. now intro w. Qed.

Lemma keeps_throw {A} (e : string) : keeps f (@throw A e).
Proof. now intro w. Qed.

Lemma keeps_ext {A} (r : reply A) : keeps f (ext r).
Proof. intro w. unfold ext. now destruct r. Qed.

Lemma keeps_bind {A B} (m : M A) (k : A -> M B) :
  keeps f m -> (forall a, keeps f (k a)) -> keeps f (bind m k).
Proof.
  intros Hm Hk w. unfold bind. specialize (Hm w).
  destruct (m w) as [[a|e|] w1]; cbn [snd] in *; [rewrite Hk|..]; assumption.
Qed.

Lemma keeps_tryCatch {A} (m : M A) (h : string -> M A) :
  keeps f m -> (forall e, keeps f (h e)) -> keeps f (tryCatch m h).
Proof.
  intros Hm Hh w. unfold tryCatch. specialize (Hm w).
  destruct (m w) as [[a|e|] w1]; cbn [snd] in *; [|rewrite Hh|]; assumption.
Qed.

Lemma keeps_finally {A} (m : M A) (c : M unit) :
  keeps f m -> keeps f c -> keeps f (finally m c).
Proof.
  intros Hm Hc w. unfold finally. specialize (Hm w).
  destruct (m w) as [[a|e|] w1]; cbn [snd] in *; try assumption;
    specialize (Hc w1); destruct (c w1) as [[[]|e'|] w2]; cbn [snd] in *; congruence.
Qed.

Lemma keeps_when (b : bool) (m : M unit) : keeps f m -> keeps f (when b m).
Proof. destruct b; [trivial | intros _; apply keeps_ret]. Qed.

Lemma keeps_update (u : World -> World) : blind f u -> keeps f (fun w => (Ok tt, u w)).
Proof. intros H w. apply H. Qed.

Lemma keeps_outOfFuel {A} : keeps f (fun w => (@OutOfFuel A, w)).
Proof. now intro w. Qed.

Lemma keeps_consoleError (line : string) :
  blind f (logged line) -> keeps f (consoleError line).
Proof. apply keeps_update. Qed.

Lemma keeps_release : blind f (ran Release) -> keeps f release.
Proof. apply keeps_update. Qed.

Lemma keeps_query {A} (s : Stmt) (r : reply A) :
  blind f (ran s) -> keeps f (query s r).
Proof. intros H w. unfold query. destruct r; [apply H | reflexivity]. Qed.

Lemma keeps_onDatabase {A} (db : string) (stmt : DbStmt) (r : reply A) :
  blind f (applied db stmt) -> keeps f (onDatabase db stmt r).
Proof. intros H w. unfold onDatabase. destruct r; [apply H | reflexivity]. Qed.

Lemma keeps_publish (rp : nat -> reply unit) (channel : string) (msg : Message) :
  blind f (deliver channel msg) -> blind f dropped ->
  keeps f (Publisher.publishToChannel rp channel msg).
Proof.
  intros H1 H2 w. unfold Publisher.publishToChannel.
  destruct (rp (pubAttempts w)); [apply H1 | apply H2].
Qed.

Lemma keeps_sandboxCall sandbox (c : ContainerId) (op : SandboxOp) :
  blind f (attempted c op) -> keeps f (CommandExecutor.sandboxCall sandbox c op).
Proof.
  intros H w. unfold CommandExecutor.sandboxCall.
  destruct (sandbox _ c op); apply H.
Qed.

Lemma keeps_executeCommandInContainer shell (c : ContainerId) (command : string) :
  blind f (attempted c (OpExec command)) ->
  keeps f (Daytona.executeCommandInContainer shell c command).
Proof.
  intros H w. unfold Daytona.executeCommandInContainer.
  destruct (shell _ c command); apply H.
Qed.

Lemma keeps_writeFileInContainer upload (c : ContainerId) (path content : string) :
  blind f (attempted c (OpWrite path content)) ->
  keeps f (Daytona.writeFileInContainer upload c path content).
Proof.
  intros H w. unfold Daytona.writeFileInContainer.
  destruct (upload _ c path content); apply H.
Qed.

Lemma keeps_trackActivity (insert : reply unit) (row : ActivityRow) :
  blind f (acted row) -> (forall line, blind f (logged line)) ->
  keeps f (ActivityTracker.trackActivity insert row).
Proof.
  intros H1 H2. unfold ActivityTracker.trackActivity.
  apply keeps_tryCatch.
  - intro w. destruct insert; [apply H1 | reflexivity].
  - intro e. apply keeps_bind; [apply keeps_consoleError, H2 | intro; apply keeps_ret].
Qed.

End Framing.

(** The observations used below do not see most updates. *)
Ltac blindness :=
  solve [ intro; reflexivity
        | intros ? ?; reflexivity
        | intros ? ? ?; reflexivity
        | assumption
        | auto ].

Ltac frame_step :=
  first
    [ apply keeps_ret
    | apply keeps_throw
    | apply keeps_ext
    | apply keeps_outOfFuel
    | apply keeps_bind; [ | intro ]
    | apply keeps_tryCatch; [ | intro ]
    | apply keeps_finally
    | apply keeps_when
    | apply keeps_consoleError; blindness
    | apply keeps_release; blindness
    | apply keeps_query; blindness
    | apply keeps_onDatabase; blindness
    | apply keeps_sandboxCall; blindness
    | apply keeps_executeCommandInContainer; blindness
    | apply keeps_writeFileInContainer; blindness
    | apply keeps_trackActivity; blindness
    | apply keeps_update; blindness
    | match goal with
      | |- keeps _ (if ?b then _ else _) => destruct b
      | |- keeps _ (match ?x with _ => _ end) => destruct x
      | |- keeps _ (let '(_, _) := ?x in _) => destruct x
      end
    | progress cbv zeta ].

Ltac frame := repeat frame_step.

(** ** Agentic loop *)

Section LoopFacts.

Variable llm : nat -> reply LLMReply.
Variable jsonParse : string -> option AgentResponse.
Variable sandbox : nat -> ContainerId -> SandboxOp -> reply string.
Variable costInsert : reply unit.
Variable params : LoopParams.

Context {X : Type} (f : World -> X).
Hypothesis blind_attempted : forall c op, blind f (attempted c op).
Hypothesis blind_logged : forall line, blind f (logged line).

Lemma keeps_executeAgentCommands (c : ContainerId) (cmds : list Command) :
  keeps f (CommandExecutor.executeAgentCommands sandbox c cmds).
Proof.
  unfold CommandExecutor.executeAgentCommands. generalize (@nil CommandResult).
  induction cmds as [|cmd rest IH]; intro results; cbn [CommandExecutor.forCommands].
  - frame.
  - apply keeps_bind; [|intro; apply IH].
    unfold CommandExecutor.attempt, CommandExecutor.runCommand.
    destruct cmd; frame.
Qed.

Lemma keeps_iterationBody (st : AgenticLoop.LoopState) :
  keeps f (AgenticLoop.iterationBody llm jsonParse sandbox params st).
Proof.
  unfold AgenticLoop.iterationBody. cbv zeta.
  apply keeps_bind; [frame|intro result].
  destruct (AgenticLoop.parseAgentResponse jsonParse (text result)).
  - apply keeps_bind; [apply keeps_executeAgentCommands|intro].
    destruct (AgenticLoop.trackModifications _ _ _). frame.
  - frame.
Qed.

Lemma keeps_whileLoop (fuel : nat) :
  forall st, keeps f (AgenticLoop.whileLoop llm jsonParse sandbox params fuel st).
Proof.
  induction fuel as [|fuel IH]; intro st; cbn [AgenticLoop.whileLoop];
    destruct (AgenticLoop.belowCap _ _); try solve [frame].
  apply keeps_bind; [apply keeps_iterationBody|intro step].
  destruct (fst step); [frame | apply IH].
Qed.

End LoopFacts.

Section LoopRun.

Variable llm : nat -> reply LLMReply.
Variable jsonParse : string -> option AgentResponse.
Variable sandbox : nat -> ContainerId -> SandboxOp -> reply string.
Variable costInsert : reply unit.
Variable params : LoopParams.

Local Abbreviation whileLoop := (AgenticLoop.whileLoop llm jsonParse sandbox params).
Local Abbreviation iterationBody := (AgenticLoop.iterationBody llm jsonParse sandbox params).
Local Abbreviation runAgenticLoop :=
  (AgenticLoop.runAgenticLoop llm jsonParse sandbox costInsert params).

(** A turn of the loop ends; when it does not throw it has advanced
    [iteration] by one, and it asks for [break] exactly when the answer
    parsed to [taskComplete === true]. *)
Lemma iterationBody_step (st : AgenticLoop.LoopState) (w : World) :
  match iterationBody st w with
  | (Ok (brk, st'), _) =>
      AgenticLoop.iteration st' = S (AgenticLoop.iteration st)
      /\ brk = endsLoop jsonParse (llm (S (AgenticLoop.iteration st)))
  | (Throw e, _) =>
      llm (S (AgenticLoop.iteration st)) = Rejects e
      /\ endsLoop jsonParse (llm (S (AgenticLoop.iteration st))) = true
  | (OutOfFuel, _) => False
  end.
Proof.
  unfold AgenticLoop.iterationBody, endsLoop. cbv zeta.
  unfold bind at 1, ext.
  destruct (llm (S (AgenticLoop.iteration st))) as [result|e]; [|now split].
  destruct (AgenticLoop.parseAgentResponse jsonParse (text result)) as [a|].
  - unfold bind. unfold CommandExecutor.executeAgentCommands.
    rewrite forCommands_entries.
    destruct (AgenticLoop.trackModifications _ _ _). cbn. auto.
  - cbn. auto.
Qed.

(** With a finite cap the loop ends within [cap] turns. *)
Lemma whileLoop_capped (cap : nat) (fuel : nat) :
  maxIterations params = Some cap ->
  forall st w,
    cap - AgenticLoop.iteration st <= fuel ->
    fst (whileLoop fuel st w) <> OutOfFuel.
Proof.
  intro Hcap. induction fuel as [|fuel IH]; intros st w Hfuel;
    cbn [AgenticLoop.whileLoop]; rewrite Hcap; unfold AgenticLoop.belowCap;
    destruct (Nat.ltb_spec (AgenticLoop.iteration st) cap) as [Hlt|Hge];
    try (cbn; discriminate); try lia.
  unfold bind. pose proof (iterationBody_step st w) as Hstep.
  destruct (iterationBody st w) as [[[brk st']|e|] w1]; cbn [fst snd];
    [|discriminate|contradiction].
  destruct Hstep as [Hit _]. destruct brk; [cbn; discriminate|].
  apply IH. lia.
Qed.

(** Without a cap the loop ends as soon as a call of the LLM rejects or
    the agent declares the task complete. *)
Lemma whileLoop_ends (fuel : nat) :
  forall st w k,
    1 <= k <= fuel ->
    endsLoop jsonParse (llm (AgenticLoop.iteration st + k)) = true ->
    fst (whileLoop fuel st w) <> OutOfFuel.
Proof.
  induction fuel as [|fuel IH]; intros st w k Hk Hend; [lia|].
  cbn [AgenticLoop.whileLoop].
  destruct (AgenticLoop.belowCap _ _); [|cbn; discriminate].
  unfold bind. pose proof (iterationBody_step st w) as Hstep.
  destruct (iterationBody st w) as [[[brk st']|e|] w1]; cbn [fst snd];
    [|discriminate|contradiction].
  destruct Hstep as [Hit Hbrk]. destruct brk; [cbn; discriminate|].
  destruct (Nat.eq_dec k 1) as [->|Hne].
  - rewrite Nat.add_1_r in Hend. congruence.
  - apply (IH st' w1 (k - 1)); [lia|].
    rewrite Hit. replace (S (AgenticLoop.iteration st) + (k - 1))
      with (AgenticLoop.iteration st + k) by lia. exact Hend.
Qed.

(** The loop returns at the first turn [K] whose answer completes the
    task, provided that turn is permitted by the cap. *)
Lemma whileLoop_first_completion (K : nat) (fuel : nat) :
  (forall k, k < K -> endsLoop jsonParse (llm k) = false) ->
  endsLoop jsonParse (llm K) = true ->
  (exists result, llm K = Resolves result) ->
  AgenticLoop.belowCap (K - 1) (maxIterations params) = true ->
  forall st w,
    AgenticLoop.iteration st < K ->
    K - AgenticLoop.iteration st <= fuel ->
    exists st' w',
      whileLoop fuel st w = (Ok st', w') /\ AgenticLoop.iteration st' = K.
Proof.
  intros Hbefore Hat [result Hres] Hcap.
  induction fuel as [|fuel IH]; intros st w Hlt Hfuel; [lia|].
  cbn [AgenticLoop.whileLoop].
  assert (Hbelow : AgenticLoop.belowCap (AgenticLoop.iteration st)
                     (maxIterations params) = true).
  { unfold AgenticLoop.belowCap in *. destruct (maxIterations params); [|reflexivity].
    apply Nat.ltb_lt. apply Nat.ltb_lt in Hcap. lia. }
  rewrite Hbelow. unfold bind.
  pose proof (iterationBody_step st w) as Hstep.
  destruct (iterationBody st w) as [[[brk st']|e|] w1]; cbn [fst snd].
  - destruct Hstep as [Hit Hbrk].
    destruct (Nat.eq_dec (S (AgenticLoop.iteration st)) K) as [E|NE].
    + rewrite E, Hat in Hbrk. subst brk. eexists _, _. split; [reflexivity|]. lia.
    + rewrite (Hbefore (S (AgenticLoop.iteration st))) in Hbrk by lia. subst brk.
      apply IH; lia.
  - destruct Hstep as [Hrej Hend].
    destruct (Nat.eq_dec (S (AgenticLoop.iteration st)) K) as [E|NE].
    + rewrite E, Hres in Hrej. discriminate.
    + rewrite (Hbefore (S (AgenticLoop.iteration st))) in Hend by lia. discriminate.
  - contradiction.
Qed.

(** The value of [success] in terms of the agent: when the first answer
    that completes the task comes at turn [K] and the cost row is
    written, the function returns after [K] turns, and [success] is
    true exactly when [K] is below the cap; at the cap itself it is
    false. *)
Lemma success_iff_completed_below_cap (K cap : nat) (w : World) :
  maxIterations params = Some cap ->
  1 <= K <= cap ->
  (forall k, k < K -> endsLoop jsonParse (llm k) = false) ->
  endsLoop jsonParse (llm K) = true ->
  (exists result, llm K = Resolves result) ->
  costInsert = Resolves tt ->
  exists r w',
    runAgenticLoop cap w = (Ok r, w')
    /\ iterations r = K
    /\ success r = (K <? cap).
Proof.
  intros Hmax HK Hbefore Hat Hres Hcost.
  destruct (whileLoop_first_completion K cap Hbefore Hat Hres) with
    (st := AgenticLoop.initialState params) (w := w) as (st' & w1 & Hloop & Hit).
  - rewrite Hmax. unfold AgenticLoop.belowCap. apply Nat.ltb_lt. lia.
  - cbn. lia.
  - cbn. lia.
  - unfold AgenticLoop.runAgenticLoop, bind. rewrite Hloop.
    unfold AgenticLoop.afterLoop, CostTracker.trackMessageCost, tryCatch, bind.
    rewrite Hcost. cbn. eexists _, _. split; [reflexivity|].
    rewrite Hit, Hmax. split; reflexivity.
Qed.

(** The counters of the loop hold the tokens of the turns whose answer
    parsed. *)
Lemma iterationBody_tokens (st st' : AgenticLoop.LoopState) (brk : bool) (w w' : World) :
  iterationBody st w = (Ok (brk, st'), w') ->
  (AgenticLoop.totalInputTokens st, AgenticLoop.totalOutputTokens st)
  = parsedTokens llm jsonParse (AgenticLoop.iteration st) ->
  (AgenticLoop.totalInputTokens st', AgenticLoop.totalOutputTokens st')
  = parsedTokens llm jsonParse (AgenticLoop.iteration st').
Proof.
  unfold AgenticLoop.iterationBody. cbv zeta. unfold bind at 1, ext.
  intros Hrun Hst.
  destruct (llm (S (AgenticLoop.iteration st))) as [result|e] eqn:Hllm;
    [|discriminate].
  destruct (AgenticLoop.parseAgentResponse jsonParse (text result)) as [a|] eqn:Hparse.
  - unfold bind, CommandExecutor.executeAgentCommands in Hrun.
    rewrite forCommands_entries in Hrun.
    destruct (AgenticLoop.trackModifications _ _ _). cbn in Hrun.
    injection Hrun as _ <- _. cbn [AgenticLoop.iteration AgenticLoop.totalInputTokens
      AgenticLoop.totalOutputTokens parsedTokens].
    rewrite <- Hst, Hllm, Hparse. reflexivity.
  - cbn in Hrun. injection Hrun as _ <- _.
    cbn [AgenticLoop.iteration AgenticLoop.totalInputTokens
      AgenticLoop.totalOutputTokens parsedTokens].
    rewrite <- Hst, Hllm, Hparse. reflexivity.
Qed.

Lemma whileLoop_tokens (fuel : nat) :
  forall st st' w w',
    whileLoop fuel st w = (Ok st', w') ->
    (AgenticLoop.totalInputTokens st, AgenticLoop.totalOutputTokens st)
    = parsedTokens llm jsonParse (AgenticLoop.iteration st) ->
    (AgenticLoop.totalInputTokens st', AgenticLoop.totalOutputTokens st')
    = parsedTokens llm jsonParse (AgenticLoop.iteration st').
Proof.
  induction fuel as [|fuel IH]; intros st st' w w'; cbn [AgenticLoop.whileLoop];
    destruct (AgenticLoop.belowCap _ _); unfold ret;
    try (intros H; injection H as <- _; trivial); try discriminate.
  unfold bind.
  destruct (iterationBody st w) as [[[brk st1]|e|] w1] eqn:Hbody; try discriminate.
  cbn [fst snd]. intros Hrun Hst.
  pose proof (iterationBody_tokens _ _ _ _ _ Hbody Hst) as Hst1.
  destruct brk.
  - injection Hrun as <- _. exact Hst1.
  - exact (IH _ _ _ _ Hrun Hst1).
Qed.

(** The aggregated cost row holds the tokens of the turns whose answer
    parsed, not those of every call of the LLM. *)
Lemma runAgenticLoop_cost_row (fuel : nat) (w w' : World) (r : LoopResult) :
  runAgenticLoop fuel w = (Ok r, w') ->
  exists row,
    costRows w' = costRows w ++ [row]
    /\ (cost_inputTokens row, cost_outputTokens row)
       = parsedTokens llm jsonParse (iterations r).
Proof.
  unfold AgenticLoop.runAgenticLoop, bind.
  pose proof (keeps_whileLoop llm jsonParse sandbox params costRows
                ltac:(intros ? ? ?; reflexivity) ltac:(intros ? ?; reflexivity)
                fuel (AgenticLoop.initialState params) w) as Hk.
  destruct (whileLoop fuel _ w) as [[st|e|] w1] eqn:Hloop; cbn [snd] in Hk;
    try discriminate.
  pose proof (whileLoop_tokens _ _ _ _ _ Hloop eq_refl) as Htok.
  unfold AgenticLoop.afterLoop, CostTracker.trackMessageCost, tryCatch, bind.
  destruct costInsert; cbn; intro H; try discriminate.
  injection H as <- <-. eexists. cbn. rewrite Hk. split; [reflexivity|exact Htok].
Qed.

(** When the loop function returns, it has written exactly one row of
    [message_cost_tracker], tagged "agentic-container-execution" for
    the model of the main loop, and [success] is [iteration < maxIterations]. *)
Lemma runAgenticLoop_returns (fuel : nat) (w w' : World) (r : LoopResult) :
  runAgenticLoop fuel w = (Ok r, w') ->
  exists row,
    costRows w' = costRows w ++ [row]
    /\ cost_messageType row = "agentic-container-execution"
    /\ cost_model row = "grok-4-fast"
    /\ success r = AgenticLoop.belowCap (iterations r) (maxIterations params).
Proof.
  unfold AgenticLoop.runAgenticLoop, bind.
  pose proof (keeps_whileLoop llm jsonParse sandbox params costRows
                ltac:(intros ? ? ?; reflexivity) ltac:(intros ? ?; reflexivity)
                fuel (AgenticLoop.initialState params) w) as Hk.
  destruct (whileLoop fuel _ w) as [[st|e|] w1]; cbn [snd] in Hk; try discriminate.
  unfold AgenticLoop.afterLoop, CostTracker.trackMessageCost, tryCatch, bind.
  destruct costInsert; cbn; intro H; try discriminate.
  injection H as <- <-. eexists. cbn. rewrite Hk. repeat split.
Qed.

End LoopRun.

(** C6.  With the cap [maxIterations = 1] and an agent whose first (and
    last permitted) answer sets [taskComplete: true], the loop leaves
    through [break] after one turn, yet the function returns
    [success: false] and the summary "Max iterations reached before
    task completion". *)
Theorem completion_at_the_cap_is_reported_as_failure :
  exists r w,
    AgenticLoop.runAgenticLoop Scenarios.doneAtOnce Scenarios.parseAnswer
      Scenarios.sandboxOk (Resolves tt) (Scenarios.loopParams (Some 1)) 1 emptyWorld
    = (Ok r, w)
    /\ endsLoop Scenarios.parseAnswer (Scenarios.doneAtOnce 1) = true
    /\ iterations r = 1
    /\ AgenticLoop.completedResponses Scenarios.parseAnswer (res_conversationHistory r)
       = [Scenarios.doneAnswer]
    /\ success r = false
    /\ res_summary r = "Max iterations reached before task completion".
Proof.
  eexists _, _. split; [vm_compute; reflexivity|]. repeat split.
Qed.

(** C5.  An agent whose first answer cannot be parsed (100 input and
    50 output tokens) and whose second answer completes the task (10
    and 5 tokens): the loop takes two turns and writes one row of
    [message_cost_tracker], with 10 input and 5 output tokens, while
    the two calls of the LLM used 110 and 55; the tokens of the first
    turn are in no row. *)
Theorem unparseable_turn_is_not_costed :
  exists r w,
    AgenticLoop.runAgenticLoop Scenarios.garbledThenDone Scenarios.parseAnswer
      Scenarios.sandboxOk (Resolves tt) (Scenarios.loopParams None) 2 emptyWorld
    = (Ok r, w)
    /\ iterations r = 2
    /\ Scenarios.garbledThenDone 1 = Resolves (mkLLMReply "Sure! Here is the plan" 100 50)
    /\ Scenarios.garbledThenDone 2 = Resolves (mkLLMReply "{done}" 10 5)
    /\ costRows w
       = [mkCostRow "p1" "req-1" "u1" "make a weather passthrough API"
            "agentic-container-execution" "grok-4-fast" 10 5]
    /\ usedTokens Scenarios.garbledThenDone (iterations r) = (110, 55).
Proof.
  eexists _, _. split; [vm_compute; reflexivity|]. repeat split.
Qed.

(** ** Modification pipeline *)

Lemma existsb_filter {A} (p : A -> bool) (l : list A) :
  existsb p l = match filter p l with [] => false | _ :: _ => true end.
Proof.
  induction l as [|a l IH]; [reflexivity|]. simpl.
  destruct (p a); [reflexivity | exact IH].
Qed.

(** [determineModificationType] computes the classification of the
    specification. *)
Lemma determineModificationType_rule (filesModified : list FileModified) :
  Modification.determineModificationType filesModified
  = specModificationType filesModified.
Proof.
  unfold Modification.determineModificationType, specModificationType,
    newRoutes, changedRoutes.
  rewrite !existsb_filter.
  destruct (filter _ filesModified); [|reflexivity].
  now destruct (filter _ filesModified).
Qed.

(** No entry that the loop adds to [filesModified] has an [isNew]
    property. *)
Lemma trackModifications_isNew (cmds : list Command) :
  forall files queries,
    Forall (fun f => file_isNew f = None) files ->
    Forall (fun f => file_isNew f = None)
           (fst (AgenticLoop.trackModifications cmds files queries)).
Proof.
  induction cmds as [|cmd rest IH]; intros files queries H; [exact H|].
  destruct cmd; cbn [AgenticLoop.trackModifications]; try (apply IH; exact H).
  apply IH. apply Forall_app. split; [exact H|]. now constructor.
Qed.

(** Files without an [isNew] property are never classified as added
    endpoints. *)
Lemma no_isNew_never_added (filesModified : list FileModified) :
  Forall (fun f => file_isNew f = None) filesModified ->
  Modification.determineModificationType filesModified <> "endpoints_added".
Proof.
  intro H. rewrite determineModificationType_rule. unfold specModificationType.
  assert (E : newRoutes filesModified = []).
  { unfold newRoutes. induction H as [|f l Hf _ IH]; [reflexivity|].
    simpl. rewrite Hf, andb_false_r. exact IH. }
  rewrite E. destruct (changedRoutes filesModified); discriminate.
Qed.

(** C7.  Project "p5" has the route files [index.get.js] and
    [index.post.js]; the agent writes the new route file
    ["server/api/users/[id].get.js"] and completes.  The job succeeds,
    the file is in [filesModified] with type [route] and no [isNew]
    property, and the activities recorded are [github_push] and
    [endpoints_modified]: no [endpoints_added] activity is written. *)
Theorem new_route_is_recorded_as_endpoints_modified :
  let env := Scenarios.workerEnv
               (Scenarios.modificationEnv
                  (Scenarios.agentWith Scenarios.newRouteAtOnce) [Scenarios.activeRepo])
               (Scenarios.creationEnv false false false) in
  exists r w,
    Dispatcher.processJob env
      (mkJob "projectModificationJob" (Scenarios.jobData "p5" "s5")) emptyWorld
    = (Ok (Modified r), w)
    /\ mod_filesModified r
       = [mkFileModified "server/api/users/[id].get.js"
            "export default defineEventHandler(...)" "route" None]
    /\ ~ In "server/api/users/[id].get.js"
            ["server/api/users/index.get.js"; "server/api/users/index.post.js"]
    /\ map act_actionType (activities w) = ["github_push"; "endpoints_modified"].
Proof.
  eexists _, _. split; [vm_compute; reflexivity|].
  split; [reflexivity|]. split; [|reflexivity].
  intros [H|[H|[]]]; discriminate.
Qed.

(** C2.  The agent answers with one [db_query] command of type CREATE
    TABLE and completes.  The job succeeds and a [tables_added]
    activity "Added 1 new tables" is recorded, but no statement has run
    on the project's database. *)
Theorem create_table_queries_are_not_applied :
  let agent := Scenarios.agentWith Scenarios.newTableAtOnce in
  let env := Scenarios.workerEnv
               (Scenarios.modificationEnv agent [Scenarios.activeRepo])
               (Scenarios.creationEnv false false false) in
  exists loopResult w0 r w,
    AgenticLoop.runAgenticLoop (llm agent) (jsonParse agent) (sandbox agent)
      (costInsert agent) (Scenarios.loopParams None) (fuel agent) emptyWorld
    = (Ok loopResult, w0)
    /\ res_dbQueries loopResult
       = [mkDbQueryEntry "CREATE TABLE orders (order_id VARCHAR(255) PRIMARY KEY)"
            "orders" "CREATE TABLE"]
    /\ Dispatcher.processJob env
         (mkJob "projectModificationJob" (Scenarios.jobData "p5" "s5")) emptyWorld
       = (Ok (Modified r), w)
    /\ map (fun a => (act_actionType a, act_actionDetails a)) (activities w)
       = [("tables_added", "Added 1 new tables");
          ("github_push",
           "Pushed 0 modified files to https://github.com/SaaSManDan/turbobackend-p5")]
    /\ projectDdl w = [].
Proof.
  eexists _, _, _, _. split; [vm_compute; reflexivity|].
  split; [reflexivity|]. split; [vm_compute; reflexivity|].
  split; reflexivity.
Qed.

Lemma publish_delivered (rp : nat -> reply unit) (channel : string) (msg : Message)
      (w : World) :
  (forall n, rp n = Resolves tt) ->
  Publisher.publishToChannel rp channel msg w = (Ok tt, deliver channel msg w).
Proof. intro H. unfold Publisher.publishToChannel. now rewrite H. Qed.

Lemma persisted_app (log1 log2 : list Stmt) :
  persisted (log1 ++ log2)
  = committedRows (fold_left txStep log2 (fold_left txStep log1 (mkTxState false [] []))).
Proof. unfold persisted. now rewrite fold_left_app. Qed.

Lemma publish_resolved (rp : nat -> reply unit) (channel : string) (msg : Message)
      (w : World) :
  rp (pubAttempts w) = Resolves tt ->
  Publisher.publishToChannel rp channel msg w = (Ok tt, deliver channel msg w).
Proof. intro H. unfold Publisher.publishToChannel. now rewrite H. Qed.

(** C8 (as amended).  A modification job for a project without an
    active Source-Repo row, when the control database and the bus do
    what this path asks of them (the request is logged, a client is
    handed out, BEGIN and ROLLBACK run, the three publications of the
    path are delivered, the lookup returns no row): the job throws "No
    GitHub repository found for project <id>" to the queue; after the
    two progress messages exactly one more message is published on the
    stream, a terminal error whose text contains "No GitHub repository
    found"; the statements that ran on the client are BEGIN, the
    lookup and ROLLBACK, after which no transaction is open and
    nothing is pending, and the rows that persist are those that were
    there before. *)
Theorem missing_repository_fails_the_job (env : WorkerEnv) (job : Job) (w : World) :
  job_name job = "projectModificationJob" ->
  workable (m_infra (w_modification env)) ->
  txBegin (m_infra (w_modification env)) = Resolves tt ->
  (forall k, k < 3 ->
     redisPublish (m_infra (w_modification env)) (pubAttempts w + k) = Resolves tt) ->
  m_repoRows (w_modification env) = Resolves [] ->
  exists content w',
    Dispatcher.processJob env job w
    = (Throw ("No GitHub repository found for project " +++ project_id (job_data job)), w')
    /\ bus w' = bus w ++ [(streamId (job_data job), Progress "Provisioning new sandbox..." 10);
                          (streamId (job_data job), Progress "Sandbox provisioned" 15);
                          (streamId (job_data job), Terminal content true)]
    /\ Str.includes content "No GitHub repository found" = true
    /\ ctl w' = ctl w ++ [Begin; Select "project_github_repos"; Rollback; Release]
    /\ inTransaction (fold_left txStep (ctl w') (mkTxState false [] [])) = false
    /\ pendingRows (fold_left txStep (ctl w') (mkTxState false [] [])) = []
    /\ persisted (ctl w') = persisted (ctl w).
Proof.
  intros Hname (Hlog & Hconn & Hrb) Hbegin Hpub Hrows.
  destruct Hlog as [rid Hlog].
  pose proof (Hpub 0 (Nat.lt_0_succ 2)) as Hp0. rewrite Nat.add_0_r in Hp0.
  pose proof (Hpub 1 (proj1 (Nat.succ_lt_mono 0 2) (Nat.lt_0_succ 1))) as Hp1.
  pose proof (Hpub 2 (Nat.lt_succ_diag_r 2)) as Hp2.
  rewrite Nat.add_1_r in Hp1. replace (pubAttempts w + 2) with (S (S (pubAttempts w))) in Hp2
    by (now rewrite Nat.add_comm).
  exists ("Modification failed: " +++ "No GitHub repository found"
          +++ " for project " +++ project_id (job_data job)).
  unfold Dispatcher.processJob, Dispatcher.getProcessor. rewrite Hname. cbn [String.eqb Ascii.eqb Bool.eqb].
  unfold Modification.projectModificationProcessor,
    Modification.handleProjectModificationOrchestration, Modification.modificationBody,
    Modification.modificationPhases, Modification.getProjectGitHubRepo, provisionDaytonaContainer,
    Publisher.publishProgress, Publisher.publishError.
  rewrite Hlog, Hconn, Hrb, Hbegin, Hrows.
  unfold bind, finally, tryCatch, ext, query, ret, throw, release, consoleError.
  rewrite publish_resolved by exact Hp0.
  destruct (m_sandboxCreate (w_modification env));
    cbn [fst snd];
    rewrite publish_resolved by exact Hp1;
    cbn [fst snd];
    rewrite publish_resolved by exact Hp2;
    cbn [bus ctl ran deliver logged fst snd];
    (eexists; split; [reflexivity|]);
    cbn [bus ctl ran deliver logged fst snd];
    rewrite <- !app_assoc; cbn [app];
    (split; [reflexivity|]);
    (split; [apply includes_app|]);
    (split; [reflexivity|]);
    rewrite !fold_left_app; cbn [fold_left txStep inTransaction pendingRows];
    (split; [reflexivity|]); (split; [reflexivity|]);
    rewrite !persisted_app; reflexivity.
Qed.

(** ** What the phases of a pipeline leave untouched *)

Create HintDb pipeline.

#[local] Hint Unfold
  Publisher.publishProgress
  CostTracker.trackMessageCost
  AgenticLoop.runAgenticLoop AgenticLoop.afterLoop
  provisionDaytonaContainer detectNeed
  Modification.getProjectGitHubRepo Modification.addTablesToExistingDatabase
  Modification.handleNewTables Modification.refreshBlueprint
  Modification.modificationPhases
  Modification.readFileFromContainer Modification.redeploy
  GitBranchManager.listDirectory GitBranchManager.checked
  GitBranchManager.cloneProjectFromGitHub GitBranchManager.createFeatureBranch
  GitBranchManager.commitChanges GitBranchManager.pushFeatureBranch
  GitBranchManager.mergeFeatureBranch GitBranchManager.pushToMain
  ContextLoader.loadProjectContext
  FlyioService.createFlyToml FlyioService.checkFlyAppExists FlyioService.createFlyApp
  FlyioService.setDatabaseSecrets FlyioService.verifyDeployment
  FlyioService.recordDeployment FlyioService.deployProjectToFlyIO
  GitHubIntegration.createGitHubRepo GitHubIntegration.pushToOrigin
  GitHubIntegration.firstPush GitHubIntegration.laterPush
  GitHubIntegration.pushToGitHubDeterministic
  Creation.getOrProvisionContainer Creation.pushToGitHub
  DatabaseProvisioner.provisionAndCreateTables
  Creation.storeEnvVarRequirements Creation.storeCredentialPlaceholders
  Creation.detectionPhases Creation.trackProjectCreated
  Creation.deploymentPreparation Creation.trackEndpoints Creation.postExecution
  Creation.saveBlueprint Creation.pipelinePhases Creation.creationPhases
  Creation.notifyDeployment
  SecretSync.syncAttempt SecretSync.recordFailure SecretSync.tearDown
  : pipeline.

Section PipelineFrames.

Context {X : Type} (f : World -> X).
Hypothesis blind_ran : forall s, blind f (ran s).
Hypothesis blind_logged : forall line, blind f (logged line).
Hypothesis blind_attempted : forall c op, blind f (attempted c op).
Hypothesis blind_costed : forall r, blind f (costed r).
Hypothesis blind_acted : forall r, blind f (acted r).
Hypothesis blind_dropped : blind f dropped.
Hypothesis blind_progress : forall ch m p, blind f (deliver ch (Progress m p)).
Hypothesis blind_typed : forall ch t c, blind f (deliver ch (Typed t c)).
Hypothesis blind_applied : forall db stmt, blind f (applied db stmt).

Ltac pipeline_step :=
  first
    [ frame_step
    | apply keeps_publish; [solve [auto] | solve [auto]]
    | apply keeps_whileLoop; solve [auto]
    | match goal with
      | |- keeps _ (fun w => match ?r with
                             | Resolves _ => _
                             | Rejects _ => _
                             end) =>
          destruct r; intro; cbn [snd];
          first [ reflexivity | apply blind_costed | apply blind_acted
                | apply blind_ran ]
      end
    | progress autounfold with pipeline ].

Ltac pipeline := repeat pipeline_step.

Lemma keeps_runAgenticLoop llm jsonParse sandbox costInsert params fuel :
  keeps f (AgenticLoop.runAgenticLoop llm jsonParse sandbox costInsert params fuel).
Proof. pipeline. Qed.

Lemma keeps_modificationPhases (env : ModificationEnv) (job : JobData)
      (requestId streamId : string) :
  keeps f (Modification.modificationPhases env job requestId streamId).
Proof. pipeline. Qed.

Lemma keeps_insertCredentials (insert : reply unit) (n : nat) :
  keeps f (Creation.insertCredentials insert n).
Proof. induction n; cbn [Creation.insertCredentials]; pipeline; exact IHn. Qed.

Lemma keeps_createTables (env : ProvisionEnv) (dbName : string)
      (tables : list TableDesign) :
  keeps f (DatabaseProvisioner.createTables env dbName tables).
Proof.
  induction tables as [|t rest IH];
    cbn [DatabaseProvisioner.createTables]; pipeline; apply IH.
Qed.


Lemma keeps_notifyDeployment (env : CreationEnv) (job : JobData)
      (streamId : string) (l : CreationLocals) :
  keeps f (Creation.notifyDeployment env job streamId l).
Proof. pipeline. Qed.

End PipelineFrames.

(** ** Terminal messages *)



(** ** Secret-sync jobs publish nothing *)



(** The failing modification of C8 on a concrete project. *)
Lemma missing_repository_witness :
  let env := Scenarios.workerEnv
               (Scenarios.modificationEnv (Scenarios.agentWith Scenarios.doneAtOnce) [])
               (Scenarios.creationEnv false false false) in
  let job := mkJob "projectModificationJob" (Scenarios.jobData "p6" "s6") in
  job_name job = "projectModificationJob"
  /\ workable (m_infra (w_modification env))
  /\ txBegin (m_infra (w_modification env)) = Resolves tt
  /\ (forall k, k < 3 ->
        redisPublish (m_infra (w_modification env)) (pubAttempts emptyWorld + k)
        = Resolves tt)
  /\ m_repoRows (w_modification env) = Resolves []
  /\ exists content w',
      Dispatcher.processJob env job emptyWorld
      = (Throw ("No GitHub repository found for project " +++ project_id (job_data job)), w')
      /\ bus w' = bus emptyWorld
                  ++ [(streamId (job_data job), Progress "Provisioning new sandbox..." 10);
                      (streamId (job_data job), Progress "Sandbox provisioned" 15);
                      (streamId (job_data job), Terminal content true)]
      /\ Str.includes content "No GitHub repository found" = true
      /\ ctl w' = ctl emptyWorld ++ [Begin; Select "project_github_repos"; Rollback; Release]
      /\ inTransaction (fold_left txStep (ctl w') (mkTxState false [] [])) = false
      /\ pendingRows (fold_left txStep (ctl w') (mkTxState false [] [])) = []
      /\ persisted (ctl w') = persisted (ctl emptyWorld).
Proof.
  intros env job.
  assert (Hd : workable (m_infra (w_modification env))).
  { split; [now exists "req-1"|]. split; reflexivity. }
  split; [reflexivity|]. split; [exact Hd|]. split; [reflexivity|].
  split; [intros k _; reflexivity|]. split; [reflexivity|].
  exact (missing_repository_fails_the_job env job emptyWorld eq_refl Hd eq_refl
           (fun k _ => eq_refl) eq_refl).
Defined.

(** C8 (as stated) fails: for a project without an active Source-Repo
    row, when the bus rejects the third publication of the job (the
    terminal error), no terminal error reaches the stream and what the
    queue observes is the error of the bus, not the missing
    repository; the transaction is rolled back all the same. *)
Lemma missing_repository_without_terminal_error :
  let env := Scenarios.workerEnv
               (Scenarios.modificationEnvWith (Scenarios.infraLosing 2)
                  (Scenarios.agentWith Scenarios.doneAtOnce) Scenarios.boxOk
                  (Resolves "sandbox-1") [])
               (Scenarios.creationEnv false false false) in
  let job := mkJob "projectModificationJob" (Scenarios.jobData "p6" "s6") in
  m_repoRows (w_modification env) = Resolves []
  /\ exists w',
      Dispatcher.processJob env job emptyWorld = (Throw "Connection is closed.", w')
      /\ onStream "s6" (bus w')
         = [Progress "Provisioning new sandbox..." 10; Progress "Sandbox provisioned" 15]
      /\ terminals "s6" (bus w') = []
      /\ ctl w' = [Begin; Select "project_github_repos"; Rollback; Release].
Proof.
  split; [reflexivity|]. eexists. split; [vm_compute; reflexivity|].
  repeat split.
Qed.

(** ** Progress values of the creation pipeline *)

(** C4.  A creation job whose auth and payment detectors both answer
    true, and in which every collaborator succeeds: the job returns,
    and the progress values published on its stream up to the terminal
    message start with 10, 8, 9, which is not non-decreasing. *)
Theorem detector_notices_lower_the_progress :
  let env := Scenarios.workerEnv
               (Scenarios.modificationEnv
                  (Scenarios.agentWith Scenarios.doneAtOnce) [Scenarios.activeRepo])
               (Scenarios.creationEnv true true false) in
  let job := mkJob "initialProjectCreationJob" (Scenarios.jobData "p1" "s1") in
  exists r w,
    Dispatcher.processJob env job emptyWorld = (Ok (Created r), w)
    /\ progressValues (onStream "s1" (bus w))
       = [10; 8; 9; 20; 25; 28; 30; 70; 72; 74; 76; 77; 78]
    /\ nonDecreasing (progressValues (onStream "s1" (bus w))) = false.
Proof.
  eexists _, _. split; [vm_compute; reflexivity|]. split; reflexivity.
Qed.

(** ** Failures of the cost writer *)

(** C3 (as amended).  When the INSERT of a Message-Cost row fails,
    [trackMessageCost] logs the failure and throws the same error to
    its caller, and no row is written (a successful INSERT writes
    exactly the row); the cost block of the streaming LLM callers
    catches that error, logs it and carries on, so that block never
    throws. *)
Theorem cost_write_failure_is_logged_and_rethrown (e : string) (row : CostRow) (w : World) :
  CostTracker.trackMessageCost (Rejects e) row w
  = (Throw e, logged "[trackMessageCost] Error tracking message cost:" w)
  /\ CostTracker.streamCostBlock (Rejects e) row w
     = (Ok tt, logged "Cost tracking failed:"
                 (logged "[trackMessageCost] Error tracking message cost:" w))
  /\ costRows (snd (CostTracker.trackMessageCost (Rejects e) row w)) = costRows w
  /\ costRows (snd (CostTracker.trackMessageCost (Resolves tt) row w)) = costRows w ++ [row]
  /\ (forall insert, exists w', CostTracker.streamCostBlock insert row w = (Ok tt, w')).
Proof.
  repeat split. intros [[]|e']; eexists; reflexivity.
Qed.

(** C3 (as stated) fails: a failed INSERT makes [trackMessageCost]
    throw to its caller, and the agentic loop, which calls it without a
    guard, throws the same error although the agent completed its task. *)
Lemma cost_write_failure_reaches_the_caller :
  let row := mkCostRow "p1" "req-1" "u1" "make a weather passthrough API"
               "agentic-container-execution" "grok-4-fast" 10 5 in
  fst (CostTracker.trackMessageCost (Rejects "connection refused") row emptyWorld)
  = Throw "connection refused"
  /\ fst (AgenticLoop.runAgenticLoop Scenarios.doneAtOnce Scenarios.parseAnswer
            Scenarios.sandboxOk (Rejects "connection refused")
            (Scenarios.loopParams None) 1 emptyWorld)
     = Throw "connection refused".
Proof. split; vm_compute; reflexivity. Qed.

(** ** The modification pipeline runs nothing on a project database *)

Lemma modification_never_applies_ddl (env : ModificationEnv) (job : JobData)
      (requestId streamId : string) :
  keeps projectDdl
        (Modification.handleProjectModificationOrchestration env job requestId streamId).
Proof.
  unfold Modification.handleProjectModificationOrchestration,
    Modification.modificationBody.
  apply keeps_bind; [frame|intros _].
  apply keeps_finally; [|frame].
  apply keeps_tryCatch; [|intro e; frame; apply keeps_publish; intro; reflexivity].
  apply keeps_bind;
    [apply keeps_modificationPhases; intros; intro; reflexivity|intro l].
  apply keeps_bind; [apply keeps_publish; intro; reflexivity|intros _; frame].
Qed.

(** ** Jobs end when the agent does *)

Section Settling.

Lemma settles_ret {A} (a : A) : settles (ret a).
Proof. intro w. discriminate. Qed.

Lemma settles_throw {A} (e : string) : settles (@throw A e).
Proof. intro w. discriminate. Qed.

Lemma settles_ext {A} (r : reply A) : settles (ext r).
Proof. intro w. unfold ext. destruct r; discriminate. Qed.

Lemma settles_bind {A B} (m : M A) (k : A -> M B) :
  settles m -> (forall a, settles (k a)) -> settles (bind m k).
Proof.
  intros Hm Hk w. unfold bind. specialize (Hm w).
  destruct (m w) as [[a|e|] w1]; cbn [fst] in *;
    [apply Hk | discriminate | now elim Hm].
Qed.

Lemma settles_tryCatch {A} (m : M A) (h : string -> M A) :
  settles m -> (forall e, settles (h e)) -> settles (tryCatch m h).
Proof.
  intros Hm Hh w. unfold tryCatch. specialize (Hm w).
  destruct (m w) as [[a|e|] w1]; cbn [fst] in *;
    [discriminate | apply Hh | now elim Hm].
Qed.

Lemma settles_finally {A} (m : M A) (c : M unit) :
  settles m -> settles c -> settles (finally m c).
Proof.
  intros Hm Hc w. unfold finally. specialize (Hm w).
  destruct (m w) as [[a|e|] w1]; cbn [fst] in *; try (now elim Hm);
    specialize (Hc w1); destruct (c w1) as [[[]|e'|] w2]; cbn [fst] in *;
    try discriminate; now elim Hc.
Qed.

Lemma settles_when (b : bool) (m : M unit) : settles m -> settles (when b m).
Proof. destruct b; [trivial | intros _; apply settles_ret]. Qed.

Lemma settles_update {A} (a : A) (u : World -> World) : settles (fun w => (Ok a, u w)).
Proof. intro w. discriminate. Qed.

Lemma settles_query {A} (s : Stmt) (r : reply A) : settles (query s r).
Proof. intro w. unfold query. destruct r; discriminate. Qed.

Lemma settles_publish (rp : nat -> reply unit) (channel : string) (msg : Message) :
  settles (Publisher.publishToChannel rp channel msg).
Proof.
  intro w. unfold Publisher.publishToChannel. destruct (rp _); discriminate.
Qed.

Lemma settles_reply {A B} (r : reply A) (u : A -> World -> World) (b : A -> B) :
  settles (fun w => match r with
                    | Resolves a => (Ok (b a), u a w)
                    | Rejects e => (Throw e, w)
                    end).
Proof. intro w. destruct r; discriminate. Qed.

Lemma settles_executeAgentCommands sandbox (c : ContainerId) (cmds : list Command) :
  settles (CommandExecutor.executeAgentCommands sandbox c cmds).
Proof.
  intro w. unfold CommandExecutor.executeAgentCommands.
  rewrite forCommands_entries. discriminate.
Qed.

Lemma settles_sandboxCall sandbox (c : ContainerId) (op : SandboxOp) :
  settles (CommandExecutor.sandboxCall sandbox c op).
Proof.
  intro w. unfold CommandExecutor.sandboxCall.
  destruct (sandbox _ c op); discriminate.
Qed.

Lemma settles_executeCommandInContainer shell (c : ContainerId) (command : string) :
  settles (Daytona.executeCommandInContainer shell c command).
Proof.
  intro w. unfold Daytona.executeCommandInContainer.
  destruct (shell _ c command); discriminate.
Qed.

Lemma settles_writeFileInContainer upload (c : ContainerId) (path content : string) :
  settles (Daytona.writeFileInContainer upload c path content).
Proof.
  intro w. unfold Daytona.writeFileInContainer.
  destruct (upload _ c path content); discriminate.
Qed.

End Settling.

Ltac settle_step :=
  first
    [ apply settles_ret
    | apply settles_throw
    | apply settles_ext
    | apply settles_query
    | apply settles_publish
    | apply settles_executeAgentCommands
    | apply settles_sandboxCall
    | apply settles_executeCommandInContainer
    | apply settles_writeFileInContainer
    | apply settles_bind; [ | intro ]
    | apply settles_tryCatch; [ | intro ]
    | apply settles_finally
    | apply settles_when
    | apply settles_update
    | match goal with
      | |- settles (fun w => match ?r with
                             | Resolves _ => _
                             | Rejects _ => _
                             end) => destruct r; intro; discriminate
      | |- settles (if ?b then _ else _) => destruct b
      | |- settles (match ?x with _ => _ end) => destruct x
      | |- settles (let '(_, _) := ?x in _) => destruct x
      | H : settles ?m |- settles ?m => exact H
      | H : forall x, settles _ |- settles _ => apply H
      end
    | progress cbv zeta
    | progress unfold consoleError, release, onDatabase, ActivityTracker.trackActivity
    | progress autounfold with pipeline ].

Ltac settle := repeat settle_step.

Lemma settles_runAgenticLoop (a : AgentEnv) (params : LoopParams) :
  agentEnds a ->
  settles (AgenticLoop.runAgenticLoop (llm a) (jsonParse a) (sandbox a)
             (costInsert a) params (fuel a)).
Proof.
  intros (k & Hk & Hend).
  assert (H : settles (AgenticLoop.whileLoop (llm a) (jsonParse a) (sandbox a) params
                         (fuel a) (AgenticLoop.initialState params))).
  { intro w. apply (whileLoop_ends _ _ _ _ _ _ _ k Hk). exact Hend. }
  unfold AgenticLoop.runAgenticLoop. settle.
Qed.

Lemma settles_insertCredentials (insert : reply unit) (n : nat) :
  settles (Creation.insertCredentials insert n).
Proof. induction n; cbn [Creation.insertCredentials]; settle. Qed.

Lemma settles_createTables (env : ProvisionEnv) (dbName : string)
      (tables : list TableDesign) :
  settles (DatabaseProvisioner.createTables env dbName tables).
Proof.
  induction tables as [|t rest IH];
    cbn [DatabaseProvisioner.createTables]; settle.
Qed.

Lemma settles_syncCredentialsToFlyio (env : SecretSyncEnv)
      (projectId credentialName credentialValue : string) :
  settles (SecretSync.syncCredentialsToFlyio env projectId credentialName credentialValue).
Proof.
  assert (Hfail : forall e, settles (SecretSync.recordFailure env e))
    by (intro e; settle).
  intro w. unfold SecretSync.syncCredentialsToFlyio, query.
  destruct (s_deployments env) as [[|appName rest]|e];
    [discriminate| |apply Hfail].
  assert (Hprov : settles (provisionDaytonaContainer (s_sandboxCreate env)))
    by settle.
  specialize (Hprov (ran (Select "project_deployments") w)).
  destruct (provisionDaytonaContainer _ _) as [[c|e|] w2]; cbn [fst] in Hprov.
  - assert (H : settles (finally (tryCatch (SecretSync.syncAttempt env c)
                                           (SecretSync.recordFailure env))
                                  (SecretSync.tearDown env c))) by settle.
    apply H.
  - apply Hfail.
  - contradiction.
Qed.

(** Every job that the dispatcher takes ends: a name without a
    processor is refused at once, a secret-sync job never waits for an
    agent, and a creation or modification job ends once its agent does. *)
Lemma processJob_settles (env : WorkerEnv) (job : Job) :
  agentEnds (c_agent (w_creation env)) ->
  agentEnds (m_agent (w_modification env)) ->
  settles (Dispatcher.processJob env job).
Proof.
  intros Hc Hm.
  pose proof (fun p => settles_runAgenticLoop _ p Hc) as HloopC.
  pose proof (fun p => settles_runAgenticLoop _ p Hm) as HloopM.
  pose proof settles_createTables as Htables.
  pose proof settles_insertCredentials as Hcreds.
  pose proof settles_syncCredentialsToFlyio as Hsync.
  unfold Dispatcher.processJob, Dispatcher.getProcessor.
  destruct (String.eqb _ _);
    [|destruct (String.eqb _ _); [|destruct (String.eqb _ _)]].
  - unfold Creation.initialProjectCreationProcessor,
      Creation.handleProjectCreationOrchestration, Creation.creationBody,
      Publisher.publishSuccess, Publisher.publishError.
    repeat first [ apply HloopC | apply Htables | apply Hcreds | settle_step ].
  - unfold Modification.projectModificationProcessor,
      Modification.handleProjectModificationOrchestration,
      Modification.modificationBody,
      Publisher.publishSuccess, Publisher.publishError.
    repeat first [ apply HloopM | settle_step ].
  - unfold SecretSync.flyioSecretsSyncProcessor.
    repeat first [ apply Hsync | settle_step ].
  - unfold Dispatcher.inherited.
    repeat match goal with
           | |- context [if ?b then _ else _] => destruct b
           end; settle.
Qed.

(** What a publication lost after the terminal success does: when the
    creation handler has published the terminal success and the
    deployment notification that follows is rejected by the bus, the
    [catch] block publishes a terminal error as well, after the
    transaction has been committed. *)
Lemma lost_notification_gives_two_terminals :
  let env := Scenarios.creationEnvWith (Scenarios.infraLosing 12)
               (Scenarios.agentWith Scenarios.newRouteAtOnce) false false false in
  let job := mkJob "initialProjectCreationJob" (Scenarios.jobData "p1" "s1") in
  exists w',
    Creation.initialProjectCreationProcessor env job emptyWorld
    = (Throw "Connection is closed.", w')
    /\ map isTerminal (onStream "s1" (bus w'))
       = [false; false; false; false; false; false; false; false; false; false; false;
          true; true]
    /\ persisted (ctl w')
       = ["container_sessions"; "project_actions"; "project_deployments";
          "project_actions"; "project_github_repos"; "github_push_history";
          "project_actions"].
Proof.
  eexists. split; [vm_compute; reflexivity|]. split; reflexivity.
Qed.

(** ** Every pipeline job ends with one terminal message *)


Lemma settles_modificationPhases (env : ModificationEnv) (job : JobData)
      (requestId streamId : string) :
  agentEnds (m_agent env) ->
  settles (Modification.modificationPhases env job requestId streamId).
Proof.
  intro Hm.
  pose proof (fun p => settles_runAgenticLoop _ p Hm) as Hloop.
  repeat first [ apply Hloop | settle_step ].
Qed.

Section OneTerminal.

Variable streamId : string.

Local Abbreviation T := (fun w : World => terminals streamId (bus w)).

Lemma terminals_dropped (w : World) : T (dropped w) = T w.
Proof. reflexivity. Qed.




End OneTerminal.





(** When the bus rejects the publication of the terminal error, no
    terminal message reaches the stream: a modification job whose
    repository lookup finds nothing, on a bus that loses the third
    publication. *)
Lemma lost_terminal_error_leaves_no_terminal :
  let env := Scenarios.modificationEnvWith (Scenarios.infraLosing 2)
               (Scenarios.agentWith Scenarios.doneAtOnce) Scenarios.boxOk
               (Resolves "sandbox-1") [] in
  let job := mkJob "projectModificationJob" (Scenarios.jobData "p6" "s6") in
  terminalErrorLost (m_infra env) "s6" emptyWorld
    (Modification.projectModificationProcessor env job emptyWorld).
Proof.
  split; [reflexivity|]. exists 2, "Connection is closed.". repeat split.
Qed.

(** ** Progress values *)

Lemma allProgress_app (a b : list (string * Message)) :
  allProgress (a ++ b) = allProgress a ++ allProgress b.
Proof.
  induction a as [|[ch [m p|t c|c e]] a IH]; cbn [app allProgress];
    rewrite ?IH; reflexivity.
Qed.

Lemma allProgress_blind_deliver (channel : string) (msg : Message) :
  (forall m p, msg <> Progress m p) ->
  blind (fun w => allProgress (bus w)) (deliver channel msg).
Proof.
  intros H w. cbn [deliver bus]. rewrite allProgress_app.
  destruct msg as [m p|t c|c e]; cbn [allProgress];
    [now elim (H m p) | apply app_nil_r | apply app_nil_r].
Qed.

Lemma ascending_weaken (lo lo' : nat) (ps : list nat) :
  lo' <= lo -> ascending lo ps -> ascending lo' ps.
Proof. destruct ps as [|p r]; cbn; [trivial | intros ? []; split; [lia|assumption]]. Qed.

Lemma last_cons_default (q : nat) (qs : list nat) (d d' : nat) :
  last (q :: qs) d = last (q :: qs) d'.
Proof.
  revert q. induction qs as [|x r IH]; intro q; [reflexivity|].
  cbn [last] in *. apply IH.
Qed.

Lemma ascending_app (lo : nat) (ps qs : list nat) :
  ascending lo ps -> ascending (last ps lo) qs -> ascending lo (ps ++ qs).
Proof.
  revert lo. induction ps as [|p r IH]; intros lo Hps Hqs; [exact Hqs|].
  destruct Hps as [Hlo Hr]. cbn [app ascending]. split; [exact Hlo|].
  apply IH; [exact Hr|]. destruct r as [|p' r']; [exact Hqs|].
  rewrite (last_cons_default p' r' p lo). exact Hqs.
Qed.

Lemma last_app_default (ps qs : list nat) (lo : nat) :
  last (ps ++ qs) lo = last qs (last ps lo).
Proof.
  revert lo. induction ps as [|p r IH]; intro lo; [reflexivity|].
  destruct r as [|p' r'].
  - destruct qs as [|q qs']; [reflexivity|].
    change (last ([p] ++ q :: qs') lo) with (last (q :: qs') lo).
    apply last_cons_default.
  - change (last ((p :: p' :: r') ++ qs) lo) with (last ((p' :: r') ++ qs) lo).
    rewrite IH. reflexivity.
Qed.

Lemma ascending_last (lo : nat) (ps : list nat) : ascending lo ps -> lo <= last ps lo.
Proof.
  revert lo. induction ps as [|p r IH]; intros lo H; [cbn; lia|].
  destruct H as [Hlo Hr]. specialize (IH p Hr).
  destruct r as [|p' r']; [exact Hlo|].
  change (last (p :: p' :: r') lo) with (last (p' :: r') lo).
  rewrite (last_cons_default p' r' lo p). lia.
Qed.

Section Climbing.

Local Abbreviation P := (fun w : World => allProgress (bus w)).

Lemma climbs_quiet {A} (lo hi : nat) (m : M A) :
  keeps P m -> lo <= hi -> climbs lo hi m.
Proof.
  intros H Hle w. exists []. rewrite app_nil_r. split; [apply H|]. split; [exact I|].
  intros; exact Hle.
Qed.

Lemma climbs_publish (rp : nat -> reply unit) (streamId message : string)
      (lo hi p : nat) :
  lo <= p -> p <= hi -> climbs lo hi (Publisher.publishProgress rp streamId message p).
Proof.
  intros Hlo Hhi w. unfold Publisher.publishProgress, Publisher.publishToChannel.
  destruct (rp (pubAttempts w)).
  - exists [p]. cbn [snd fst deliver bus]. rewrite allProgress_app.
    split; [reflexivity|]. split; [cbn; auto|]. intros; exact Hhi.
  - exists []. cbn [snd fst dropped bus]. rewrite app_nil_r.
    split; [reflexivity|]. split; [exact I|]. discriminate.
Qed.

Lemma climbs_bind {A B} (lo mid hi : nat) (m : M A) (k : A -> M B) :
  climbs lo mid m -> (forall a, climbs mid hi (k a)) -> climbs lo hi (bind m k).
Proof.
  intros Hm Hk w. unfold bind. destruct (Hm w) as (ps & Eps & Aps & Tps).
  destruct (m w) as [[a|e|] w1]; cbn [fst snd] in *.
  - destruct (Hk a w1) as (qs & Eqs & Aqs & Tqs).
    exists (ps ++ qs). rewrite Eqs, Eps, app_assoc. split; [reflexivity|].
    specialize (Tps a eq_refl). split.
    + apply ascending_app; [exact Aps|]. eapply ascending_weaken; eassumption.
    + intros b Hb. rewrite last_app_default. specialize (Tqs b Hb).
      pose proof (ascending_last _ _ Aqs) as Hq.
      destruct qs as [|q qs']; [cbn in *; lia|].
      rewrite (last_cons_default q qs' _ mid). exact Tqs.
  - exists ps. split; [exact Eps|]. split; [exact Aps|]. discriminate.
  - exists ps. split; [exact Eps|]. split; [exact Aps|]. discriminate.
Qed.

Lemma climbs_if {A} (lo hi : nat) (b : bool) (m1 m2 : M A) :
  climbs lo hi m1 -> climbs lo hi m2 -> climbs lo hi (if b then m1 else m2).
Proof. now destruct b. Qed.

Lemma climbs_when (lo hi : nat) (b : bool) (m : M unit) :
  climbs lo hi m -> lo <= hi -> climbs lo hi (when b m).
Proof.
  intros H Hle. unfold when. apply climbs_if; [exact H|].
  apply climbs_quiet; [apply keeps_ret | exact Hle].
Qed.

End Climbing.

(** A computation that publishes no progress message. *)
Ltac quiet_step :=
  first
    [ frame_step
    | apply keeps_publish;
      [apply allProgress_blind_deliver; intros; discriminate | intro; reflexivity]
    | apply keeps_whileLoop; intros; intro; reflexivity
    | apply keeps_createTables; intros; intro; reflexivity
    | apply keeps_insertCredentials; intros; intro; reflexivity
    | match goal with
      | |- keeps _ (fun w => match ?r with
                             | Resolves _ => _
                             | Rejects _ => _
                             end) => destruct r; intro; reflexivity
      end
    | progress autounfold with pipeline ].

Ltac quiet := solve [repeat quiet_step].

Ltac bound := first [ apply Nat.le_refl | lia ].

(** A chain of phases whose progress values climb. *)
Ltac climb :=
  cbv beta zeta;
  lazymatch goal with
  | |- climbs _ _ (Publisher.publishProgress _ _ _ _) =>
      apply climbs_publish; [lia | bound]
  | |- climbs _ _ (Publisher.publishToChannel _ _ (Progress _ _)) =>
      apply climbs_publish; [lia | bound]
  | |- climbs _ _ (let '(_, _) := ?x in _) => destruct x; climb
  | |- climbs _ _ ?m =>
      first
        [ apply climbs_quiet; [quiet | bound]
        | lazymatch m with
          | bind _ _ => eapply climbs_bind; [ climb | intro; climb ]
          | when _ _ => apply climbs_when; [ climb | lia ]
          | if _ then _ else _ => apply climbs_if; [ climb | climb ]
          end
        | progress autounfold with pipeline; climb ]
  end.

Lemma modificationPhases_climb (env : ModificationEnv) (job : JobData)
      (requestId streamId : string) :
  climbs 0 95 (Modification.modificationPhases env job requestId streamId).
Proof. unfold Modification.modificationPhases. climb. Qed.

Lemma pipelinePhases_climb (env : CreationEnv) (job : JobData)
      (requestId streamId : string) :
  climbs 8 90 (Creation.pipelinePhases env job requestId streamId).
Proof. unfold Creation.pipelinePhases. climb. Qed.

Section Emitting.

Local Abbreviation P := (fun w : World => allProgress (bus w)).

Lemma climbs_emits {A} (lo hi : nat) (m : M A) :
  climbs lo hi m -> emits (ascending lo) m.
Proof. intros H w. destruct (H w) as (ps & E & Hps & _). now exists ps. Qed.

Lemma emits_after_quiet {A B} (Q : list nat -> Prop) (m : M A) (k : A -> M B) :
  keeps P m -> Q [] -> (forall a, emits Q (k a)) -> emits Q (bind m k).
Proof.
  intros Hm Hnil Hk w. unfold bind. specialize (Hm w).
  destruct (m w) as [[a|e|] w1]; cbn [snd] in *.
  - destruct (Hk a w1) as (ps & E & Hps). exists ps. now rewrite E, Hm.
  - exists []. now rewrite app_nil_r.
  - exists []. now rewrite app_nil_r.
Qed.

Lemma emits_then_quiet {A B} (Q : list nat -> Prop) (m : M A) (k : A -> M B) :
  emits Q m -> (forall a, keeps P (k a)) -> emits Q (bind m k).
Proof.
  intros Hm Hk w. unfold bind. destruct (Hm w) as (ps & E & Hps).
  destruct (m w) as [[a|e|] w1]; cbn [snd] in *; exists ps;
    (split; [|exact Hps]); try exact E.
  now rewrite (Hk a w1).
Qed.

Lemma emits_tryCatch {A} (Q : list nat -> Prop) (m : M A) (h : string -> M A) :
  emits Q m -> (forall e, keeps P (h e)) -> emits Q (tryCatch m h).
Proof.
  intros Hm Hh w. unfold tryCatch. destruct (Hm w) as (ps & E & Hps).
  destruct (m w) as [[a|e|] w1]; cbn [snd] in *; exists ps;
    (split; [|exact Hps]); try exact E.
  now rewrite (Hh e w1).
Qed.

Lemma emits_finally {A} (Q : list nat -> Prop) (m : M A) (c : M unit) :
  emits Q m -> keeps P c -> emits Q (finally m c).
Proof.
  intros Hm Hc w. unfold finally. destruct (Hm w) as (ps & E & Hps).
  destruct (m w) as [[a|e|] w1]; cbn [snd] in *; exists ps;
    (split; [|exact Hps]); try exact E;
    specialize (Hc w1); destruct (c w1) as [[[]|e'|] w2]; cbn [snd] in *; congruence.
Qed.

Lemma emits_after_first {A} (rp : nat -> reply unit) (streamId message : string)
      (p lo hi : nat) (m : M A) :
  climbs lo hi m ->
  emits (fun ps => ps = [] \/ exists qs, ps = p :: qs /\ ascending lo qs)
        (Publisher.publishProgress rp streamId message p ;;; m).
Proof.
  intros Hm w. unfold bind, Publisher.publishProgress, Publisher.publishToChannel.
  destruct (rp (pubAttempts w)).
  - destruct (Hm (deliver streamId (Progress message p) w)) as (qs & E & Hqs & _).
    exists (p :: qs). split; [|right; now exists qs].
    rewrite E. cbn [deliver bus]. rewrite allProgress_app, <- app_assoc. reflexivity.
  - exists []. cbn [snd dropped bus]. rewrite app_nil_r. auto.
Qed.

End Emitting.

Lemma ascending_nonDecreasing (lo : nat) (ps : list nat) :
  ascending lo ps -> nonDecreasing ps = true.
Proof.
  revert lo. induction ps as [|p r IH]; intros lo H; [reflexivity|].
  destruct H as [_ Hr]. destruct r as [|q r']; [reflexivity|].
  cbn [nonDecreasing]. destruct Hr as [Hpq Hr'].
  rewrite (proj2 (Nat.leb_le p q) Hpq). cbn [andb].
  apply (IH p). split; assumption.
Qed.

(** X23.  On every path of the modification pipeline the
    progress values published are non-decreasing. *)
Lemma modification_progress_ascends (env : ModificationEnv) (job : JobData)
      (requestId streamId : string) :
  emits (ascending 0)
        (Modification.handleProjectModificationOrchestration env job requestId streamId).
Proof.
  unfold Modification.handleProjectModificationOrchestration,
    Modification.modificationBody.
  apply emits_after_quiet; [quiet | exact I | intros _].
  apply emits_finally; [|quiet].
  apply emits_tryCatch; [|intro e; quiet].
  apply emits_then_quiet;
    [exact (climbs_emits _ _ _ (modificationPhases_climb env job requestId streamId))|].
  intro l. quiet.
Qed.

(** On every path of the creation pipeline the progress values
    published after the initial 10 are non-decreasing, from 8 on: the
    whole sequence is non-decreasing unless a detector notice (8 or 9)
    follows the initial value. *)
Lemma creation_progress_ascends_after_the_first (env : CreationEnv) (job : JobData)
      (requestId streamId : string) :
  emits (fun ps => ps = [] \/ exists qs, ps = 10 :: qs /\ ascending 8 qs)
        (Creation.handleProjectCreationOrchestration env job requestId streamId).
Proof.
  unfold Creation.handleProjectCreationOrchestration, Creation.creationBody,
    Creation.creationPhases.
  apply emits_after_quiet; [quiet | now left | intros _].
  apply emits_finally; [|quiet].
  apply emits_tryCatch; [|intro e; quiet].
  apply emits_then_quiet; [|intro l; quiet].
  apply emits_after_quiet; [quiet | now left | intros _].
  apply emits_after_first with (hi := 90). apply pipelinePhases_climb.
Qed.

Lemma noControl_escape (c : ascii) : allChars (fun x => negb (isControl x)) (Str.escapeControl c) = true.
Proof. destruct c as [[] [] [] [] [] [] [] []]; reflexivity. Qed.

Lemma allChars_app p (a b : string) : allChars p (a +++ b) = allChars p a && allChars p b.
Proof. induction a; simpl; [reflexivity|]. now rewrite IHa, andb_assoc. Qed.

(** ** The sanitizer of the agentic loop *)


Lemma escape_clean (c : ascii) : isControl c = false -> Str.escapeControl c = String c EmptyString.
Proof. destruct c as [[] [] [] [] [] [] [] []]; simpl; intros H; try discriminate H; reflexivity. Qed.

Lemma sanitize_clean (s : string) :
  allChars (fun x => negb (isControl x)) s = true -> Str.sanitize s = s.
Proof.
  induction s as [|c r IH]; simpl; [reflexivity|].
  intros H. apply andb_prop in H. destruct H as [Hc Hr].
  rewrite escape_clean by (now destruct (isControl c)). simpl. now rewrite IH.
Qed.

Lemma sanitize_idempotent (s : string) : Str.sanitize (Str.sanitize s) = Str.sanitize s.
Proof. apply sanitize_clean. induction s as [|c r IH]; simpl; [reflexivity|].
  now rewrite allChars_app, noControl_escape, IH. Qed.

(** X2.  The second parse attempt can only help for a text
    that holds a control character: for a text without one, what the
    loop makes of the answer is [JSON.parse] of the text itself, so a
    text that fails the first attempt fails the turn. *)
Theorem clean_text_is_parsed_once (jsonParse : string -> option AgentResponse)
        (text : string) :
  allChars (fun c => negb (isControl c)) text = true ->
  AgenticLoop.parseAgentResponse jsonParse text = jsonParse text.
Proof.
  intro H. unfold AgenticLoop.parseAgentResponse.
  destruct (jsonParse text) eqn:E; [reflexivity|].
  now rewrite (sanitize_clean text H).
Qed.

Lemma clean_text_witness :
  allChars (fun c => negb (isControl c)) "Sure! Here is the plan" = true
  /\ AgenticLoop.parseAgentResponse Runs.parse "Sure! Here is the plan"
     = Runs.parse "Sure! Here is the plan".
Proof.
  split; [reflexivity|].
  apply (clean_text_is_parsed_once Runs.parse "Sure! Here is the plan"). reflexivity.
Defined.

Lemma lowerAscii_not_upper (c : ascii) : isUpper (Str.lowerAscii c) = false.
Proof. destruct c as [[] [] [] [] [] [] [] []]; reflexivity. Qed.

Lemma lowerAscii_hyphen (c : ascii) :
  Ascii.eqb (Str.lowerAscii (if Ascii.eqb c "-" then "_" else c)) "-" = false.
Proof. destruct c as [[] [] [] [] [] [] [] []]; reflexivity. Qed.

Lemma lowerAscii_idem (c : ascii) : Str.lowerAscii (Str.lowerAscii c) = Str.lowerAscii c.
Proof. destruct c as [[] [] [] [] [] [] [] []]; reflexivity. Qed.

Lemma toLowerCase_idem (s : string) : Str.toLowerCase (Str.toLowerCase s) = Str.toLowerCase s.
Proof. induction s; simpl; [reflexivity|]. now rewrite lowerAscii_idem, IHs. Qed.

Lemma replaceHyphens_lower (s : string) :
  Str.replaceHyphens (Str.toLowerCase s) = Str.toLowerCase (Str.replaceHyphens s).
Proof.
  induction s as [|c r IH]; simpl; [reflexivity|]. rewrite IH. f_equal.
  destruct c as [[] [] [] [] [] [] [] []]; reflexivity.
Qed.

Lemma replaceHyphens_idem (s : string) :
  Str.replaceHyphens (Str.replaceHyphens s) = Str.replaceHyphens s.
Proof.
  induction s as [|c r IH]; simpl; [reflexivity|]. rewrite IH. f_equal.
  destruct c as [[] [] [] [] [] [] [] []]; reflexivity.
Qed.

Lemma slug_body (s : string) :
  allChars slugChar (Str.toLowerCase (Str.replaceHyphens s)) = true.
Proof.
  induction s as [|c r IH]; simpl; [reflexivity|]. rewrite IH, andb_true_r.
  unfold slugChar. now rewrite lowerAscii_not_upper, lowerAscii_hyphen.
Qed.

(** ** The database name of the provisioner *)

(** X3.  The database name that [provisionAndCreateTables] derives
    holds no upper-case letter and no hyphen, and project ids that
    differ only in the case of their letters, or in [-] against [_],
    get the same database name. *)
Theorem provisionerDbName_is_a_slug (p : string) :
  allChars slugChar (Names.provisionerDbName p) = true
  /\ Names.provisionerDbName (Str.toLowerCase p) = Names.provisionerDbName p
  /\ Names.provisionerDbName (Str.replaceHyphens p) = Names.provisionerDbName p.
Proof.
  unfold Names.provisionerDbName. repeat split.
  - change ("turbobackend_proj_" +++ Str.replaceHyphens p)
      with (Str.replaceHyphens "turbobackend_proj_" +++ Str.replaceHyphens p).
    simpl. apply slug_body.
  - simpl. now rewrite replaceHyphens_lower, toLowerCase_idem.
  - simpl. now rewrite replaceHyphens_idem.
Qed.

Lemma trackModifications_appends (cmds : list Command) :
  forall files queries,
    AgenticLoop.trackModifications cmds files queries
    = (files ++ writesOf cmds, queries ++ queriesOf cmds).
Proof.
  induction cmds as [|cmd rest IH]; intros files queries.
  - simpl. now rewrite !app_nil_r.
  - destruct cmd; cbn [AgenticLoop.trackModifications writesOf queriesOf];
      rewrite IH; try reflexivity; now rewrite <- app_assoc.
Qed.

Lemma writesOf_app (a b : list Command) : writesOf (a ++ b) = writesOf a ++ writesOf b.
Proof. induction a as [|c a IH]; [reflexivity|]. destruct c; simpl; now rewrite IH. Qed.

Lemma queriesOf_app (a b : list Command) : queriesOf (a ++ b) = queriesOf a ++ queriesOf b.
Proof. induction a as [|c a IH]; [reflexivity|]. destruct c; simpl; now rewrite IH. Qed.

Lemma operationsOf_app (c : ContainerId) (a b : list Command) :
  ExecutorSpec.operationsOf c (a ++ b)
  = ExecutorSpec.operationsOf c a ++ ExecutorSpec.operationsOf c b.
Proof. induction a as [|x a IH]; [reflexivity|]. destruct x; simpl; now rewrite IH. Qed.

Section LoopTracking.

Variable llm : nat -> reply LLMReply.
Variable jsonParse : string -> option AgentResponse.
Variable sandbox : nat -> ContainerId -> SandboxOp -> reply string.
Variable costInsert : reply unit.
Variable params : LoopParams.

Local Abbreviation whileLoop := (AgenticLoop.whileLoop llm jsonParse sandbox params).
Local Abbreviation iterationBody := (AgenticLoop.iterationBody llm jsonParse sandbox params).
Local Abbreviation runAgenticLoop :=
  (AgenticLoop.runAgenticLoop llm jsonParse sandbox costInsert params).

Lemma iterationBody_tracked (w0 : World) (st st' : AgenticLoop.LoopState)
      (brk : bool) (w w' : World) :
  iterationBody st w = (Ok (brk, st'), w') ->
  tracked llm jsonParse params w0 st w -> tracked llm jsonParse params w0 st' w'.
Proof.
  unfold AgenticLoop.iterationBody. cbv zeta. unfold bind at 1, ext.
  intros Hrun (Hf & Hq & Hc).
  destruct (llm (S (AgenticLoop.iteration st))) as [result|e] eqn:Hllm;
    [|discriminate].
  destruct (AgenticLoop.parseAgentResponse jsonParse (text result)) as [a|] eqn:Hparse.
  - unfold bind, CommandExecutor.executeAgentCommands in Hrun.
    rewrite forCommands_entries in Hrun.
    rewrite trackModifications_appends in Hrun. cbn in Hrun.
    injection Hrun as _ <- <-. unfold tracked.
    cbn [AgenticLoop.iteration AgenticLoop.filesModified AgenticLoop.dbQueries
         container parsedCommands parsedAnswer].
    rewrite Hllm. cbn [parsedAnswer]. rewrite Hparse.
    rewrite writesOf_app, queriesOf_app, operationsOf_app, Hf, Hq, Hc, app_assoc.
    repeat split.
  - cbn in Hrun. injection Hrun as _ <- <-. unfold tracked.
    cbn [AgenticLoop.iteration AgenticLoop.filesModified AgenticLoop.dbQueries
         container parsedCommands logged].
    rewrite Hllm. cbn [parsedAnswer]. rewrite Hparse, !app_nil_r.
    repeat split; assumption.
Qed.

Lemma whileLoop_tracked (w0 : World) (fuel : nat) :
  forall st st' w w',
    whileLoop fuel st w = (Ok st', w') ->
    tracked llm jsonParse params w0 st w -> tracked llm jsonParse params w0 st' w'.
Proof.
  induction fuel as [|fuel IH]; intros st st' w w'; cbn [AgenticLoop.whileLoop];
    destruct (AgenticLoop.belowCap _ _); unfold ret;
    try (intros H; injection H as <- <-; trivial); try discriminate.
  unfold bind.
  destruct (iterationBody st w) as [[[brk st1]|e|] w1] eqn:Hbody; try discriminate.
  cbn [fst snd]. intros Hrun Hst.
  pose proof (iterationBody_tracked _ _ _ _ _ _ Hbody Hst) as Hst1.
  destruct brk.
  - injection Hrun as <- <-. exact Hst1.
  - exact (IH _ _ _ _ Hrun Hst1).
Qed.

(** X7.  When the loop function returns, [filesModified] and
    [dbQueries] list every [write] and every [db_query] command of the
    answers that parsed, in the order the agent gave them and without
    merging repeated paths, whatever the sandbox did with the writes;
    and the sandbox has been asked for exactly the [execute], [write],
    [read] and [delete] commands of those answers, in order: a
    [db_query] command never reaches it. *)
Theorem loop_result_lists_every_write_and_query (fuel : nat) (w w' : World) (r : LoopResult) :
  runAgenticLoop fuel w = (Ok r, w') ->
  let cmds := parsedCommands llm jsonParse (iterations r) in
  res_filesModified r = writesOf cmds
  /\ res_dbQueries r = queriesOf cmds
  /\ container w' = container w ++ ExecutorSpec.operationsOf (containerId params) cmds.
Proof.
  unfold AgenticLoop.runAgenticLoop, bind.
  destruct (whileLoop fuel _ w) as [[st|e|] w1] eqn:Hloop; try discriminate.
  assert (H0 : tracked llm jsonParse params w (AgenticLoop.initialState params) w).
  { unfold tracked. cbn. now rewrite app_nil_r. }
  pose proof (whileLoop_tracked w _ _ _ _ _ Hloop H0) as (Hf & Hq & Hc).
  unfold AgenticLoop.afterLoop, CostTracker.trackMessageCost, tryCatch, bind.
  destruct costInsert; cbn; intro H; try discriminate.
  injection H as <- <-. cbn. auto.
Qed.

End LoopTracking.

Section LoopEdges.

Variable llm : nat -> reply LLMReply.
Variable jsonParse : string -> option AgentResponse.
Variable sandbox : nat -> ContainerId -> SandboxOp -> reply string.
Variable costInsert : reply unit.
Variable params : LoopParams.

Local Abbreviation whileLoop := (AgenticLoop.whileLoop llm jsonParse sandbox params).
Local Abbreviation iterationBody := (AgenticLoop.iterationBody llm jsonParse sandbox params).
Local Abbreviation runAgenticLoop :=
  (AgenticLoop.runAgenticLoop llm jsonParse sandbox costInsert params).

Lemma whileLoop_within_cap (cap : nat) (fuel : nat) :
  maxIterations params = Some cap ->
  forall st st' w w',
    whileLoop fuel st w = (Ok st', w') ->
    AgenticLoop.iteration st <= cap ->
    AgenticLoop.iteration st <= AgenticLoop.iteration st' <= cap.
Proof.
  intro Hcap. induction fuel as [|fuel IH]; intros st st' w w';
    cbn [AgenticLoop.whileLoop]; rewrite Hcap; unfold AgenticLoop.belowCap;
    destruct (Nat.ltb_spec (AgenticLoop.iteration st) cap) as [Hlt|Hge]; unfold ret;
    try (intros H; injection H as <- _; lia); try discriminate.
  unfold bind. pose proof (iterationBody_step llm jsonParse sandbox params st w) as Hstep.
  destruct (iterationBody st w) as [[[brk st1]|e|] w1]; try discriminate.
  destruct Hstep as [Hit _]. cbn [fst snd]. destruct brk.
  - intros H _. injection H as <- _. lia.
  - intros H _. apply IH in H; lia.
Qed.

(** X8.  With a finite [maxIterations] the loop function ends
    (it returns or throws) within that many turns, and the [iterations]
    it returns never exceed the cap. *)
Theorem loop_stays_within_its_cap (cap : nat) (fuel : nat) (w : World) :
  maxIterations params = Some cap ->
  cap <= fuel ->
  match runAgenticLoop fuel w with
  | (Ok r, _) => iterations r <= cap
  | (Throw _, _) => True
  | (OutOfFuel, _) => False
  end.
Proof.
  intros Hcap Hfuel. unfold AgenticLoop.runAgenticLoop, bind.
  pose proof (whileLoop_capped llm jsonParse sandbox params cap fuel Hcap
                (AgenticLoop.initialState params) w) as Hends.
  destruct (whileLoop fuel _ w) as [[st|e|] w1] eqn:Hloop; cbn [fst] in Hends.
  - apply (whileLoop_within_cap cap fuel Hcap) in Hloop; [|cbn; lia].
    unfold AgenticLoop.afterLoop, CostTracker.trackMessageCost, tryCatch, bind.
    destruct costInsert; cbn; [lia | trivial].
  - trivial.
  - apply Hends; [cbn; lia | reflexivity].
Qed.

(** LLM failure *)
Lemma iterationBody_rejected (st : AgenticLoop.LoopState) (w : World) (e : string) :
  llm (S (AgenticLoop.iteration st)) = Rejects e ->
  iterationBody st w = (Throw e, w).
Proof.
  intro H. unfold AgenticLoop.iterationBody. cbv zeta. unfold bind at 1, ext.
  now rewrite H.
Qed.

Lemma whileLoop_llm_failure (K : nat) (e : string) (w0 : World) (fuel : nat) :
  (forall k, 1 <= k < K -> endsLoop jsonParse (llm k) = false) ->
  llm K = Rejects e ->
  AgenticLoop.belowCap (K - 1) (maxIterations params) = true ->
  forall st w,
    AgenticLoop.iteration st < K ->
    K - AgenticLoop.iteration st <= fuel ->
    tracked llm jsonParse params w0 st w ->
    exists w',
      whileLoop fuel st w = (Throw e, w')
      /\ container w'
         = container w0 ++ ExecutorSpec.operationsOf (containerId params)
                             (parsedCommands llm jsonParse (K - 1)).
Proof.
  intros Hbefore Hrej Hcap.
  induction fuel as [|fuel IH]; intros st w Hlt Hfuel Htr; [lia|].
  cbn [AgenticLoop.whileLoop].
  assert (Hbelow : AgenticLoop.belowCap (AgenticLoop.iteration st)
                     (maxIterations params) = true).
  { unfold AgenticLoop.belowCap in *. destruct (maxIterations params); [|reflexivity].
    apply Nat.ltb_lt. apply Nat.ltb_lt in Hcap. lia. }
  rewrite Hbelow. unfold bind.
  destruct (Nat.eq_dec (S (AgenticLoop.iteration st)) K) as [E|NE].
  - rewrite iterationBody_rejected with (e := e) by (now rewrite E).
    eexists. split; [reflexivity|].
    destruct Htr as (_ & _ & Hc). rewrite Hc, <- E. cbn. now rewrite Nat.sub_0_r.
  - pose proof (iterationBody_step llm jsonParse sandbox params st w) as Hstep.
    destruct (iterationBody st w) as [[[brk st']|e'|] w1] eqn:Hbody; cbn [fst snd].
    + destruct Hstep as [Hit Hbrk].
      rewrite (Hbefore (S (AgenticLoop.iteration st))) in Hbrk by lia. subst brk.
      apply IH; [lia..|].
      exact (iterationBody_tracked llm jsonParse sandbox params _ _ _ _ _ _ Hbody Htr).
    + destruct Hstep as [_ Hend].
      rewrite (Hbefore (S (AgenticLoop.iteration st))) in Hend by lia. discriminate.
    + contradiction.
Qed.

(** X9.  When a call of the LLM rejects at a turn that the cap
    permits (no earlier answer having completed the task), the loop
    function throws that error: the commands of the earlier turns have
    been run in the sandbox, but no row of [message_cost_tracker] is
    written for the tokens they used. *)
Theorem llm_failure_leaves_no_cost_row (K : nat) (e : string) (fuel : nat) (w : World) :
  1 <= K <= fuel ->
  (forall k, 1 <= k < K -> endsLoop jsonParse (llm k) = false) ->
  llm K = Rejects e ->
  AgenticLoop.belowCap (K - 1) (maxIterations params) = true ->
  exists w',
    runAgenticLoop fuel w = (Throw e, w')
    /\ costRows w' = costRows w
    /\ container w'
       = container w ++ ExecutorSpec.operationsOf (containerId params)
                          (parsedCommands llm jsonParse (K - 1)).
Proof.
  intros HK Hbefore Hrej Hcap.
  destruct (whileLoop_llm_failure K e w fuel Hbefore Hrej Hcap
              (AgenticLoop.initialState params) w) as (w' & Hloop & Hc);
    [cbn; lia | cbn; lia | unfold tracked; cbn; now rewrite app_nil_r |].
  exists w'. unfold AgenticLoop.runAgenticLoop, bind. rewrite Hloop.
  split; [reflexivity|]. split; [|exact Hc].
  pose proof (keeps_whileLoop llm jsonParse sandbox params costRows
                ltac:(intros ? ? ?; reflexivity) ltac:(intros ? ?; reflexivity)
                fuel (AgenticLoop.initialState params) w) as Hk.
  rewrite Hloop in Hk. exact Hk.
Qed.

(** blueprint *)
Lemma completedResponses_app (a b : list Turn) :
  AgenticLoop.completedResponses jsonParse (a ++ b)
  = AgenticLoop.completedResponses jsonParse a
    ++ AgenticLoop.completedResponses jsonParse b.
Proof.
  induction a as [|t a IH]; [reflexivity|].
  destruct t; cbn [app AgenticLoop.completedResponses]; try exact IH.
  destruct (jsonParse content) as [parsed|]; [|exact IH].
  destruct (taskComplete parsed); [|exact IH]. cbn. now rewrite IH.
Qed.

Lemma iterationBody_history (st st' : AgenticLoop.LoopState) (brk : bool)
      (w w' : World) (result : LLMReply) :
  iterationBody st w = (Ok (brk, st'), w') ->
  llm (S (AgenticLoop.iteration st)) = Resolves result ->
  AgenticLoop.completedResponses jsonParse (AgenticLoop.conversationHistory st) = [] ->
  AgenticLoop.completedResponses jsonParse (AgenticLoop.conversationHistory st')
  = if brk then match jsonParse (text result) with Some a => [a] | None => [] end
    else [].
Proof.
  unfold AgenticLoop.iterationBody. cbv zeta. unfold bind at 1, ext.
  intros Hrun Hllm Hst. rewrite Hllm in Hrun.
  destruct (AgenticLoop.parseAgentResponse jsonParse (text result)) as [a|] eqn:Hparse.
  - unfold bind, CommandExecutor.executeAgentCommands in Hrun.
    rewrite forCommands_entries in Hrun.
    destruct (AgenticLoop.trackModifications _ _ _). cbn in Hrun.
    injection Hrun as <- <- _. cbn [AgenticLoop.conversationHistory].
    rewrite !completedResponses_app, Hst. cbn.
    unfold AgenticLoop.parseAgentResponse in Hparse.
    destruct (jsonParse (text result)) as [a'|].
    + injection Hparse as ->. now destruct (taskComplete a).
    + now destruct (taskComplete a).
  - cbn in Hrun. injection Hrun as <- <- _. cbn [AgenticLoop.conversationHistory].
    rewrite completedResponses_app, Hst. reflexivity.
Qed.

Lemma whileLoop_completion_history (K : nat) (result : LLMReply) (fuel : nat) :
  (forall k, 1 <= k < K -> endsLoop jsonParse (llm k) = false) ->
  llm K = Resolves result ->
  endsLoop jsonParse (llm K) = true ->
  AgenticLoop.belowCap (K - 1) (maxIterations params) = true ->
  forall st w,
    AgenticLoop.iteration st < K ->
    K - AgenticLoop.iteration st <= fuel ->
    AgenticLoop.completedResponses jsonParse (AgenticLoop.conversationHistory st) = [] ->
    exists st' w',
      whileLoop fuel st w = (Ok st', w')
      /\ AgenticLoop.iteration st' = K
      /\ AgenticLoop.completedResponses jsonParse (AgenticLoop.conversationHistory st')
         = match jsonParse (text result) with Some a => [a] | None => [] end.
Proof.
  intros Hbefore Hres Hat Hcap.
  induction fuel as [|fuel IH]; intros st w Hlt Hfuel Hst; [lia|].
  cbn [AgenticLoop.whileLoop].
  assert (Hbelow : AgenticLoop.belowCap (AgenticLoop.iteration st)
                     (maxIterations params) = true).
  { unfold AgenticLoop.belowCap in *. destruct (maxIterations params); [|reflexivity].
    apply Nat.ltb_lt. apply Nat.ltb_lt in Hcap. lia. }
  rewrite Hbelow. unfold bind.
  pose proof (iterationBody_step llm jsonParse sandbox params st w) as Hstep.
  destruct (iterationBody st w) as [[[brk st']|e|] w1] eqn:Hbody; cbn [fst snd].
  - destruct Hstep as [Hit Hbrk].
    destruct (Nat.eq_dec (S (AgenticLoop.iteration st)) K) as [E|NE].
    + rewrite E, Hat in Hbrk. subst brk. eexists _, _. split; [reflexivity|].
      split; [lia|].
      apply (iterationBody_history _ _ _ _ _ result Hbody); [now rewrite E | exact Hst].
    + pose proof (Hbefore (S (AgenticLoop.iteration st)) ltac:(lia)) as Hno.
      rewrite Hno in Hbrk. subst brk.
      apply IH; [lia | lia |].
      unfold endsLoop in Hno.
      destruct (llm (S (AgenticLoop.iteration st))) as [result'|] eqn:Hllm;
        [|discriminate].
      exact (iterationBody_history _ _ _ _ _ result' Hbody Hllm Hst).
  - destruct Hstep as [Hrej Hend].
    destruct (Nat.eq_dec (S (AgenticLoop.iteration st)) K) as [E|NE].
    + rewrite E, Hres in Hrej. discriminate.
    + rewrite (Hbefore (S (AgenticLoop.iteration st))) in Hend by lia. discriminate.
  - contradiction.
Qed.

(** X10.  The [apiBlueprint] that the loop function returns
    is read from the text of the completing answer as the LLM sent it:
    it is that answer's blueprint when the text parses as it is, and
    [null] when the text parsed only after sanitizing, although the
    loop accepted the answer. *)
Theorem blueprint_comes_from_the_unsanitized_answer
        (K : nat) (result : LLMReply) (fuel : nat) (w : World) :
  1 <= K <= fuel ->
  (forall k, 1 <= k < K -> endsLoop jsonParse (llm k) = false) ->
  llm K = Resolves result ->
  endsLoop jsonParse (llm K) = true ->
  AgenticLoop.belowCap (K - 1) (maxIterations params) = true ->
  costInsert = Resolves tt ->
  exists r w',
    runAgenticLoop fuel w = (Ok r, w')
    /\ iterations r = K
    /\ res_apiBlueprint r
       = match jsonParse (text result) with
         | Some agentResponse => apiBlueprint agentResponse
         | None => None
         end.
Proof.
  intros HK Hbefore Hres Hat Hcap Hcost.
  destruct (whileLoop_completion_history K result fuel Hbefore Hres Hat Hcap
              (AgenticLoop.initialState params) w) as (st' & w1 & Hloop & Hit & Hh);
    [cbn; lia | cbn; lia | reflexivity |].
  unfold AgenticLoop.runAgenticLoop, bind. rewrite Hloop.
  unfold AgenticLoop.afterLoop, CostTracker.trackMessageCost, tryCatch, bind.
  rewrite Hcost. cbn. eexists _, _. split; [reflexivity|].
  split; [exact Hit|].
  unfold AgenticLoop.extractBlueprint. rewrite Hh.
  now destruct (jsonParse (text result)).
Qed.

End LoopEdges.

(** ** Endpoint derivation *)

Section EndpointFacts.

Import Endpoints.

Lemma split_nonempty (sep : ascii) (s : string) : split sep s <> [].
Proof.
  destruct s as [|c r]; simpl; [discriminate|].
  destruct (Ascii.eqb c sep); [discriminate|]. destruct (split sep r); discriminate.
Qed.

Lemma split_without (sep : ascii) (s : string) :
  without sep s = true -> split sep s = [s].
Proof.
  induction s as [|c r IH]; simpl; [reflexivity|].
  intro H. apply andb_prop in H. destruct H as [Hc Hr].
  destruct (Ascii.eqb c sep); [discriminate|]. now rewrite IH.
Qed.

(** splitting at a separator that joins two texts *)
Lemma split_join2 (sep : ascii) (a b : string) :
  split sep (a +++ String sep b) = split sep a ++ split sep b.
Proof.
  induction a as [|c a IH]; simpl.
  - now rewrite Ascii.eqb_refl.
  - destruct (Ascii.eqb c sep); [now rewrite IH|].
    rewrite IH. pose proof (split_nonempty sep a) as Hne.
    destruct (split sep a); [contradiction|reflexivity].
Qed.

Lemma join_cons (sep p : string) (l : list string) :
  l <> [] -> join sep (p :: l) = p +++ sep +++ join sep l.
Proof. destruct l; [now intros []|reflexivity]. Qed.

Lemma join_split (sep : ascii) (s : string) :
  join (String sep EmptyString) (split sep s) = s.
Proof.
  induction s as [|c r IH]; simpl; [reflexivity|].
  pose proof (split_nonempty sep r) as Hr.
  destruct (Ascii.eqb_spec c sep) as [->|Hne].
  - rewrite join_cons by exact Hr. simpl. now rewrite IH.
  - destruct (split sep r) as [|h t] eqn:E; [contradiction|].
    destruct t as [|h' t].
    + simpl in *. now rewrite IH.
    + rewrite join_cons by discriminate. rewrite join_cons in IH by discriminate.
      simpl. now rewrite <- IH.
Qed.

Lemma last_split_join (sep : ascii) (a b : string) :
  without sep b = true ->
  last (split sep (a +++ String sep b)) EmptyString = b.
Proof.
  intro Hb. rewrite split_join2, (split_without sep b Hb).
  now rewrite last_last.
Qed.

Lemma app_assoc_s (a b c : string) : (a +++ b) +++ c = a +++ b +++ c.
Proof. induction a; simpl; [reflexivity | now rewrite IHa]. Qed.

Lemma without_app (c : ascii) (a b : string) :
  without c (a +++ b) = without c a && without c b.
Proof. unfold without. induction a; simpl; [reflexivity|]. now rewrite IHa, andb_assoc. Qed.

Lemma prefix_absent (c : ascii) (k : string) :
  forall b, without c b = true -> without c k = false -> String.prefix k b = false.
Proof.
  induction k as [|x k IH]; intros b Hb Hk; [discriminate|].
  destruct b as [|y b]; [reflexivity|]. simpl.
  destruct (ascii_dec x y) as [->|]; [|reflexivity].
  unfold without in *. simpl in *. apply andb_prop in Hb. destruct Hb as [Hy Hb].
  rewrite Hy in Hk. simpl in Hk. now apply IH.
Qed.

Lemma prefix_app_tail (c : ascii) (k : string) :
  tailsHave c k = true ->
  forall a b, without c b = true -> String.prefix k (a +++ b) = String.prefix k a.
Proof.
  induction k as [|x k IH]; intros Hk a b Hb; [now destruct a, b|].
  cbn [tailsHave] in Hk. apply andb_prop in Hk. destruct Hk as [Hx Hk].
  destruct a as [|y a].
  - simpl. apply (prefix_absent c); [exact Hb|]. now destruct (without c (String x k)).
  - simpl. destruct (ascii_dec x y); [now apply IH | reflexivity].
Qed.

Lemma includes_app_tail (c : ascii) (k : string) :
  tailsHave c k = true -> k <> EmptyString ->
  forall a b, without c b = true -> Str.includes (a +++ b) k = Str.includes a k.
Proof.
  intros Hk Hne a b Hb. induction a as [|y a IH].
  - simpl. assert (E : forall s, without c s = true -> Str.includes s k = false).
    { induction s as [|z s IHs]; intro Hs.
      - simpl. destruct k; [contradiction|reflexivity].
      - cbn [Str.includes]. rewrite IHs.
        + rewrite (prefix_absent c k _ Hs); [reflexivity|].
          destruct k; [contradiction|]. cbn [tailsHave] in Hk.
          apply andb_prop in Hk. now destruct (without c (String a k)).
        + unfold without in *. simpl in Hs. now apply andb_prop in Hs. }
    rewrite (E b Hb). destruct k; [contradiction|reflexivity].
  - change (String y a +++ b) with (String y (a +++ b)). cbn [Str.includes].
    rewrite IH. f_equal.
    exact (prefix_app_tail c k Hk (String y a) b Hb).
Qed.

Lemma afterLastApi_none (s : string) :
  Str.includes s "/api/" = false -> afterLastApi s = None.
Proof.
  induction s as [|c r IH]; [reflexivity|].
  cbn [Str.includes afterLastApi]. intro H. apply orb_false_elim in H.
  destruct H as [Hp Hr]. rewrite (IH Hr), Hp. now destruct (isLineTerminator c).
Qed.

Lemma afterLastApi_found (dir rest : string) :
  noTerminator dir = true ->
  Str.includes ("/" +++ rest) "/api/" = false ->
  afterLastApi (dir +++ "/api/" +++ rest) = Some rest.
Proof.
  intros Hdir Hrest. induction dir as [|c dir IH].
  - change (EmptyString +++ "/api/" +++ rest)
      with (String "/" ("api/" +++ rest)).
    cbn [afterLastApi]. rewrite afterLastApi_none by exact Hrest.
    simpl. now destruct rest.
  - change (String c dir +++ "/api/" +++ rest) with (String c (dir +++ "/api/" +++ rest)).
    cbn [afterLastApi]. unfold noTerminator in Hdir. simpl in Hdir.
    apply andb_prop in Hdir. destruct Hdir as [Hc Hdir].
    destruct (isLineTerminator c); [discriminate|]. now rewrite IH.
Qed.

Lemma last_app_nonempty {A} (l1 l2 : list A) (d : A) :
  l2 <> [] -> last (l1 ++ l2) d = last l2 d.
Proof.
  intro H. induction l1 as [|x xs IH]; [reflexivity|].
  cbn [app]. destruct (xs ++ l2) eqn:E.
  - apply app_eq_nil in E. destruct E as [_ ->]. contradiction.
  - cbn [last]. exact IH.
Qed.

Lemma last_split_after (sep : ascii) (a b : string) :
  last (split sep (a +++ String sep b)) EmptyString = last (split sep b) EmptyString.
Proof. rewrite split_join2. apply last_app_nonempty, split_nonempty. Qed.

Lemma split_tail (sep : ascii) (a b : string) :
  without sep b = true ->
  split sep (a +++ b)
  = removelast (split sep a) ++ [last (split sep a) EmptyString +++ b].
Proof.
  intro Hb. induction a as [|c a IH].
  - simpl. now rewrite (split_without sep b Hb).
  - change (String c a +++ b) with (String c (a +++ b)). cbn [split].
    pose proof (split_nonempty sep a) as Ha. rewrite IH.
    destruct (split sep a) as [|h t]; [contradiction|].
    destruct (Ascii.eqb c sep).
    + reflexivity.
    + destruct t as [|x t]; reflexivity.
Qed.

Lemma last_split_tail (sep : ascii) (a b : string) :
  without sep b = true ->
  last (split sep (a +++ b)) EmptyString = last (split sep a) EmptyString +++ b.
Proof. intro Hb. rewrite (split_tail sep a b Hb). apply last_last. Qed.

Lemma without_last_split (c sep : ascii) (s : string) :
  without c s = true -> without c (last (split sep s) EmptyString) = true.
Proof.
  induction s as [|x s IH]; [reflexivity|].
  unfold without in *. simpl. intro H. apply andb_prop in H. destruct H as [Hx Hs].
  specialize (IH Hs). pose proof (split_nonempty sep s) as Hne.
  destruct (split sep s) as [|h t]; [contradiction|].
  destruct (Ascii.eqb x sep); [exact IH|].
  destruct t as [|y t]; [|exact IH].
  simpl in *. now rewrite Hx.
Qed.

Lemma toUpperCase_empty (s : string) :
  s <> EmptyString -> String.eqb (toUpperCase s) EmptyString = false.
Proof. destruct s; [now intros []|reflexivity]. Qed.

(** X4.  For a file [<dir>/api/<route>.<verb>.js] (no line
    break in [dir], no further [/api/] below the first, no dot in the
    route, a verb without dot or slash) the derived endpoint has the
    verb in upper case as its method and [/api/<route>] as its path. *)
Theorem endpoint_of_a_route_file (dir route verb : string) :
  noTerminator dir = true ->
  Str.includes ("/" +++ route) "/api/" = false ->
  without "." route = true ->
  without "." verb = true ->
  without "/" verb = true ->
  verb <> EmptyString ->
  endpointOf (dir +++ "/api/" +++ route +++ "." +++ verb +++ ".js")
  = mkEndpoint (toUpperCase verb) ("/api/" +++ route)
               (dir +++ "/api/" +++ route +++ "." +++ verb +++ ".js").
Proof.
  intros Hdir Hroute Hdot Hverb Hslash Hne.
  assert (Htail : without "/" ("." +++ verb +++ ".js") = true)
    by (rewrite !without_app, Hslash; reflexivity).
  unfold endpointOf. f_equal.
  - unfold fileNameOf.
    replace (dir +++ "/api/" +++ route +++ "." +++ verb +++ ".js")
      with ((dir +++ "/api") +++ String "/" (route +++ "." +++ verb +++ ".js"))
      by (now rewrite app_assoc_s).
    rewrite last_split_after, last_split_tail by exact Htail.
    unfold methodOf.
    change ("." +++ verb +++ ".js") with (String "." (verb +++ String "." "js")).
    rewrite split_join2, split_join2.
    rewrite (split_without "." verb Hverb).
    rewrite (split_without "." (last (split "/" route) EmptyString))
      by (now apply without_last_split).
    cbn [app nth_error]. now rewrite toUpperCase_empty.
  - unfold toApiPath. rewrite afterLastApi_found; [|exact Hdir|].
    + unfold stripVerb.
      replace ("/api/" +++ route +++ "." +++ verb +++ ".js")
        with (("/api/" +++ route) +++ String "." (verb +++ String "." "js"))
        by (now rewrite app_assoc_s).
      rewrite split_join2, split_join2, (split_without "." verb Hverb).
      change (split "." "js") with ["js"].
      rewrite !rev_app_distr. cbn [rev app].
      pose proof (split_nonempty "." ("/api/" +++ route)) as Hsp.
      destruct (rev (split "." ("/api/" +++ route))) as [|h t] eqn:E.
      * apply (f_equal (@rev string)) in E. rewrite rev_involutive in E. contradiction.
      * cbv iota beta. rewrite <- E, rev_involutive.
        destruct verb; [contradiction|]. cbn [String.eqb negb andb].
        change (String.eqb "js" "js") with true. cbn [andb].
        apply join_split.
    + rewrite <- app_assoc_s.
      rewrite (includes_app_tail "/" "/api/");
        [exact Hroute | reflexivity | discriminate | exact Htail].
Qed.

(** X5.  A route file without a verb segment,
    [<dir>/api/<route>.js], is listed with the method ["JS"] (the
    extension is taken for the verb) and keeps its extension in the
    path; the default ["UNKNOWN"] is not used for it. *)
Theorem endpoint_of_a_file_without_verb (dir route : string) :
  noTerminator dir = true ->
  Str.includes ("/" +++ route) "/api/" = false ->
  without "." route = true ->
  endpointOf (dir +++ "/api/" +++ route +++ ".js")
  = mkEndpoint "JS" ("/api/" +++ route +++ ".js") (dir +++ "/api/" +++ route +++ ".js").
Proof.
  intros Hdir Hroute Hdot. unfold endpointOf. f_equal.
  - unfold fileNameOf.
    replace (dir +++ "/api/" +++ route +++ ".js")
      with ((dir +++ "/api") +++ String "/" (route +++ ".js"))
      by (now rewrite app_assoc_s).
    rewrite last_split_after, last_split_tail by reflexivity.
    unfold methodOf. change ".js" with (String "." "js").
    rewrite split_join2.
    rewrite (split_without "." (last (split "/" route) EmptyString))
      by (now apply without_last_split).
    reflexivity.
  - unfold toApiPath. rewrite afterLastApi_found; [|exact Hdir|].
    + unfold stripVerb.
      replace ("/api/" +++ route +++ ".js")
        with (("/api/" +++ route) +++ String "." "js") by (now rewrite app_assoc_s).
      rewrite split_join2, split_without by exact Hdot.
      reflexivity.
    + rewrite <- app_assoc_s.
      rewrite (includes_app_tail "/" "/api/");
        [exact Hroute | reflexivity | discriminate | reflexivity].
Qed.

End EndpointFacts.

(** ** The files the creation handler counts as endpoints *)

Lemma determineFileType_route (path : string) :
  String.eqb (AgenticLoop.determineFileType path) "route" = Str.includes path "/api/".
Proof.
  unfold AgenticLoop.determineFileType.
  destruct (Str.includes path "/api/"); [reflexivity|].
  destruct (Str.includes path "/middleware/"); [reflexivity|].
  destruct (Str.includes path "/models/"); [reflexivity|].
  destruct (Str.includes path "/utils/"); [reflexivity|].
  now destruct (_ || _).
Qed.

Lemma writesOf_type (cmds : list Command) (f : FileModified) :
  In f (writesOf cmds) -> file_type f = AgenticLoop.determineFileType (file_path f).
Proof.
  induction cmds as [|cmd rest IH]; [contradiction|].
  destruct cmd; cbn [writesOf]; try exact IH.
  intros [<-|H]; [reflexivity | now apply IH].
Qed.

Lemma isRouteFile_of_tracked (f : FileModified) :
  file_type f = AgenticLoop.determineFileType (file_path f) ->
  Creation.isRouteFile f
  = String.eqb (file_type f) "route" && Str.endsWith (file_path f) ".js".
Proof.
  intro H. unfold Creation.isRouteFile. rewrite H, determineFileType_route.
  destruct (file_path f); reflexivity.
Qed.

Section CountedEndpoints.

Variable llm : nat -> reply LLMReply.
Variable jsonParse : string -> option AgentResponse.
Variable sandbox : nat -> ContainerId -> SandboxOp -> reply string.
Variable costInsert : reply unit.
Variable params : LoopParams.

(** X6.  On the files that a loop returns, the filter of the
    creation handler's "endpoints added" activity selects exactly the
    files that [determineFileType] typed [route] and whose path ends in
    [.js]: a TypeScript route is typed [route] but is not counted. *)
Theorem counted_endpoints_are_the_js_routes (fuel : nat) (w w' : World) (r : LoopResult) :
  AgenticLoop.runAgenticLoop llm jsonParse sandbox costInsert params fuel w = (Ok r, w') ->
  filter Creation.isRouteFile (res_filesModified r)
  = filter (fun f => String.eqb (file_type f) "route" && Str.endsWith (file_path f) ".js")
           (res_filesModified r).
Proof.
  intro Hrun. apply filter_ext_in. intros f Hf. apply isRouteFile_of_tracked.
  revert Hrun Hf. unfold AgenticLoop.runAgenticLoop, bind.
  destruct (AgenticLoop.whileLoop llm jsonParse sandbox params fuel _ w)
    as [[st|e|] w1] eqn:Hloop; try discriminate.
  assert (H0 : tracked llm jsonParse params w (AgenticLoop.initialState params) w).
  { unfold tracked. cbn. now rewrite app_nil_r. }
  pose proof (whileLoop_tracked llm jsonParse sandbox params w _ _ _ _ _ Hloop H0)
    as (Hf & _ & _).
  unfold AgenticLoop.afterLoop, CostTracker.trackMessageCost, tryCatch, bind.
  destruct costInsert; cbn; intro H; try discriminate.
  injection H as <- _. cbn. rewrite Hf. apply writesOf_type.
Qed.

End CountedEndpoints.

(** ** The properties above on concrete runs *)

Lemma endpoint_of_a_route_file_witness :
  Endpoints.endpointOf "server/api/users/[id].get.js"
  = Endpoints.mkEndpoint "GET" "/api/users/[id]" "server/api/users/[id].get.js".
Proof.
  apply (endpoint_of_a_route_file "server" "users/[id]" "get");
    solve [reflexivity | discriminate].
Defined.

Lemma endpoint_of_a_file_without_verb_witness :
  Endpoints.endpointOf "server/api/health.js"
  = Endpoints.mkEndpoint "JS" "/api/health.js" "server/api/health.js".
Proof.
  apply (endpoint_of_a_file_without_verb "server" "health"); reflexivity.
Defined.

Lemma counted_endpoints_witness :
  exists r w',
    AgenticLoop.runAgenticLoop Runs.workThenFinish Runs.parse Runs.sandboxFull
      (Resolves tt) (Scenarios.loopParams None) 2 emptyWorld = (Ok r, w')
    /\ filter Creation.isRouteFile (res_filesModified r)
       = filter (fun f => String.eqb (file_type f) "route"
                          && Str.endsWith (file_path f) ".js")
                (res_filesModified r).
Proof.
  eexists _, _. split; [vm_compute; reflexivity|].
  eapply (counted_endpoints_are_the_js_routes Runs.workThenFinish Runs.parse
           Runs.sandboxFull (Resolves tt) (Scenarios.loopParams None) 2 emptyWorld).
  vm_compute. reflexivity.
Defined.

Lemma loop_result_lists_witness :
  exists r w',
    AgenticLoop.runAgenticLoop Runs.workThenFinish Runs.parse Runs.sandboxFull
      (Resolves tt) (Scenarios.loopParams None) 2 emptyWorld = (Ok r, w')
    /\ res_filesModified r
       = writesOf (parsedCommands Runs.workThenFinish Runs.parse (iterations r))
    /\ res_dbQueries r
       = queriesOf (parsedCommands Runs.workThenFinish Runs.parse (iterations r))
    /\ container w'
       = container emptyWorld
         ++ ExecutorSpec.operationsOf (containerId (Scenarios.loopParams None))
              (parsedCommands Runs.workThenFinish Runs.parse (iterations r)).
Proof.
  eexists _, _. split; [vm_compute; reflexivity|].
  eapply (loop_result_lists_every_write_and_query Runs.workThenFinish Runs.parse
           Runs.sandboxFull (Resolves tt) (Scenarios.loopParams None) 2 emptyWorld).
  vm_compute. reflexivity.
Defined.

Lemma loop_stays_within_its_cap_witness :
  maxIterations (Scenarios.loopParams (Some 5)) = Some 5
  /\ 5 <= 7
  /\ match AgenticLoop.runAgenticLoop Runs.workThenFinish Runs.parse Scenarios.sandboxOk
             (Resolves tt) (Scenarios.loopParams (Some 5)) 7 emptyWorld with
     | (Ok r, _) => iterations r <= 5
     | (Throw _, _) => True
     | (OutOfFuel, _) => False
     end.
Proof.
  split; [reflexivity|]. split; [lia|].
  apply (loop_stays_within_its_cap Runs.workThenFinish Runs.parse Scenarios.sandboxOk
           (Resolves tt) (Scenarios.loopParams (Some 5)) 5 7 emptyWorld);
    [reflexivity | lia].
Defined.

Lemma llm_failure_witness :
  exists w',
    AgenticLoop.runAgenticLoop Runs.workThenDown Runs.parse Scenarios.sandboxOk
      (Resolves tt) (Scenarios.loopParams None) 3 emptyWorld
    = (Throw "503 Service Unavailable", w')
    /\ costRows w' = costRows emptyWorld
    /\ container w'
       = container emptyWorld
         ++ ExecutorSpec.operationsOf (containerId (Scenarios.loopParams None))
              (parsedCommands Runs.workThenDown Runs.parse (2 - 1)).
Proof.
  apply (llm_failure_leaves_no_cost_row Runs.workThenDown Runs.parse Scenarios.sandboxOk
           (Resolves tt) (Scenarios.loopParams None) 2 "503 Service Unavailable" 3
           emptyWorld).
  - lia.
  - intros k Hk. assert (k = 1) as -> by lia. reflexivity.
  - reflexivity.
  - reflexivity.
Defined.

Lemma blueprint_witness :
  exists r w',
    AgenticLoop.runAgenticLoop Runs.workThenRawFinish Runs.parse Scenarios.sandboxOk
      (Resolves tt) (Scenarios.loopParams None) 3 emptyWorld = (Ok r, w')
    /\ iterations r = 2
    /\ res_apiBlueprint r
       = match Runs.parse (text (mkLLMReply Runs.rawFinishText 4 2)) with
         | Some agentResponse => apiBlueprint agentResponse
         | None => None
         end.
Proof.
  apply (blueprint_comes_from_the_unsanitized_answer Runs.workThenRawFinish Runs.parse
           Scenarios.sandboxOk (Resolves tt) (Scenarios.loopParams None) 2
           (mkLLMReply Runs.rawFinishText 4 2) 3 emptyWorld).
  - lia.
  - intros k Hk. assert (k = 1) as -> by lia. reflexivity.
  - reflexivity.
  - reflexivity.
  - reflexivity.
  - reflexivity.
Defined.

(** ** Database provisioner *)

Section ProvisionerFacts.

Variable env : ProvisionEnv.

Lemma dbOf_applied (db : string) (stmt : DbStmt) (w : World) :
  dbOf db (applied db stmt w) = dbStep (dbOf db w) stmt.
Proof.
  unfold dbOf, statementsOn. cbn [projectDdl applied].
  rewrite filter_app, map_app, fold_left_app. cbn [filter fst].
  now rewrite String.eqb_refl.
Qed.

Lemma dbOf_applied_other (db other : string) (stmt : DbStmt) (w : World) :
  String.eqb other db = false -> dbOf db (applied other stmt w) = dbOf db w.
Proof.
  intro H. unfold dbOf, statementsOn. cbn [projectDdl applied].
  rewrite filter_app. cbn [filter fst]. rewrite H. now rewrite app_nil_r.
Qed.

Lemma dbOf_ran (db : string) (stmt : Stmt) (w : World) : dbOf db (ran stmt w) = dbOf db w.
Proof. reflexivity. Qed.

Lemma dbOf_acted (db : string) (r : ActivityRow) (w : World) :
  dbOf db (acted r w) = dbOf db w.
Proof. reflexivity. Qed.

Lemma dbOf_logged (db line : string) (w : World) : dbOf db (logged line w) = dbOf db w.
Proof. reflexivity. Qed.

(** Inside the transaction of the project database the queries of the
    loop are pending. *)
Lemma createTables_runs (db : string) (tables : list TableDesign) :
  forall pending rows w,
    dbOf db w = mkTxState true pending rows ->
    match DatabaseProvisioner.createTables env db tables w with
    | (Ok _, w') =>
        dbOf db w' = mkTxState true (pending ++ map createQuery tables) rows
    | (Throw _, w') => exists pending', dbOf db w' = mkTxState true pending' rows
    | (OutOfFuel, _) => False
    end.
Proof.
  induction tables as [|t rest IH]; intros pending rows w Hw.
  - cbn. now rewrite app_nil_r.
  - cbn [DatabaseProvisioner.createTables map]. unfold bind at 1, onDatabase.
    destruct (p_runDdl env (createQuery t)); [|now exists pending].
    assert (H1 : dbOf db (applied db (DbRun (createQuery t)) w)
                 = mkTxState true (pending ++ [createQuery t]) rows)
      by (rewrite dbOf_applied, Hw; reflexivity).
    unfold bind at 1, query.
    destruct (p_queryInsert env); [|eexists; exact H1].
    specialize (IH _ _ (ran (Insert "generated_queries")
                          (applied db (DbRun (createQuery t)) w)) H1).
    destruct (DatabaseProvisioner.createTables env db rest _) as [[done|e|] w'];
      [|exact IH|exact IH].
    now rewrite IH, <- app_assoc.
Qed.

Lemma provisionerDbName_not_postgres (projectId : string) :
  String.eqb "postgres" (Names.provisionerDbName projectId) = false.
Proof. reflexivity. Qed.

Ltac unchanged H :=
  unfold bind, onDatabase, consoleError, throw, ret; cbn [fst snd];
  (split; [now eexists|]); left; unfold appliedTo at 1;
  rewrite ?dbOf_logged, ?dbOf_acted, ?dbOf_ran, ?dbOf_applied, H; reflexivity.

Lemma provision_outcome (projectId userId : string)
      (tables : list TableDesign) (requestId : string) (w : World) :
  let db := Names.provisionerDbName projectId in
  match DatabaseProvisioner.provisionAndCreateTables env projectId userId
          tables requestId w with
  | (Ok info, w') =>
      info = mkDatabaseInfo db (length tables)
      /\ dbOf db w'
         = mkTxState false [] (appliedTo db w ++ map createQuery tables)
  | (Throw e, w') =>
      (exists cause, e = "Database provisioning failed: " +++ cause)
      /\ (appliedTo db w' = appliedTo db w
          \/ (appliedTo db w' = appliedTo db w ++ map createQuery tables
              /\ exists cause, p_projectEnd env = Rejects cause))
  | (OutOfFuel, _) => False
  end.
Proof.
  cbv zeta. unfold DatabaseProvisioner.provisionAndCreateTables. cbv zeta.
  pose proof (provisionerDbName_not_postgres projectId) as Hname.
  revert Hname. generalize (Names.provisionerDbName projectId) as db. intros db Hname.
  assert (H0 : dbOf db w = mkTxState (inTransaction (dbOf db w)) (pendingRows (dbOf db w))
                 (appliedTo db w)) by (unfold appliedTo; now destruct (dbOf db w)).
  unfold tryCatch at 1. unfold bind at 1, onDatabase at 1.
  destruct (p_createDatabase env _); [|unchanged H0].
  set (w1 := applied "postgres" _ w).
  assert (H1 : dbOf db w1 = dbOf db w) by (apply dbOf_applied_other, Hname).
  rewrite H0 in H1. clearbody w1. clear H0.
  unfold bind at 1, ext at 1.
  destruct (p_adminEnd env); [|unchanged H1].
  unfold bind at 1, query.
  destruct (p_databaseInsert env); [|unchanged H1].
  unfold bind at 1, onDatabase at 1.
  destruct (p_projectConnect env); [|unchanged H1].
  set (w2 := applied db DbConnect _).
  assert (H2 : dbOf db w2 = mkTxState false [] (appliedTo db w)).
  { unfold w2. rewrite dbOf_applied, dbOf_ran, H1. reflexivity. }
  clearbody w2. clear H1 w1.
  unfold bind at 1. unfold finally at 1. unfold tryCatch at 1.
  unfold bind at 1, onDatabase at 1.
  destruct (p_projectBegin env).
  { set (w3 := applied db DbBegin w2).
    assert (H3 : dbOf db w3 = mkTxState true [] (appliedTo db w))
      by (unfold w3; rewrite dbOf_applied, H2; reflexivity).
    clearbody w3. unfold bind at 1.
    pose proof (createTables_runs db tables [] (appliedTo db w) w3 H3) as Hct.
    destruct (DatabaseProvisioner.createTables env db tables w3) as [[done|e|] w4];
      [| |contradiction].
    - cbn [app] in Hct. unfold onDatabase at 1.
      destruct (p_projectCommit env).
      + assert (H5 : dbOf db (applied db DbCommit w4)
                     = mkTxState false [] (appliedTo db w ++ map createQuery tables))
          by (rewrite dbOf_applied, Hct; reflexivity).
        unfold onDatabase at 1. destruct (p_projectEnd env).
        * assert (H6 : dbOf db (applied db DbEnd (applied db DbCommit w4))
                       = mkTxState false [] (appliedTo db w ++ map createQuery tables))
            by (rewrite dbOf_applied, H5; reflexivity).
          unfold ActivityTracker.trackActivity, tryCatch, bind, consoleError, ret.
          destruct (p_activityInsert env); cbn [fst snd];
            rewrite ?dbOf_logged, ?dbOf_acted; split; solve [reflexivity | exact H6].
        * unfold bind, consoleError, throw. cbn [fst snd].
          split; [now eexists|]. right. unfold appliedTo at 1.
          rewrite dbOf_logged, H5. split; [reflexivity | now eexists].
      + destruct (p_projectRollback env), (p_projectEnd env); unchanged Hct.
    - destruct Hct as [pending' Hct].
      destruct (p_projectRollback env), (p_projectEnd env); unchanged Hct. }
  destruct (p_projectRollback env), (p_projectEnd env); unchanged H2.
Qed.

(** X11.  Provisioning is all or nothing on the project database, by
    the transaction it opens there: the queries of the design are
    pending from BEGIN to COMMIT, so that however the function ends,
    either none of them has been applied to the database of the
    derived name or every [createQuery] has, in the order of the
    design.  When the function returns, all of them have been applied
    and no transaction is left open; when it throws, the message is
    the cause behind the prefix ["Database provisioning failed: "] and
    none has been applied, unless what failed is the end of the
    connection after COMMIT.  A failure of the activity row changes
    none of this. *)
Theorem provisioning_is_all_or_nothing (projectId userId : string)
        (tables : list TableDesign) (requestId : string) (w : World) :
  let dbName := Names.provisionerDbName projectId in
  let every := map createQuery tables in
  let run := DatabaseProvisioner.provisionAndCreateTables env projectId userId
               tables requestId w in
  (appliedTo dbName (snd run) = appliedTo dbName w
   \/ appliedTo dbName (snd run) = appliedTo dbName w ++ every)
  /\ match fst run with
     | Ok info =>
         info = mkDatabaseInfo dbName (length tables)
         /\ appliedTo dbName (snd run) = appliedTo dbName w ++ every
         /\ inTransaction (dbOf dbName (snd run)) = false
         /\ pendingRows (dbOf dbName (snd run)) = []
     | Throw e =>
         (exists cause, e = "Database provisioning failed: " +++ cause)
         /\ (appliedTo dbName (snd run) = appliedTo dbName w
             \/ exists cause, p_projectEnd env = Rejects cause)
     | OutOfFuel => False
     end.
Proof.
  cbv zeta. pose proof (provision_outcome projectId userId tables requestId w) as H.
  cbv zeta in H.
  destruct (DatabaseProvisioner.provisionAndCreateTables _ _ _ _ _ _)
    as [[info|e|] w']; cbn [fst snd]; [|destruct H as [H1 H2]|contradiction].
  - destruct H as [H1 H2]. unfold appliedTo at 1 3 5. rewrite H2. cbn.
    split; [now right|]. repeat split. exact H1.
  - split.
    + destruct H2 as [H2|[H2 _]]; [now left | now right].
    + split; [exact H1|].
      destruct H2 as [H2|[_ Hc]]; [now left | now right].
Qed.

End ProvisionerFacts.

(** ** Transactions of the control database *)

Lemma txOf_ran (s : Stmt) (w : World) : txOf (ran s w) = txStep (txOf w) s.
Proof. unfold txOf. cbn [ctl ran]. now rewrite fold_left_app. Qed.

Lemma txOf_acted (r : ActivityRow) (w : World) :
  txOf (acted r w) = txStep (txOf w) (Insert "project_actions").
Proof. unfold txOf. cbn [ctl acted]. now rewrite fold_left_app. Qed.

Lemma persisted_txOf (w : World) : persisted (ctl w) = committedRows (txOf w).
Proof. reflexivity. Qed.

Section Triples.

Context {A : Type}.
Variables P Q E : TxState -> Prop.

Lemma triple_keeps (m : M A) :
  keeps ctl m -> (forall s, P s -> Q s) -> (forall s, P s -> E s) -> triple P m Q E.
Proof.
  intros Hk HQ HE w HP. unfold txOf in *. rewrite (Hk w).
  destruct (fst (m w)); auto.
Qed.

Lemma triple_ret (a : A) : (forall s, P s -> Q s) -> triple P (ret a) Q E.
Proof. intros HQ w HP. cbn. auto. Qed.

Lemma triple_throw (e : string) : (forall s, P s -> E s) -> triple P (@throw A e) Q E.
Proof. intros HE w HP. cbn. auto. Qed.

Lemma triple_query (stmt : Stmt) (r : reply A) :
  (forall s, P s -> Q (txStep s stmt)) -> (forall s, P s -> E s) ->
  triple P (query stmt r) Q E.
Proof.
  intros HQ HE w HP. unfold query. destruct r; cbn [fst snd]; [|auto].
  rewrite txOf_ran. auto.
Qed.

Lemma triple_bind {B : Type} (R : TxState -> Prop) (m : M B) (k : B -> M A) :
  triple P m R E -> (forall b, triple R (k b) Q E) -> triple P (bind m k) Q E.
Proof.
  intros Hm Hk w HP. specialize (Hm w HP). unfold bind.
  destruct (m w) as [[b|e|] w1]; cbn [fst snd] in *; [|exact Hm|exact I].
  exact (Hk b w1 Hm).
Qed.

Lemma triple_tryCatch (R : TxState -> Prop) (m : M A) (h : string -> M A) :
  triple P m Q R -> (forall e, triple R (h e) Q E) -> triple P (tryCatch m h) Q E.
Proof.
  intros Hm Hh w HP. specialize (Hm w HP). unfold tryCatch.
  destruct (m w) as [[a|e|] w1]; cbn [fst snd] in *; [exact Hm| |exact I].
  exact (Hh e w1 Hm).
Qed.

Lemma triple_finally_release (m : M A) :
  triple P m Q E -> triple P (finally m release) Q E.
Proof.
  intros Hm w HP. specialize (Hm w HP). unfold finally, release.
  destruct (m w) as [[a|e|] w1]; cbn [fst snd] in *; [| |exact I];
    rewrite txOf_ran; exact Hm.
Qed.

End Triples.

Lemma triple_query_resolves {A : Type} (P Q E : TxState -> Prop) (stmt : Stmt) (a : A) :
  (forall s, P s -> Q (txStep s stmt)) -> triple P (query stmt (Resolves a)) Q E.
Proof. intros HQ w HP. cbn [query fst snd]. rewrite txOf_ran. auto. Qed.

Lemma triple_trackActivity (P Q E : TxState -> Prop) (insert : reply unit)
      (row : ActivityRow) :
  (forall s, P s -> Q (txStep s (Insert "project_actions"))) ->
  (forall s, P s -> Q s) ->
  triple P (ActivityTracker.trackActivity insert row) Q E.
Proof.
  intros H1 H2 w HP. unfold ActivityTracker.trackActivity, tryCatch.
  destruct insert; cbn [fst snd].
  - rewrite txOf_acted. auto.
  - cbn. auto.
Qed.

Lemma triple_finally_same {A : Type} (P : TxState -> Prop) (m : M A) (f : M unit) :
  triple P m P P -> triple P f P P -> triple P (finally m f) P P.
Proof.
  intros Hm Hf w HP. specialize (Hm w HP). unfold finally.
  destruct (m w) as [[a|e|] w1]; cbn [fst snd] in *; [| |exact I];
    specialize (Hf w1 Hm); destruct (f w1) as [[[]|e'|] w2]; cbn [fst snd] in *;
    assumption.
Qed.

Lemma triple_when (P E : TxState -> Prop) (b : bool) (m : M unit) :
  triple P m P E -> triple P (when b m) P E.
Proof. destruct b; [trivial|]. intros _. now apply triple_ret. Qed.

(** Statements that leave an open transaction open over the same rows. *)
Lemma txBegun_step (rows : list string) (stmt : Stmt) (s : TxState) :
  match stmt with Insert _ | Select _ | Update _ | Release => True | _ => False end ->
  txBegun rows s -> txBegun rows (txStep s stmt).
Proof.
  intros Hs [H1 H2]. destruct stmt; try contradiction; cbn; try rewrite H1;
    now split.
Qed.

Lemma txBegun_rows (rows : list string) (s : TxState) : txBegun rows s -> txRows rows s.
Proof. now intros [_ H]. Qed.

Lemma triple_weaken {A : Type} (P Q E E' : TxState -> Prop) (m : M A) :
  triple P m Q E -> (forall s, E s -> E' s) -> triple P m Q E'.
Proof.
  intros Hm HE w HP. specialize (Hm w HP). destruct (fst (m w)); auto.
Qed.

Lemma triple_publish_delivered {P E : TxState -> Prop} (rp : nat -> reply unit)
      (channel : string) (msg : Message) :
  (forall n, rp n = Resolves tt) ->
  triple P (Publisher.publishToChannel rp channel msg) P E.
Proof.
  intros Hrp w HP. unfold Publisher.publishToChannel. rewrite Hrp. exact HP.
Qed.

(** Computations that keep a transaction open over the same rows. *)
Ltac keeps_ctl :=
  solve [ repeat first
            [ apply keeps_publish; [intro; reflexivity | intro; reflexivity]
            | apply keeps_runAgenticLoop; intros; intro; reflexivity
            | frame_step
            | progress autounfold with pipeline ] ].

Lemma insertCredentials_open (rows : list string) (insert : reply unit) (n : nat) :
  triple (txBegun rows) (Creation.insertCredentials insert n)
         (txBegun rows) (txBegun rows).
Proof.
  induction n as [|n IH]; cbn [Creation.insertCredentials].
  - now apply triple_ret.
  - apply (triple_bind _ _ _ (txBegun rows)); [|intros _; exact IH].
    apply triple_query; [|trivial].
    intros; apply txBegun_step; [exact I | assumption].
Qed.

Lemma createTables_open (rows : list string) (env : ProvisionEnv) (dbName : string)
      (tables : list TableDesign) :
  triple (txBegun rows) (DatabaseProvisioner.createTables env dbName tables)
         (txBegun rows) (txBegun rows).
Proof.
  induction tables as [|t rest IH]; cbn [DatabaseProvisioner.createTables].
  - now apply triple_ret.
  - apply (triple_bind _ _ _ (txBegun rows));
      [apply triple_keeps;
         [apply keeps_onDatabase; intro; reflexivity | trivial | trivial]
      | intros _].
    apply (triple_bind _ _ _ (txBegun rows)); [|intros _; apply IH].
    apply triple_query; [|trivial].
    intros; apply txBegun_step; [exact I | assumption].
Qed.

Ltac tx_open :=
  repeat first
    [ apply triple_keeps; [keeps_ctl | trivial | trivial]
    | apply triple_ret; solve [trivial]
    | apply triple_throw; solve [trivial]
    | apply triple_query;
        [intros; apply txBegun_step; [exact I | assumption] | trivial]
    | apply triple_trackActivity;
        [intros; apply txBegun_step; [exact I | assumption] | trivial]
    | apply insertCredentials_open
    | apply createTables_open
    | apply triple_when
    | match goal with
      | |- triple (txBegun ?c) (bind _ _) _ _ =>
          apply (triple_bind _ _ _ (txBegun c)); [ | intro ]
      | |- triple (txBegun ?c) (tryCatch _ _) _ _ =>
          apply (triple_tryCatch _ _ _ (txBegun c)); [ | intro ]
      | |- triple (txBegun _) (finally _ _) _ _ => apply triple_finally_same
      | |- triple _ (if ?b then _ else _) _ _ => destruct b
      | |- triple _ (match ?x with _ => _ end) _ _ => destruct x
      end
    | progress cbv zeta
    | progress autounfold with pipeline ].

Lemma insert_then_commit {A : Type} (rows : list string) (table : string)
      (inserted committed : reply unit) (a : A) :
  triple (txBegun rows)
         (query (Insert table) inserted ;;; query Commit committed ;;; ret a)
         (txGrown rows table) (txBegun rows).
Proof.
  apply (triple_bind _ _ _ (txLast rows table)).
  - apply triple_query; [|trivial]. intros s [H1 H2]. cbn. rewrite H1. cbn.
    repeat split; [exact H2 | now eexists].
  - intros _. apply (triple_bind _ _ _ (txGrown rows table)).
    + apply triple_query.
      * intros s (H1 & H2 & p & H3). cbn. repeat split. exists p.
        now rewrite H2, H3.
      * intros s (H1 & H2 & _). now split.
    + intros _. apply triple_ret. trivial.
Qed.

(** Walks a chain of awaited steps that runs inside an open transaction
    and ends with an insert and COMMIT. *)
Ltac tx_walk :=
  repeat match goal with
    | |- triple _ (match ?x with _ => _ end) _ _ => is_var x; destruct x
    | |- triple (txBegun _) (bind (query (Insert _) _) (fun _ => bind (query Commit _) _)) _ _ =>
        apply insert_then_commit
    | |- triple (txBegun ?c) (bind _ _) _ _ =>
        apply (triple_bind _ _ _ (txBegun c)); [ solve [tx_open] | intro ]
    end.

Lemma triple_settled {A : Type} (P Q E : TxState -> Prop) (m : M A) (w : World) :
  triple P m Q E -> settles m -> P (txOf w) ->
  match fst (m w) with
  | Ok _ => Q (txOf (snd (m w)))
  | Throw _ => E (txOf (snd (m w)))
  | OutOfFuel => False
  end.
Proof.
  intros Ht Hs HP. specialize (Ht w HP). specialize (Hs w).
  destruct (fst (m w)); [exact Ht | exact Ht | now elim Hs].
Qed.

(** The [catch] block of a handler, on a bus that delivers: ROLLBACK
    closes the transaction and drops what is pending. *)
Lemma catch_rolls_back {A : Type} (Q : TxState -> Prop) (i : Infra)
      (rows : list string) (streamId line content e : string) :
  txRollback i = Resolves tt ->
  (forall n, redisPublish i n = Resolves tt) ->
  triple (txRows rows)
         (query Rollback (txRollback i) ;;;
          consoleError line ;;;
          Publisher.publishError (redisPublish i) streamId content ;;;
          @throw A e)
         Q (txIdle rows).
Proof.
  intros Hrb Hbus. rewrite Hrb.
  apply (triple_bind _ _ _ (txIdle rows)).
  { apply triple_query_resolves. intros s Hs. unfold txIdle. cbn. now rewrite Hs. }
  intros _.
  apply (triple_bind _ _ _ (txIdle rows));
    [apply triple_keeps; [keeps_ctl | trivial | trivial] | intros _].
  apply (triple_bind _ _ _ (txIdle rows));
    [apply triple_publish_delivered, Hbus | intros _].
  now apply triple_throw.
Qed.

Section ModificationTransaction.

Variable env : ModificationEnv.
Hypothesis connected : poolConnect (m_infra env) = Resolves tt.
Hypothesis rolledBack : txRollback (m_infra env) = Resolves tt.
Hypothesis delivered : forall n, redisPublish (m_infra env) n = Resolves tt.

Lemma modificationPhases_transaction (job : JobData) (requestId streamId : string)
      (rows : list string) :
  triple (txRows rows)
         (Modification.modificationPhases env job requestId streamId)
         (txGrown rows "container_sessions") (txRows rows).
Proof.
  unfold Modification.modificationPhases. cbv zeta.
  apply (triple_bind _ _ _ (txBegun rows)).
  { apply triple_query; [|trivial]. intros s Hs. split; [reflexivity|exact Hs]. }
  intros _.
  apply triple_weaken with (E := txBegun rows); [|apply txBegun_rows].
  tx_walk.
Qed.

Lemma modification_transaction (job : JobData) (requestId streamId : string)
      (rows : list string) :
  triple (txRows rows)
         (Modification.handleProjectModificationOrchestration env job requestId streamId)
         (txGrown rows "container_sessions") (txIdle rows).
Proof.
  unfold Modification.handleProjectModificationOrchestration,
    Modification.modificationBody. cbv zeta.
  rewrite connected.
  apply (triple_bind _ _ _ (txRows rows)); [now apply triple_ret | intros _].
  apply triple_finally_release.
  apply (triple_tryCatch _ _ _ (txRows rows)).
  - apply (triple_bind _ _ _ (txGrown rows "container_sessions"));
      [apply modificationPhases_transaction | intro l].
    apply (triple_bind _ _ _ (txGrown rows "container_sessions"));
      [apply triple_publish_delivered, delivered | intros _].
    now apply triple_ret.
  - intro e. apply catch_rolls_back; assumption.
Qed.

End ModificationTransaction.

Section CreationTransaction.

Variable env : CreationEnv.
Hypothesis connected : poolConnect (c_infra env) = Resolves tt.
Hypothesis rolledBack : txRollback (c_infra env) = Resolves tt.
Hypothesis delivered : forall n, redisPublish (c_infra env) n = Resolves tt.
Hypothesis readBack : exists rows, c_blueprintSelect env = Resolves rows.



End CreationTransaction.

Section SecretSyncTransaction.

Variable env : SecretSyncEnv.

Lemma txOf_logged (line : string) (w : World) : txOf (logged line w) = txOf w.
Proof. reflexivity. Qed.

Lemma txOf_attempted (c : ContainerId) (op : SandboxOp) (w : World) :
  txOf (attempted c op w) = txOf w.
Proof. reflexivity. Qed.

Ltac oracles :=
  repeat match goal with
    | |- context [match ?r with Resolves _ => _ | Rejects _ => _ end] =>
        destruct r; cbn
    | |- context [match s_flyApiToken env with Some _ => _ | None => _ end] =>
        destruct (s_flyApiToken env); cbn
    | |- context [if negb (?n =? 0) then _ else _] => destruct (n =? 0); cbn
    end.

Lemma syncCredentialsToFlyio_transaction (projectId name value : string)
      (rows : list string) (w : World) :
  txOpen rows [] (txOf w) ->
  match SecretSync.syncCredentialsToFlyio env projectId name value w with
  | (Ok Synced, w') => txOpen rows ["project_actions"] (txOf w')
  | (Ok (NotSynced _), w') => txBegun rows (txOf w')
  | (Throw _, w') => txBegun rows (txOf w')
  | (OutOfFuel, _) => False
  end.
Proof.
  intros (H1 & H2 & H3).
  unfold SecretSync.syncCredentialsToFlyio, SecretSync.recordFailure,
    SecretSync.syncAttempt, SecretSync.tearDown, provisionDaytonaContainer,
    finally, tryCatch, bind, query, ext, consoleError, ret, throw.
  destruct (s_deployments env) as [[|app apps]|e]; cbn; oracles;
    unfold txOpen, txBegun, txOf in *;
    cbn [ctl ran logged attempted]; rewrite ?fold_left_app; cbn [fold_left];
    destruct (fold_left txStep (ctl w) _) as [b p c]; cbn in *; subst; cbn; auto.
Qed.

Lemma secretSync_outcome (job : Job) (w : World) :
  match SecretSync.flyioSecretsSyncProcessor env job w with
  | (Ok _, w') =>
      persisted (ctl w') = persisted (ctl w) ++ ["project_actions"]
      /\ txCommit (s_infra env) = Resolves tt
  | (Throw _, w') => persisted (ctl w') = persisted (ctl w)
  | (OutOfFuel, _) => False
  end.
Proof.
  unfold SecretSync.flyioSecretsSyncProcessor.
  unfold bind at 1, ext. destruct (poolConnect (s_infra env)); [|reflexivity].
  unfold finally, release, tryCatch. unfold bind at 1, query at 1.
  destruct (txBegin (s_infra env)).
  2:{ unfold bind, query, consoleError, throw.
      destruct (txRollback (s_infra env)); cbn; unfold persisted;
        rewrite ?fold_left_app; reflexivity. }
  unfold bind at 1.
  pose proof (syncCredentialsToFlyio_transaction (project_id (job_data job))
                (credentialName (job_data job)) (credentialValue (job_data job))
                (persisted (ctl w)) (ran Begin w)) as Hsync.
  rewrite txOf_ran in Hsync. specialize (Hsync ltac:(now repeat split)).
  destruct (SecretSync.syncCredentialsToFlyio env _ _ _ _) as [[[|error]|e|] w1];
    [| | |contradiction];
    unfold bind, query, consoleError, throw;
    destruct (txCommit (s_infra env)) as [[]|]; destruct (txRollback (s_infra env));
    cbn [fst snd ctl ran logged];
    unfold txOpen, txBegun, txOf, persisted in *;
    rewrite ?fold_left_app; cbn [fold_left];
    destruct (fold_left txStep (ctl w1) _) as [b p c]; cbn in *;
    intuition (subst; auto).
Qed.

End SecretSyncTransaction.

(** X12.  The transaction of a modification job, on a control database
    that hands out a client and runs ROLLBACK, with a bus that delivers
    every publication and an agent that ends its loop.  A job that
    throws has been rolled back: when its client is released no
    transaction is open on it, nothing is pending, and the rows that
    persist are those that were there before, whatever the handler,
    the context loader, the deployment and [trackActivity] had
    inserted through the client.  A job that returns has committed its
    rows, the container session last.  (The row of
    [message_cost_tracker] is written through the pool, outside of this
    transaction, and stays when the job throws.) *)
Theorem failed_modification_persists_nothing (env : ModificationEnv) (job : JobData)
        (requestId streamId : string) (w : World) :
  poolConnect (m_infra env) = Resolves tt ->
  txRollback (m_infra env) = Resolves tt ->
  (forall n, redisPublish (m_infra env) n = Resolves tt) ->
  agentEnds (m_agent env) ->
  let run := Modification.handleProjectModificationOrchestration
               env job requestId streamId w in
  match fst run with
  | Ok _ =>
      inTransaction (txOf (snd run)) = false
      /\ pendingRows (txOf (snd run)) = []
      /\ exists more,
           persisted (ctl (snd run)) = persisted (ctl w) ++ more ++ ["container_sessions"]
  | Throw _ =>
      inTransaction (txOf (snd run)) = false
      /\ pendingRows (txOf (snd run)) = []
      /\ persisted (ctl (snd run)) = persisted (ctl w)
  | OutOfFuel => False
  end.
Proof.
  intros Hconn Hrb Hbus Hends. cbv zeta.
  pose proof (triple_settled _ _ _ _ w
                (modification_transaction env Hconn Hrb Hbus job requestId streamId
                   (persisted (ctl w)))) as H.
  assert (Hs : settles (Modification.handleProjectModificationOrchestration
                          env job requestId streamId)).
  { pose proof (settles_modificationPhases env job requestId streamId Hends) as Hp.
    unfold Modification.handleProjectModificationOrchestration,
      Modification.modificationBody, Publisher.publishSuccess, Publisher.publishError.
    repeat first [ apply Hp | settle_step ]. }
  specialize (H Hs eq_refl).
  destruct (fst (Modification.handleProjectModificationOrchestration _ _ _ _ _)).
  - exact H.
  - unfold txIdle in H. rewrite persisted_txOf, H. repeat split.
  - exact H.
Qed.

(** A modification job that fails after the agent has finished (the
    push of the feature branch times out): the activity row inserted
    before is rolled back with the transaction, the cost row of the
    agent stays. *)
Lemma failed_modification_witness :
  let env := Scenarios.modificationEnvWith Scenarios.infraOk
               (Scenarios.agentWith Scenarios.newTableAtOnce)
               (Scenarios.boxWith (Scenarios.shellTimingOut "git push"))
               (Resolves "sandbox-1") [Scenarios.activeRepo] in
  let run := Modification.handleProjectModificationOrchestration env
               (Scenarios.jobData "p5" "s5") "req-1" "s5" emptyWorld in
  fst run = Throw "Command timed out after 120000ms"
  /\ ctl (snd run)
     = [Begin; Select "project_github_repos"; Select "project_databases";
        Select "project_databases"; Insert "project_actions"; Rollback; Release]
  /\ costRows (snd run)
     = [mkCostRow "p5" "req-1" "u1" "add GET /api/users/[id]"
          "agentic-container-execution" "grok-4-fast" 10 5]
  /\ inTransaction (txOf (snd run)) = false
  /\ pendingRows (txOf (snd run)) = []
  /\ persisted (ctl (snd run)) = persisted (ctl emptyWorld).
Proof.
  intros env run. split; [vm_compute; reflexivity|].
  split; [vm_compute; reflexivity|]. split; [vm_compute; reflexivity|].
  assert (He : agentEnds (m_agent env)) by (exists 1; split; [cbn; lia | reflexivity]).
  exact (failed_modification_persists_nothing env (Scenarios.jobData "p5" "s5")
           "req-1" "s5" emptyWorld eq_refl eq_refl (fun n => eq_refl) He).
Defined.


(** X14.  On a client that comes from the pool with no
    transaction open, a secret-sync job that returns has persisted
    exactly one row, the success row of [project_actions], and a job
    that throws has persisted none: the "failed" row that
    [syncCredentialsToFlyio] inserts is rolled back with the
    transaction it was written in. *)
Theorem secret_sync_persists_one_row_or_none (env : SecretSyncEnv) (job : Job)
        (w : World) :
  inTransaction (txOf w) = false ->
  let run := SecretSync.flyioSecretsSyncProcessor env job w in
  match fst run with
  | Ok _ => persisted (ctl (snd run)) = persisted (ctl w) ++ ["project_actions"]
  | Throw _ => persisted (ctl (snd run)) = persisted (ctl w)
  | OutOfFuel => False
  end.
Proof.
  intros _. cbv zeta. pose proof (secretSync_outcome env job w) as H.
  destruct (SecretSync.flyioSecretsSyncProcessor env job w) as [[[]|e|] w'];
    cbn [fst snd]; tauto.
Qed.


Lemma secret_sync_witness :
  let run := SecretSync.flyioSecretsSyncProcessor Scenarios.secretSyncEnv
               (mkJob "sync-flyio-secrets" (Scenarios.jobData "p1" "s1")) emptyWorld in
  persisted (ctl (snd run)) = persisted (ctl emptyWorld) ++ ["project_actions"].
Proof.
  intro run.
  exact (secret_sync_persists_one_row_or_none Scenarios.secretSyncEnv
           (mkJob "sync-flyio-secrets" (Scenarios.jobData "p1" "s1")) emptyWorld eq_refl).
Defined.

(** ** Git operations in the sandbox *)

Section GitFacts.

Variable shell : nat -> ContainerId -> string -> reply ExecResult.
Variable token : string.

Ltac git_unfold :=
  unfold GitBranchManager.cloneProjectFromGitHub,
    GitBranchManager.commitChanges, GitBranchManager.pushFeatureBranch,
    GitBranchManager.mergeFeatureBranch, GitBranchManager.pushToMain,
    GitBranchManager.createFeatureBranch,
    GitBranchManager.listDirectory, GitBranchManager.checked,
    Daytona.executeCommandInContainer,
    tryCatch, bind, consoleError, ret, throw;
  cbn [container attempted logged]; rewrite ?length_app; cbn [length];
  rewrite <- ?Nat.add_assoc; cbn [Nat.add].

Ltac git_tidy :=
  cbn beta iota zeta;
  cbn [fst snd exitCode execResult exitsWithZero resolves negb andb
       container attempted logged];
  rewrite ?length_app; cbn [length];
  rewrite <- ?Nat.add_assoc; cbn [Nat.add].

Ltac git_calls :=
  repeat match goal with
    | |- context [match shell ?i ?c ?cmd with Resolves _ => _ | Rejects _ => _ end] =>
        let code := fresh "code" in
        destruct (shell i c cmd) as [[code ?]|?]; git_tidy;
        try match goal with
            | |- context [code =? 0] => destruct (code =? 0); git_tidy
            end
    end.

(** X15.  Cloning returns exactly when [git init],
    [git remote add], [git fetch] and [git checkout] each ran and
    exited with 0 and the two [git config] calls resolved.  Neither
    call of [ls -la] matters, and neither does the exit code of a
    [git config]. *)
Theorem clone_succeeds_exactly_when (c : ContainerId) (repoInfo : RepoRow) (w : World) :
  let n := length (container w) in
  fst (GitBranchManager.cloneProjectFromGitHub shell token c repoInfo w) = Ok tt
  <-> exitsWithZero (shell (n + 1) c "git init")
      && exitsWithZero (shell (n + 2) c
           ("git remote add origin " +++ GitBranchManager.authenticatedUrl token repoInfo))
      && exitsWithZero (shell (n + 3) c ("git fetch origin " +++ branch repoInfo))
      && exitsWithZero (shell (n + 4) c ("git checkout " +++ branch repoInfo))
      && resolves (shell (n + 6) c
           ("git config user.name " +++ dq +++ "TurboBackend Agent" +++ dq))
      && resolves (shell (n + 7) c
           ("git config user.email " +++ dq +++ "agent@turbobackend.dev" +++ dq))
      = true.
Proof.
  cbv zeta. git_unfold. git_calls;
    split; intro H; first [reflexivity | discriminate H].
Qed.

(** X16.  Whatever the sandbox does, the commands that a
    clone has sent are an initial part of its script of eight, in
    order and at least the first two: after a step that fails nothing
    more is sent, and a clone that returns has sent all eight. *)
Theorem clone_stops_at_the_first_failure (c : ContainerId) (repoInfo : RepoRow)
        (w : World) :
  let run := GitBranchManager.cloneProjectFromGitHub shell token c repoInfo w in
  exists k,
    container (snd run) = container w ++ asked c (firstn k (cloneScript token repoInfo))
    /\ 2 <= k <= 8
    /\ (fst run = Ok tt -> k = 8)
    /\ fst run <> OutOfFuel.
Proof.
  cbv zeta. git_unfold. git_calls.
  all: first
    [ exists 8; split; [rewrite <- !app_assoc; reflexivity|];
      split; [lia|]; split; [reflexivity || discriminate | discriminate]
    | exists 7; split; [rewrite <- !app_assoc; reflexivity|];
      split; [lia|]; split; [reflexivity || discriminate | discriminate]
    | exists 5; split; [rewrite <- !app_assoc; reflexivity|];
      split; [lia|]; split; [reflexivity || discriminate | discriminate]
    | exists 4; split; [rewrite <- !app_assoc; reflexivity|];
      split; [lia|]; split; [reflexivity || discriminate | discriminate]
    | exists 3; split; [rewrite <- !app_assoc; reflexivity|];
      split; [lia|]; split; [reflexivity || discriminate | discriminate]
    | exists 2; split; [rewrite <- !app_assoc; reflexivity|];
      split; [lia|]; split; [reflexivity || discriminate | discriminate] ].
Qed.

(** X17.  [commitChanges], [pushFeatureBranch],
    [mergeFeatureBranch] and [pushToMain] do not look at exit codes:
    when the calls of the sandbox resolve, each of them returns and has
    sent all its commands, whatever the commands exited with.  A push
    that git rejected is not a failure of the function. *)
Theorem git_steps_ignore_exit_codes (c : ContainerId)
        (commitMessage branchName : string) (w : World) :
  (forall n command, resolves (shell n c command) = true) ->
  (exists w',
      GitBranchManager.commitChanges shell c commitMessage w = (Ok tt, w')
      /\ container w'
         = container w
           ++ asked c ["git add ."; "git commit -m " +++ dq +++ commitMessage +++ dq])
  /\ (exists w',
         GitBranchManager.pushFeatureBranch shell c branchName w = (Ok tt, w')
         /\ container w' = container w ++ asked c ["git push origin " +++ branchName])
  /\ (exists w',
         GitBranchManager.mergeFeatureBranch shell c branchName w = (Ok tt, w')
         /\ container w'
            = container w ++ asked c ["git checkout main"; "git merge " +++ branchName])
  /\ (exists w',
         GitBranchManager.pushToMain shell c w = (Ok tt, w')
         /\ container w' = container w ++ asked c ["git push origin main"]).
Proof.
  intro Hres.
  assert (Hcall : forall command w0,
             exists r, Daytona.executeCommandInContainer shell c command w0
                       = (Ok r, attempted c (OpExec command) w0)).
  { intros command w0. unfold Daytona.executeCommandInContainer.
    specialize (Hres (length (container w0)) command).
    destruct (shell _ c command); [now eexists | discriminate]. }
  unfold GitBranchManager.commitChanges, GitBranchManager.pushFeatureBranch,
    GitBranchManager.mergeFeatureBranch, GitBranchManager.pushToMain, bind, ret.
  repeat split.
  - destruct (Hcall "git add ." w) as [r1 ->].
    destruct (Hcall ("git commit -m " +++ dq +++ commitMessage +++ dq)
                (attempted c (OpExec "git add .") w)) as [r2 ->].
    eexists. split; [reflexivity|]. cbn. now rewrite <- app_assoc.
  - destruct (Hcall ("git push origin " +++ branchName) w) as [r1 ->].
    eexists. split; reflexivity.
  - destruct (Hcall "git checkout main" w) as [r1 ->].
    destruct (Hcall ("git merge " +++ branchName)
                (attempted c (OpExec "git checkout main") w)) as [r2 ->].
    eexists. split; [reflexivity|]. cbn. now rewrite <- app_assoc.
  - destruct (Hcall "git push origin main" w) as [r1 ->].
    eexists. split; reflexivity.
Qed.

End GitFacts.

Lemma git_steps_witness :
  exists w',
    GitBranchManager.pushToMain SandboxRuns.shellRefusing (Some "sandbox-1") emptyWorld
    = (Ok tt, w')
    /\ container w' = container emptyWorld ++ asked (Some "sandbox-1") ["git push origin main"].
Proof.
  apply (git_steps_ignore_exit_codes SandboxRuns.shellRefusing (Some "sandbox-1")
           "Modification: add GET /api/users/[id]" "feature/modification-1700000000000"
           emptyWorld).
  reflexivity.
Defined.

(** ** Creating the app on the deployment platform *)

(** X18.  [createFlyApp] never returns [success: false]: it
    returns [success: true] with the lower-cased app name whenever the
    command resolved, whatever it printed, and also when the sandbox
    rejected with a message that mentions "already exists" or "taken";
    otherwise it throws the sandbox's error.  So the creation handler's
    branch "Failed to create Fly.io app" is never taken: when the
    handler's step throws, it throws the sandbox's own error. *)
Theorem createFlyApp_never_reports_failure
        (shell : nat -> ContainerId -> string -> reply ExecResult)
        (stringify : ExecResult -> string) (flyApiToken : string)
        (c : ContainerId) (projectId : string) (w : World) :
  let asks := shell (length (container w)) c (createAppCommand flyApiToken projectId) in
  match FlyioService.createFlyApp shell stringify flyApiToken c projectId w with
  | (Ok r, _) =>
      fly_success r = true /\ fly_appName r = Names.appName projectId
      /\ (resolves asks = false -> fly_alreadyExists r = true)
  | (Throw e, _) =>
      asks = Rejects e
      /\ Str.includes e "already exists" = false /\ Str.includes e "taken" = false
  | (OutOfFuel, _) => False
  end
  /\ forall e,
       fst (FlyioService.createFlyAppOrFail shell stringify flyApiToken c projectId w)
       = Throw e ->
       asks = Rejects e.
Proof.
  cbv zeta. unfold FlyioService.createFlyAppOrFail, FlyioService.createFlyApp,
    Daytona.executeCommandInContainer, createAppCommand, tryCatch, bind,
    consoleError, ret, throw.
  destruct (shell (length (container w)) c _) as [r|e]; cbn [fst snd resolves].
  - destruct (_ || _); [|destruct (_ || _)]; cbn;
      (split; [split; [reflexivity | split; [reflexivity | intro H; discriminate H]]
              | intros e H; discriminate H]).
  - destruct (Str.includes e "already exists") eqn:E1; cbn;
      [split; [repeat split | intros e' H; discriminate H]|].
    destruct (Str.includes e "taken") eqn:E2; cbn;
      [split; [repeat split | intros e' H; discriminate H]|].
    split; [repeat split; assumption|]. intros e' H. now injection H as ->.
Qed.

(** ** Queries on the project database *)

Section DevDatabaseFacts.

Variable env : DevDatabaseEnv.

(** Inside the transaction of the project database the queries of the
    loop are pending. *)
Lemma forQueries_runs (db : string) (queries : list DbQueryEntry) :
  forall results pending rows w,
    dbOf db w = mkTxState true pending rows ->
    match DevDatabaseExecutor.forQueries env db queries results w with
    | (Ok done, w') =>
        done = results ++ map successEntry queries
        /\ dbOf db w'
           = mkTxState true (pending ++ map DevDatabaseExecutor.modifiedQuery queries) rows
    | (Throw _, w') => exists pending', dbOf db w' = mkTxState true pending' rows
    | (OutOfFuel, _) => False
    end.
Proof.
  induction queries as [|q rest IH]; intros results pending rows w Hw.
  - cbn. now rewrite !app_nil_r.
  - cbn [DevDatabaseExecutor.forQueries map]. unfold bind at 1.
    unfold DevDatabaseExecutor.runQuery, onDatabase, query, bind, consoleError, throw.
    destruct (d_run env _).
    + assert (H1 : dbOf db (applied db (DbRun (DevDatabaseExecutor.modifiedQuery q)) w)
                   = mkTxState true (pending ++ [DevDatabaseExecutor.modifiedQuery q]) rows)
        by (rewrite dbOf_applied, Hw; reflexivity).
      destruct (d_executedInsert env).
      * specialize (IH (results ++ [successEntry q]) _ _
                      (ran (Insert "generated_queries")
                         (applied db (DbRun (DevDatabaseExecutor.modifiedQuery q)) w)) H1).
        fold (successEntry q).
        destruct (DevDatabaseExecutor.forQueries env db rest _ _) as [[done|e|] w'];
          [|exact IH|exact IH].
        destruct IH as [-> IH]. now rewrite IH, <- !app_assoc.
      * destruct (d_failedInsert env); cbn [fst snd];
          rewrite ?dbOf_logged, ?dbOf_ran; eexists; exact H1.
    + destruct (d_failedInsert env); cbn [fst snd];
        rewrite ?dbOf_logged, ?dbOf_ran; eexists; exact Hw.
Qed.

(** The database the queries are meant for: the project's active one,
    or the one named after the project when it has none. *)
Definition targetDatabase (projectId : string) : string :=
  match d_activeDatabases env with
  | Resolves (row :: _) => row
  | _ => Names.devExecutorDbName projectId
  end.

Lemma projectDatabase_runs (projectId : string) (w : World) :
  match DevDatabaseExecutor.projectDatabase env projectId w with
  | (Ok name, w') =>
      name = targetDatabase projectId /\ dbOf name w' = dbOf name w
  | (Throw _, w') => dbOf (targetDatabase projectId) w' = dbOf (targetDatabase projectId) w
  | (OutOfFuel, _) => False
  end.
Proof.
  unfold DevDatabaseExecutor.projectDatabase, targetDatabase, bind, query, onDatabase,
    ext, ret.
  destruct (d_activeDatabases env) as [[|row rows]|e]; [| |reflexivity].
  - cbv zeta.
    assert (Hname : String.eqb "postgres" (Names.devExecutorDbName projectId) = false)
      by reflexivity.
    destruct (d_createDatabase env _); [|reflexivity].
    destruct (d_adminEnd env);
      [|cbn [fst snd]; now rewrite (dbOf_applied_other _ _ _ _ Hname)].
    destruct (d_databaseInsert env);
      [|cbn [fst snd]; now rewrite (dbOf_applied_other _ _ _ _ Hname)].
    split; [reflexivity|]. cbn [fst snd].
    now rewrite dbOf_ran, (dbOf_applied_other _ _ _ _ Hname).
  - split; reflexivity.
Qed.

Ltac unchanged H :=
  unfold bind, onDatabase, consoleError, throw, ret; cbn [fst snd];
  left; unfold appliedTo at 1;
  rewrite ?dbOf_logged, ?dbOf_acted, ?dbOf_ran, ?dbOf_applied, H; reflexivity.

Lemma runOnDatabase_runs (db projectId : string) (queries : list DbQueryEntry)
      (userId requestId : string) (w : World) :
  let every := map DevDatabaseExecutor.modifiedQuery queries in
  match DevDatabaseExecutor.runOnDatabase env db projectId queries
          userId requestId w with
  | (Ok r, w') =>
      r = mkDevExecution (length queries) (map successEntry queries) db
      /\ dbOf db w' = mkTxState false [] (appliedTo db w ++ every)
  | (Throw _, w') =>
      appliedTo db w' = appliedTo db w
      \/ (appliedTo db w' = appliedTo db w ++ every
          /\ exists cause, d_end env = Rejects cause)
  | (OutOfFuel, _) => False
  end.
Proof.
  cbv zeta. unfold DevDatabaseExecutor.runOnDatabase.
  assert (H0 : dbOf db w = mkTxState (inTransaction (dbOf db w)) (pendingRows (dbOf db w))
                 (appliedTo db w)) by (unfold appliedTo; now destruct (dbOf db w)).
  unfold bind at 1, onDatabase at 1.
  destruct (d_connect env); [|now left].
  set (w1 := applied db DbConnect w).
  assert (H1 : dbOf db w1 = mkTxState false [] (appliedTo db w))
    by (unfold w1; rewrite dbOf_applied, H0; reflexivity).
  clearbody w1. clear H0.
  unfold finally, tryCatch. unfold bind at 1, onDatabase at 1.
  destruct (d_begin env).
  2:{ destruct (d_rollback env), (d_end env); unchanged H1. }
  set (w2 := applied db DbBegin w1).
  assert (H2 : dbOf db w2 = mkTxState true [] (appliedTo db w))
    by (unfold w2; rewrite dbOf_applied, H1; reflexivity).
  clearbody w2. unfold bind at 1.
  pose proof (forQueries_runs db queries [] [] (appliedTo db w) w2 H2) as Hq.
  destruct (DevDatabaseExecutor.forQueries env db queries [] w2) as [[done|e|] w3];
    [| |contradiction].
  2:{ destruct Hq as [pending' Hq].
      destruct (d_rollback env), (d_end env); unchanged Hq. }
  destruct Hq as [-> Hw3]. cbn [app] in *.
  unfold bind at 1, onDatabase at 1.
  destruct (d_commit env).
  2:{ destruct (d_rollback env), (d_end env); unchanged Hw3. }
  assert (H4 : dbOf db (applied db DbCommit w3)
               = mkTxState false []
                   (appliedTo db w ++ map DevDatabaseExecutor.modifiedQuery queries))
    by (rewrite dbOf_applied, Hw3; reflexivity).
  rewrite length_map.
  unfold bind, when, tryCatch, ActivityTracker.trackActivity, tryCatch, bind,
    consoleError, ret, onDatabase, throw.
  clear H4. unfold appliedTo in *.
  destruct (negb _ && _); [destruct (d_activityInsert env)|];
    destruct (d_end env); cbn [fst snd];
    repeat rewrite ?dbOf_applied, ?dbOf_logged, ?dbOf_acted; rewrite Hw3;
    first [ split; reflexivity
          | right; split; [reflexivity | now eexists] ].
Qed.

(** X19.  [executeDevDatabaseQueries] is all or nothing on the
    project database, by the transaction it opens there: the queries
    are pending from BEGIN to COMMIT, so that however the function
    ends, either none of them has been applied or all of them have,
    rewritten to the [public] schema and in the order given.  When it
    returns, all of them have been applied, no transaction is left
    open and the result lists one success entry per query, in order;
    when it throws, none has been applied, unless what failed is the
    end of the connection after COMMIT.  The database is the project's
    active one, or the one named after the project when it has none. *)
Theorem dev_queries_are_all_or_nothing (projectId : string)
        (queries : list DbQueryEntry) (userId requestId : string) (w : World) :
  let run := DevDatabaseExecutor.executeDevDatabaseQueries env projectId queries
               userId requestId w in
  let rewritten := map DevDatabaseExecutor.modifiedQuery queries in
  let dbName := match d_activeDatabases env with
                | Resolves (row :: _) => row
                | _ => Names.devExecutorDbName projectId
                end in
  (appliedTo dbName (snd run) = appliedTo dbName w
   \/ appliedTo dbName (snd run) = appliedTo dbName w ++ rewritten)
  /\ match fst run with
     | Ok r =>
         dev_results r = map successEntry queries
         /\ dev_queriesExecuted r = length queries
         /\ dev_dbName r = dbName
         /\ appliedTo dbName (snd run) = appliedTo dbName w ++ rewritten
         /\ inTransaction (dbOf dbName (snd run)) = false
         /\ pendingRows (dbOf dbName (snd run)) = []
     | Throw _ =>
         appliedTo dbName (snd run) = appliedTo dbName w
         \/ exists cause, d_end env = Rejects cause
     | OutOfFuel => False
     end.
Proof.
  cbv zeta. fold (targetDatabase projectId).
  unfold DevDatabaseExecutor.executeDevDatabaseQueries, bind.
  pose proof (projectDatabase_runs projectId w) as Hdb.
  destruct (DevDatabaseExecutor.projectDatabase env projectId w) as [[name|e|] w1];
    [| |contradiction].
  2:{ cbn [fst snd]. unfold appliedTo. rewrite Hdb. split; now left. }
  destruct Hdb as [-> Hw1].
  pose proof (runOnDatabase_runs (targetDatabase projectId) projectId queries
                userId requestId w1) as Hrun.
  cbv zeta in Hrun. unfold appliedTo in *. rewrite Hw1 in Hrun.
  destruct (DevDatabaseExecutor.runOnDatabase env _ _ _ _ _ w1) as [[r|e|] w2];
    cbn [fst snd]; [| |contradiction].
  - destruct Hrun as [-> Hw2]. rewrite Hw2. cbn.
    split; [now right|]. repeat split.
  - split.
    + destruct Hrun as [H|[H _]]; [now left | now right].
    + destruct Hrun as [H|[_ H]]; [now left | now right].
Qed.

End DevDatabaseFacts.

(** ** Usage objects and the cost row *)

(** X20.  The cost row of an OpenAI stream records no tokens:
    the usage is handed over under the keys [promptTokenCount],
    [candidatesTokenCount] and [totalTokenCount], while
    [trackMessageCost] reads [inputTokens] and [outputTokens].
    Whatever the API reported, the block does not throw, and when the
    INSERT resolves it has written exactly one row, for "gpt-5-nano",
    with 0 input and 0 output tokens. *)
Theorem openai_cost_row_has_no_tokens (insert : reply unit)
        (prompt_tokens completion_tokens total_tokens : nat)
        (jobId prompt projectId userId : string) (w : World) :
  exists w',
    Usage.openAIUsageBlock insert prompt_tokens completion_tokens total_tokens
      jobId prompt projectId userId w = (Ok tt, w')
    /\ (resolves insert = true ->
        costRows w'
        = costRows w ++ [mkCostRow projectId jobId userId (String.substring 0 500 prompt)
                           "openai-stream" "gpt-5-nano" 0 0])
    /\ (resolves insert = false -> costRows w' = costRows w).
Proof.
  unfold Usage.openAIUsageBlock, Usage.trackMessageCost, CostTracker.trackMessageCost,
    tryCatch, bind, consoleError, throw.
  destruct insert as [[]|e]; cbn; eexists; repeat split; intro H;
    first [reflexivity | discriminate H].
Qed.

(** ** What the activity ledger cannot change *)

Lemma sameEnd_refl {A : Type} (r : outcome A) : sameEnd r r.
Proof. now destruct r. Qed.

Lemma twin_alike {A : Type} (m m' : M A) : twin m m' -> alike m m'.
Proof.
  intros H w w' Hw. destruct (H w w' Hw) as [H1 H2]. split; [|exact H2].
  rewrite H1. apply sameEnd_refl.
Qed.

Section Twins.

Lemma twin_ret {A} (a : A) : twin (ret a) (ret a).
Proof. intros w w' Hw. now split. Qed.

Lemma twin_throw {A} (e : string) : twin (@throw A e) (throw e).
Proof. intros w w' Hw. now split. Qed.

Lemma twin_ext {A} (r : reply A) : twin (ext r) (ext r).
Proof. intros w w' Hw. unfold ext. destruct r; now split. Qed.

Lemma twin_outOfFuel {A} : twin (fun w => (@OutOfFuel A, w)) (fun w => (OutOfFuel, w)).
Proof. intros w w' Hw. now split. Qed.

(** An update of the world that acts alike on what is shown. *)
Lemma twin_update {A} (r : outcome A) (u : World -> World) :
  (forall w w', visible w = visible w' -> visible (u w) = visible (u w')) ->
  twin (fun w => (r, u w)) (fun w => (r, u w)).
Proof. intros H w w' Hw. split; [reflexivity | now apply H]. Qed.

Lemma twin_bind {A B} (m m' : M A) (k k' : A -> M B) :
  twin m m' -> (forall a, twin (k a) (k' a)) -> twin (bind m k) (bind m' k').
Proof.
  intros Hm Hk w w' Hw. unfold bind. destruct (Hm w w' Hw) as [H1 H2].
  destruct (m w) as [[a|e|] w1], (m' w') as [[a'|e'|] w1']; cbn [fst snd] in *;
    try discriminate; try (split; congruence).
  injection H1 as <-. now apply Hk.
Qed.

(** The value of the first computation is not used. *)
Lemma twin_then {A A' B} (m : M A) (m' : M A') (k k' : M B) :
  alike m m' -> twin k k' -> twin (bind m (fun _ => k)) (bind m' (fun _ => k')).
Proof.
  intros Hm Hk w w' Hw. unfold bind. destruct (Hm w w' Hw) as [H1 H2].
  destruct (m w) as [[a|e|] w1], (m' w') as [[a'|e'|] w1']; cbn [fst snd sameEnd] in *;
    try contradiction; try (split; congruence).
  now apply Hk.
Qed.

Lemma twin_tryCatch {A} (m m' : M A) (h h' : string -> M A) :
  twin m m' -> (forall e, twin (h e) (h' e)) -> twin (tryCatch m h) (tryCatch m' h').
Proof.
  intros Hm Hh w w' Hw. unfold tryCatch. destruct (Hm w w' Hw) as [H1 H2].
  destruct (m w) as [[a|e|] w1], (m' w') as [[a'|e'|] w1']; cbn [fst snd] in *;
    try discriminate; try (split; congruence).
  injection H1 as <-. now apply Hh.
Qed.

Lemma twin_finally {A} (m m' : M A) (c c' : M unit) :
  twin m m' -> twin c c' -> twin (finally m c) (finally m' c').
Proof.
  intros Hm Hc w w' Hw. unfold finally. destruct (Hm w w' Hw) as [H1 H2].
  destruct (m w) as [[a|e|] w1], (m' w') as [[a'|e'|] w1']; cbn [fst snd] in *;
    try discriminate; try (split; congruence);
    destruct (Hc w1 w1' H2) as [H3 H4];
    destruct (c w1) as [[[]|e1|] w2], (c' w1') as [[[]|e1'|] w2']; cbn [fst snd] in *;
    try discriminate; split; congruence.
Qed.

Lemma twin_when (b : bool) (m m' : M unit) : twin m m' -> twin (when b m) (when b m').
Proof. destruct b; [trivial | intros _; apply twin_ret]. Qed.

End Twins.

Lemma visible_ran (s : Stmt) (w w' : World) :
  visible w = visible w' -> visible (ran s w) = visible (ran s w').
Proof. unfold visible. cbn. trivial. Qed.

Lemma visible_logged (l l' : string) (w w' : World) :
  visible w = visible w' -> visible (logged l w) = visible (logged l' w').
Proof. unfold visible. cbn. trivial. Qed.

Lemma visible_acted (r r' : ActivityRow) (w w' : World) :
  visible w = visible w' -> visible (acted r w) = visible (acted r' w').
Proof. unfold visible. cbn. trivial. Qed.

Lemma twin_consoleError (line : string) : twin (consoleError line) (consoleError line).
Proof. apply twin_update. apply visible_logged. Qed.

Lemma twin_release : twin release release.
Proof. apply twin_update. apply visible_ran. Qed.

Lemma twin_query {A} (s : Stmt) (r : reply A) : twin (query s r) (query s r).
Proof.
  intros w w' Hw. unfold query. destruct r; (split; [reflexivity|]);
    [now apply visible_ran | exact Hw].
Qed.

Lemma twin_publish (rp : nat -> reply unit) (channel : string) (msg : Message) :
  twin (Publisher.publishToChannel rp channel msg)
       (Publisher.publishToChannel rp channel msg).
Proof.
  intros w w' Hw. unfold Publisher.publishToChannel.
  assert (Hp : pubAttempts w = pubAttempts w') by (unfold visible in Hw; congruence).
  rewrite Hp. destruct (rp (pubAttempts w')); (split; [reflexivity|]);
    unfold visible in *; cbn; congruence.
Qed.

Lemma twin_sandboxCall sandbox (c : ContainerId) (op : SandboxOp) :
  twin (CommandExecutor.sandboxCall sandbox c op) (CommandExecutor.sandboxCall sandbox c op).
Proof.
  intros w w' Hw. unfold CommandExecutor.sandboxCall.
  assert (Hc : container w = container w') by (unfold visible in Hw; congruence).
  rewrite Hc. destruct (sandbox _ c op); (split; [reflexivity|]);
    unfold visible in *; cbn; congruence.
Qed.

(** [trackActivity] ends alike whatever its INSERT does. *)
Lemma alike_trackActivity (insert insert' : reply unit) (row : ActivityRow) :
  alike (ActivityTracker.trackActivity insert row)
        (ActivityTracker.trackActivity insert' row).
Proof.
  intros w w' Hw. unfold ActivityTracker.trackActivity, tryCatch, bind, consoleError, ret.
  destruct insert, insert'; cbn; (split; [exact I|]); unfold visible in *; cbn; congruence.
Qed.

Lemma twin_reply {A} (r : reply unit) (a : A) (u : World -> World) :
  (forall w w', visible w = visible w' -> visible (u w) = visible (u w')) ->
  twin (fun w => match r with
                 | Resolves _ => (Ok a, u w)
                 | Rejects e => (Throw e, w)
                 end)
       (fun w => match r with
                 | Resolves _ => (Ok a, u w)
                 | Rejects e => (Throw e, w)
                 end).
Proof.
  intros H w w' Hw. destruct r; (split; [reflexivity|]); [now apply H | exact Hw].
Qed.

Lemma visible_costed (r : CostRow) (w w' : World) :
  visible w = visible w' -> visible (costed r w) = visible (costed r w').
Proof. unfold visible. cbn. congruence. Qed.

Lemma visible_applied (db : string) (stmt : DbStmt) (w w' : World) :
  visible w = visible w' -> visible (applied db stmt w) = visible (applied db stmt w').
Proof. unfold visible. cbn. congruence. Qed.

Lemma twin_onDatabase {A} (db : string) (stmt : DbStmt) (r : reply A) :
  twin (onDatabase db stmt r) (onDatabase db stmt r).
Proof.
  intros w w' Hw. unfold onDatabase. destruct r; (split; [reflexivity|]);
    [now apply visible_applied | exact Hw].
Qed.

Lemma twin_executeCommandInContainer shell (c : ContainerId) (command : string) :
  twin (Daytona.executeCommandInContainer shell c command)
       (Daytona.executeCommandInContainer shell c command).
Proof.
  intros w w' Hw. unfold Daytona.executeCommandInContainer.
  assert (Hc : container w = container w') by (unfold visible in Hw; congruence).
  rewrite Hc. destruct (shell _ c command); (split; [reflexivity|]);
    unfold visible in *; cbn; congruence.
Qed.

Lemma twin_writeFileInContainer upload (c : ContainerId) (path content : string) :
  twin (Daytona.writeFileInContainer upload c path content)
       (Daytona.writeFileInContainer upload c path content).
Proof.
  intros w w' Hw. unfold Daytona.writeFileInContainer.
  assert (Hc : container w = container w') by (unfold visible in Hw; congruence).
  rewrite Hc. destruct (upload _ c path content); (split; [reflexivity|]);
    unfold visible in *; cbn; congruence.
Qed.

Ltac twin_step :=
  first
    [ apply twin_ret
    | apply twin_throw
    | apply twin_ext
    | apply twin_outOfFuel
    | apply twin_consoleError
    | apply twin_release
    | apply twin_query
    | apply twin_publish
    | apply twin_sandboxCall
    | apply twin_onDatabase
    | apply twin_executeCommandInContainer
    | apply twin_writeFileInContainer
    | apply twin_reply; solve [apply visible_costed | apply visible_applied]
    | apply twin_update; solve [apply visible_costed | apply visible_applied]
    | apply twin_then; [apply alike_trackActivity | ]
    | apply twin_bind; [ | intro ]
    | apply twin_tryCatch; [ | intro ]
    | apply twin_finally
    | apply twin_when
    | match goal with
      | |- twin (if ?b then _ else _) (if ?b then _ else _) => destruct b
      | |- twin (match ?x with _ => _ end) (match ?x with _ => _ end) => destruct x
      end
    | progress cbv zeta
    | progress autounfold with pipeline ].

Ltac twins := repeat twin_step.

Section LoopTwins.

Variable llm : nat -> reply LLMReply.
Variable jsonParse : string -> option AgentResponse.
Variable sandbox : nat -> ContainerId -> SandboxOp -> reply string.
Variable costInsert : reply unit.
Variable params : LoopParams.

Lemma twin_executeAgentCommands (c : ContainerId) (cmds : list Command) :
  twin (CommandExecutor.executeAgentCommands sandbox c cmds)
       (CommandExecutor.executeAgentCommands sandbox c cmds).
Proof.
  unfold CommandExecutor.executeAgentCommands. generalize (@nil CommandResult).
  induction cmds as [|cmd rest IH]; intro results; cbn [CommandExecutor.forCommands].
  - twins.
  - apply twin_bind; [|intro; apply IH].
    unfold CommandExecutor.attempt, CommandExecutor.runCommand.
    destruct cmd; twins.
Qed.

Lemma twin_iterationBody (st : AgenticLoop.LoopState) :
  twin (AgenticLoop.iterationBody llm jsonParse sandbox params st)
       (AgenticLoop.iterationBody llm jsonParse sandbox params st).
Proof.
  unfold AgenticLoop.iterationBody. cbv zeta.
  apply twin_bind; [twins|intro result].
  destruct (AgenticLoop.parseAgentResponse jsonParse (text result)).
  - apply twin_bind; [apply twin_executeAgentCommands|intro].
    destruct (AgenticLoop.trackModifications _ _ _). twins.
  - twins.
Qed.

Lemma twin_whileLoop (fuel : nat) :
  forall st,
    twin (AgenticLoop.whileLoop llm jsonParse sandbox params fuel st)
         (AgenticLoop.whileLoop llm jsonParse sandbox params fuel st).
Proof.
  induction fuel as [|fuel IH]; intro st; cbn [AgenticLoop.whileLoop];
    destruct (AgenticLoop.belowCap _ _); try solve [twins].
  apply twin_bind; [apply twin_iterationBody|intro step].
  destruct (fst step); [twins | apply IH].
Qed.

Lemma twin_runAgenticLoop (fuel : nat) :
  twin (AgenticLoop.runAgenticLoop llm jsonParse sandbox costInsert params fuel)
       (AgenticLoop.runAgenticLoop llm jsonParse sandbox costInsert params fuel).
Proof.
  unfold AgenticLoop.runAgenticLoop, AgenticLoop.afterLoop.
  apply twin_bind; [apply twin_whileLoop|intro st].
  unfold CostTracker.trackMessageCost. twins.
Qed.

End LoopTwins.

Section ModificationLedger.

Variable ledger : string -> reply unit.
Variable env : ModificationEnv.

Lemma twin_modificationPhases (job : JobData) (requestId streamId : string) :
  twin (Modification.modificationPhases env job requestId streamId)
       (Modification.modificationPhases (modificationWithLedger ledger env)
          job requestId streamId).
Proof.
  unfold Modification.modificationPhases, Modification.handleNewTables,
    Modification.refreshBlueprint, Modification.getProjectGitHubRepo,
    Modification.addTablesToExistingDatabase, Modification.readFileFromContainer,
    Modification.redeploy, provisionDaytonaContainer, Publisher.publishProgress.
  cbv zeta.
  cbn [modificationWithLedger withLedger m_infra m_agent m_box m_sandboxCreate m_repoRows
       m_githubAccessToken m_dateNow m_contextDatabases m_prompt m_activeDatabases
       m_blueprintJson m_updateBlueprint m_flyApiToken m_listsApp m_fetchStatus
       m_deploymentInsert m_sessionInsert
       redisPublish poolConnect txBegin txCommit txRollback logRequest activityInsert].
  repeat first [ apply twin_runAgenticLoop | twin_step ].
Qed.

End ModificationLedger.

(** X21.  The activity ledger cannot change a modification
    job: run with any other behaviour of the INSERTs of
    [trackActivity] (all of them failing, say), the handler ends the
    same way, with the same value or the same error, and has published
    the same messages, written the same cost rows and asked the same of
    the sandbox. *)
Theorem activity_ledger_cannot_change_a_modification
        (ledger : string -> reply unit) (env : ModificationEnv) (job : JobData)
        (requestId streamId : string) (w : World) :
  let run := Modification.handleProjectModificationOrchestration
               env job requestId streamId w in
  let run' := Modification.handleProjectModificationOrchestration
                (modificationWithLedger ledger env) job requestId streamId w in
  fst run = fst run' /\ visible (snd run) = visible (snd run').
Proof.
  cbv zeta.
  assert (H : twin (Modification.handleProjectModificationOrchestration
                      env job requestId streamId)
                   (Modification.handleProjectModificationOrchestration
                      (modificationWithLedger ledger env) job requestId streamId)).
  { unfold Modification.handleProjectModificationOrchestration,
      Modification.modificationBody, Publisher.publishSuccess, Publisher.publishError.
    cbv zeta.
    cbn [modificationWithLedger withLedger m_infra redisPublish poolConnect txBegin
         txCommit txRollback logRequest activityInsert].
    apply twin_bind; [twins|intros _]. apply twin_finally; [|twins].
    apply twin_tryCatch; [|intro e; twins].
    apply twin_bind; [apply twin_modificationPhases|intro l]. twins. }
  exact (H w w eq_refl).
Qed.

Section CreationLedger.

Variable anc : Ancillary.
Variable env : CreationEnv.

(** A block whose failure is only logged and that touches nothing
    that is shown ends alike whatever it is made of. *)
Lemma twin_swallow (m m' : M unit) (line line' : string) :
  keeps visible m -> keeps visible m' -> settles m -> settles m' ->
  twin (tryCatch m (fun _ => consoleError line))
       (tryCatch m' (fun _ => consoleError line')).
Proof.
  intros Hk Hk' Hs Hs' w w' Hw. unfold tryCatch, consoleError.
  specialize (Hk w). specialize (Hk' w'). specialize (Hs w). specialize (Hs' w').
  destruct (m w) as [[[]|e|] w1], (m' w') as [[[]|e'|] w1']; cbn [fst snd] in *;
    try (now elim Hs); try (now elim Hs');
    (split; [reflexivity|]); unfold visible in *; cbn; congruence.
Qed.

Lemma twin_createTables (dbName : string) (tables : list TableDesign) :
  twin (DatabaseProvisioner.createTables (c_provision env) dbName tables)
       (DatabaseProvisioner.createTables
          (provisionWithLedger (anc_provisionLedger anc) (c_provision env))
          dbName tables).
Proof.
  induction tables as [|t rest IH];
    cbn [DatabaseProvisioner.createTables provisionWithLedger p_runDdl p_queryInsert].
  - twins.
  - apply twin_bind; [twins|intros _]. apply twin_bind; [twins|intros _]. apply IH.
Qed.

Ltac quiet_block :=
  solve [ repeat first
            [ apply keeps_insertCredentials; intro; intro; reflexivity
            | apply keeps_trackActivity; [intro; reflexivity | intros ? ?; reflexivity]
            | frame_step
            | progress autounfold with pipeline ] ].

Ltac settled_block :=
  solve [ repeat first [ apply settles_insertCredentials | settle_step ] ].

Lemma twin_trackProjectCreated (job : JobData) (requestId : string)
      (containerId : ContainerId) :
  twin (Creation.trackProjectCreated env job requestId containerId)
       (Creation.trackProjectCreated (creationWithAncillary anc env) job requestId
          containerId).
Proof.
  unfold Creation.trackProjectCreated. cbv zeta.
  apply twin_swallow.
  - quiet_block.
  - quiet_block.
  - settled_block.
  - settled_block.
Qed.

Lemma twin_pipelinePhases (job : JobData) (requestId streamId : string) :
  twin (Creation.pipelinePhases env job requestId streamId)
       (Creation.pipelinePhases (creationWithAncillary anc env) job requestId streamId).
Proof.
  unfold Creation.pipelinePhases, Creation.detectionPhases, Creation.trackProjectCreated,
    Creation.deploymentPreparation, Creation.trackEndpoints, Creation.postExecution,
    Creation.saveBlueprint, Creation.storeEnvVarRequirements,
    Creation.storeCredentialPlaceholders, Creation.getOrProvisionContainer,
    Creation.pushToGitHub, DatabaseProvisioner.provisionAndCreateTables,
    detectNeed, Publisher.publishProgress.
  cbv zeta.
  cbn [creationWithAncillary withLedger provisionWithLedger
       c_infra c_agent c_prompt c_authCall c_authParse c_paymentCall c_paymentParse
       c_dbCall c_dbParse c_designSchema c_provision c_box c_sandboxCreate
       c_initializeNitro c_containerInsert
       c_fetchIntegrationSpecs c_sessionSelect c_injectCors c_exec c_injectWorkflow
       c_createFlyToml c_createFlyApp c_deploymentInsert c_stripCredentials
       c_githubAccessToken c_createRepo c_isoNow c_repoInsert c_historyInsert
       c_setGitHubSecret c_syncToS3 c_writeBlueprint c_nanoid c_blueprintInsert
       c_envVarsInsert c_credentialInsert c_blueprintSelect c_costText
       p_createDatabase p_adminEnd p_databaseInsert p_projectConnect p_projectBegin
       p_runDdl p_queryInsert p_projectCommit p_projectRollback p_projectEnd
       p_activityInsert
       redisPublish poolConnect txBegin txCommit txRollback logRequest activityInsert].
  repeat first
    [ apply twin_runAgenticLoop
    | apply twin_createTables
    | apply twin_swallow; [quiet_block | quiet_block | settled_block | settled_block]
    | twin_step ].
Qed.

(** X22.  The ancillary writes cannot change a creation job:
    run with any other behaviour of the INSERTs of [trackActivity] (in
    the handler and in the provisioner), of the SELECT of "Track
    project creation", of the two writers of the environment-variable
    tracker and of [setGitHubSecret], the handler ends the same way,
    with the same value or the same error, and has published the same
    messages, written the same cost rows, applied the same statements
    to the project database and asked the same of the sandbox. *)
Theorem ancillary_writes_cannot_change_a_creation
        (job : JobData) (requestId streamId : string) (w : World) :
  let run := Creation.handleProjectCreationOrchestration
               env job requestId streamId w in
  let run' := Creation.handleProjectCreationOrchestration
                (creationWithAncillary anc env) job requestId streamId w in
  fst run = fst run' /\ visible (snd run) = visible (snd run').
Proof.
  cbv zeta.
  assert (H : twin (Creation.handleProjectCreationOrchestration
                      env job requestId streamId)
                   (Creation.handleProjectCreationOrchestration
                      (creationWithAncillary anc env) job requestId streamId)).
  { unfold Creation.handleProjectCreationOrchestration, Creation.creationBody,
      Creation.creationPhases, Creation.notifyDeployment, Creation.successMessage,
      Publisher.publishSuccess, Publisher.publishError, Publisher.publishProgress.
    cbv zeta.
    cbn [creationWithAncillary withLedger c_infra c_costText redisPublish poolConnect
         txBegin txCommit txRollback logRequest activityInsert].
    apply twin_bind; [twins|intros _]. apply twin_finally; [|twins].
    apply twin_tryCatch; [|intro e; twins].
    apply twin_bind; [|intro l; twins].
    apply twin_bind; [twins|intros _]. apply twin_bind; [twins|intros _].
    apply twin_pipelinePhases. }
  exact (H w w eq_refl).
Qed.

End CreationLedger.

(* ------------------------------------------------------------------ *)
(** ** Deployment to Fly.io *)

Lemma append_cancel_l (p a b : string) : p +++ a = p +++ b -> a = b.
Proof.
  induction p as [|ch p IH]; cbn [String.append]; [trivial|].
  intro H. injection H as H. exact (IH H).
Qed.

Section DeployFacts.

Variable shell : nat -> ContainerId -> string -> reply ExecResult.
Variable stringify : ExecResult -> string.
Variable flyApiToken : string.
Variable artifactsStdout : ExecResult -> string.
Variable listsApp : string -> string -> option bool.
Variable upload : nat -> ContainerId -> string -> string -> reply unit.
Variable fetchStatus : string -> reply nat.
Variable deploymentInsert : reply unit.
Variable activityInsert : reply unit.
Variable projectId : string.
Variable c : ContainerId.

Let deployOp : ContainerId * SandboxOp :=
  (c, OpExec (FlyioService.deployCommand flyApiToken projectId)).

(** [preparing m]: [m] writes nothing to the control database and does
    not send the deploy command. *)
Let preparing {A : Type} (m : M A) : Prop :=
  forall w,
    ctl (snd (m w)) = ctl w
    /\ activities (snd (m w)) = activities w
    /\ fst (m w) <> OutOfFuel
    /\ exists ops, container (snd (m w)) = container w ++ ops /\ ~ In deployOp ops.

Lemma preparing_ret {A} (a : A) : preparing (ret a).
Proof.
  intro w. repeat split; [discriminate|]. exists []. rewrite app_nil_r. now split.
Qed.

Lemma preparing_throw {A} (e : string) : preparing (@throw A e).
Proof.
  intro w. repeat split; [discriminate|]. exists []. rewrite app_nil_r. now split.
Qed.

Lemma preparing_consoleError (line : string) : preparing (consoleError line).
Proof.
  intro w. repeat split; [discriminate|]. exists []. cbn. rewrite app_nil_r. now split.
Qed.

Lemma preparing_bind {A B} (m : M A) (k : A -> M B) :
  preparing m -> (forall a, preparing (k a)) -> preparing (bind m k).
Proof.
  intros Hm Hk w. destruct (Hm w) as (H1 & H2 & H3 & ops & H4 & H5).
  unfold bind. destruct (m w) as [[a|e|] w1]; cbn [fst snd] in *.
  - destruct (Hk a w1) as (K1 & K2 & K3 & ops' & K4 & K5).
    rewrite K1, K2, K4, H1, H2, H4. repeat split; [exact K3|].
    exists (ops ++ ops'). rewrite app_assoc. split; [reflexivity|].
    intro Hin. apply in_app_or in Hin. tauto.
  - repeat split; try assumption; try discriminate. now exists ops.
  - now contradiction H3.
Qed.

Lemma preparing_tryCatch {A} (m : M A) (h : string -> M A) :
  preparing m -> (forall e, preparing (h e)) -> preparing (tryCatch m h).
Proof.
  intros Hm Hh w. destruct (Hm w) as (H1 & H2 & H3 & ops & H4 & H5).
  unfold tryCatch. destruct (m w) as [[a|e|] w1]; cbn [fst snd] in *.
  - repeat split; try assumption; try discriminate. now exists ops.
  - destruct (Hh e w1) as (K1 & K2 & K3 & ops' & K4 & K5).
    rewrite K1, K2, K4, H1, H2, H4. repeat split; [exact K3|].
    exists (ops ++ ops'). rewrite app_assoc. split; [reflexivity|].
    intro Hin. apply in_app_or in Hin. tauto.
  - now contradiction H3.
Qed.

Lemma preparing_exec (command : string) :
  command <> FlyioService.deployCommand flyApiToken projectId ->
  preparing (Daytona.executeCommandInContainer shell c command).
Proof.
  intros Hne w. unfold Daytona.executeCommandInContainer.
  destruct (shell _ _ _); cbn [fst snd attempted ctl activities container];
    (repeat split; [discriminate|]);
    (exists [(c, OpExec command)]; split; [reflexivity|]);
    intros [Heq|[]]; apply Hne; unfold deployOp in Heq; congruence.
Qed.

Lemma preparing_write (path content : string) :
  preparing (Daytona.writeFileInContainer upload c path content).
Proof.
  intro w. unfold Daytona.writeFileInContainer.
  destruct (upload _ _ _ _); cbn [fst snd attempted ctl activities container];
    (repeat split; [discriminate|]);
    (exists [(c, OpWrite path content)]; split; [reflexivity|]);
    intros [Heq|[]]; unfold deployOp in Heq; discriminate.
Qed.

(** The deploy command is none of the commands of the preparation. *)
Ltac other_command :=
  unfold FlyioService.deployCommand, FlyioService.appsListCommand,
    FlyioService.secretsCommand, FlyioService.installCommand,
    FlyioService.exportToken;
  rewrite ?app_assoc_s; cbn [String.append];
  let H := fresh "Heq" in
  intro H;
  repeat first
    [ discriminate H
    | progress (injection H as H)
    | apply append_cancel_l in H; cbn [String.append] in H ].

(** [deploys m]: what the theorem below says of a deployment. *)
Let deploys (m : M DeployResult) : Prop :=
  forall w,
    exists ops,
      container (snd (m w)) = container w ++ ops
      /\ match fst (m w) with
         | Ok r =>
             (exists pre, ops = pre ++ [deployOp])
             /\ if dep_success r
                then (ctl (snd (m w)) = ctl w ++ [Insert "project_deployments"]
                      \/ ctl (snd (m w))
                         = ctl w ++ [Insert "project_deployments"; Insert "project_actions"])
                     /\ dep_deploymentUrl r
                        = Some ("https://" +++ Names.appName projectId +++ ".fly.dev")
                else ctl (snd (m w)) = ctl w /\ activities (snd (m w)) = activities w
         | Throw _ =>
             ctl (snd (m w)) = ctl w /\ activities (snd (m w)) = activities w
             /\ ~ In deployOp ops
         | OutOfFuel => False
         end.

Lemma deploys_after {A} (m : M A) (k : A -> M DeployResult) :
  preparing m -> (forall a, deploys (k a)) -> deploys (bind m k).
Proof.
  intros Hm Hk w. destruct (Hm w) as (H1 & H2 & H3 & ops & H4 & H5).
  unfold bind. destruct (m w) as [[a|e|] w1]; cbn [fst snd] in *.
  - destruct (Hk a w1) as (ops' & K1 & K2).
    exists (ops ++ ops'). rewrite K1, H4, app_assoc. split; [reflexivity|].
    destruct (fst (k a w1)) as [r|e|]; [| |exact K2].
    + destruct K2 as ((pre & Hpre) & K2). split.
      * exists (ops ++ pre). rewrite Hpre. now rewrite app_assoc.
      * rewrite <- H1, <- H2. exact K2.
    + destruct K2 as (K2 & K3 & K4). rewrite <- H1, <- H2.
      repeat split; try assumption.
      intro Hin. apply in_app_or in Hin. tauto.
  - exists ops. repeat split; assumption.
  - now contradiction H3.
Qed.

(** X24.  [deployProjectToFlyIO] reports a deployment that
    failed by its result, not by throwing, and records exactly the
    deployments it reports as successful.  It throws only while
    preparing (the two files, the installation, the creation of the
    app, the secrets), before the deploy command is sent and without
    a write to the control database.  Once the deploy command is sent
    it returns: with [success: true] and the URL of the app it has
    inserted the row of [project_deployments] (and the activity row,
    if that INSERT resolved); with [success: false] it has written
    nothing to the control database. *)
Theorem deployment_is_recorded_exactly_when_reported
        (githubRepoUrl : string) (databaseInfo : option ConnectionInfo)
        (userId requestId : string) (w : World) :
  let run :=
    FlyioService.deployProjectToFlyIO shell stringify flyApiToken artifactsStdout
      listsApp upload fetchStatus deploymentInsert activityInsert
      projectId githubRepoUrl c databaseInfo userId requestId w in
  let deployOp := (c, OpExec (FlyioService.deployCommand flyApiToken projectId)) in
  exists ops,
    container (snd run) = container w ++ ops
    /\ match fst run with
       | Ok r =>
           (exists pre, ops = pre ++ [deployOp])
           /\ if dep_success r
              then (ctl (snd run) = ctl w ++ [Insert "project_deployments"]
                    \/ ctl (snd run)
                       = ctl w ++ [Insert "project_deployments"; Insert "project_actions"])
                   /\ dep_deploymentUrl r
                      = Some ("https://" +++ Names.appName projectId +++ ".fly.dev")
              else ctl (snd run) = ctl w /\ activities (snd run) = activities w
       | Throw _ =>
           ctl (snd run) = ctl w /\ activities (snd run) = activities w
           /\ ~ In deployOp ops
       | OutOfFuel => False
       end.
Proof.
  cbv zeta. revert w.
  change (deploys
            (FlyioService.deployProjectToFlyIO shell stringify flyApiToken
               artifactsStdout listsApp upload fetchStatus deploymentInsert
               activityInsert projectId githubRepoUrl c databaseInfo userId requestId)).
  unfold FlyioService.deployProjectToFlyIO, FlyioService.createFlyToml,
    FlyioService.checkFlyAppExists, FlyioService.createFlyApp,
    FlyioService.setDatabaseSecrets.
  cbv zeta.
  repeat (apply deploys_after;
          [ repeat first
              [ apply preparing_ret
              | apply preparing_throw
              | apply preparing_consoleError
              | apply preparing_write
              | apply preparing_exec; other_command
              | apply preparing_bind; [|intro]
              | apply preparing_tryCatch; [|intro]
              | match goal with
                | |- preparing (if ?b then _ else _) => destruct b
                | |- preparing (match ?o with Some _ => _ | None => _ end) => destruct o
                end ]
          | intro ]).
  intro w.
  unfold tryCatch, bind, Daytona.executeCommandInContainer,
    FlyioService.verifyDeployment, FlyioService.recordDeployment,
    ActivityTracker.trackActivity, tryCatch, bind, ext, query, consoleError, ret.
  exists [deployOp].
  destruct (shell _ _ _) as [r|e]; [|cbn; repeat split; now exists []].
  destruct (FlyioService.deployed (stringify r));
    [|cbn; repeat split; now exists []].
  destruct (fetchStatus _) as [status|e]; [|cbn; repeat split; now exists []].
  destruct (status =? 200); [|cbn; repeat split; now exists []].
  destruct deploymentInsert; [|cbn; repeat split; now exists []].
  destruct (negb (userId =? EmptyString)%string);
    [destruct activityInsert|];
    cbn; (split; [reflexivity|]); (split; [now exists []|]);
    (split; [|reflexivity]); rewrite <- ?app_assoc; cbn; tauto.
Qed.

End DeployFacts.
(* ------------------------------------------------------------------ *)
(** ** Push to GitHub *)

Section HoldsRules.

Context {A : Type}.

Lemma holds_ret (P : World -> Prop) (a : A) (Q : A -> World -> Prop) (E : World -> Prop) :
  (forall w, P w -> Q a w) -> holds P (ret a) Q E.
Proof. intros H w HP. exact (H w HP). Qed.

Lemma holds_throw (P : World -> Prop) (e : string) (Q : A -> World -> Prop)
      (E : World -> Prop) :
  (forall w, P w -> E w) -> holds P (@throw A e) Q E.
Proof. intros H w HP. exact (H w HP). Qed.

Lemma holds_ext (P : World -> Prop) (r : reply A) (E : World -> Prop) :
  (forall w, P w -> E w) -> holds P (ext r) (fun _ => P) E.
Proof. intros H w HP. unfold ext. destruct r; cbn; auto. Qed.

Lemma holds_bind {B : Type} (P : World -> Prop) (R : B -> World -> Prop)
      (m : M B) (k : B -> M A) (Q : A -> World -> Prop) (E : World -> Prop) :
  holds P m R E -> (forall b, holds (R b) (k b) Q E) -> holds P (bind m k) Q E.
Proof.
  intros Hm Hk w HP. specialize (Hm w HP). unfold bind.
  destruct (m w) as [[b|e|] w1]; cbn [fst snd] in *; [|exact Hm|exact Hm].
  exact (Hk b w1 Hm).
Qed.

Lemma holds_tryCatch (P R : World -> Prop) (m : M A) (h : string -> M A)
      (Q : A -> World -> Prop) (E : World -> Prop) :
  holds P m Q R -> (forall e, holds R (h e) Q E) -> holds P (tryCatch m h) Q E.
Proof.
  intros Hm Hh w HP. specialize (Hm w HP). unfold tryCatch.
  destruct (m w) as [[a|e|] w1]; cbn [fst snd] in *; [exact Hm| |exact Hm].
  exact (Hh e w1 Hm).
Qed.

Lemma holds_weaken (P P' : World -> Prop) (m : M A) (Q Q' : A -> World -> Prop)
      (E E' : World -> Prop) :
  holds P m Q E -> (forall w, P' w -> P w) -> (forall a w, Q a w -> Q' a w) ->
  (forall w, E w -> E' w) -> holds P' m Q' E'.
Proof.
  intros Hm HP HQ HE w Hw. specialize (Hm w (HP w Hw)).
  destruct (fst (m w)); auto.
Qed.

End HoldsRules.

Lemma holds_consoleError (P : World -> Prop) (line : string) (E : World -> Prop) :
  lasting P -> holds P (consoleError line) (fun _ => P) E.
Proof. intros [_ H] w HP. exact (H line w HP). Qed.

Lemma holds_exec shell (P : World -> Prop) (c : ContainerId) (command : string) :
  lasting P ->
  holds P (Daytona.executeCommandInContainer shell c command) (fun _ => P) P.
Proof.
  intros [H _] w HP. unfold Daytona.executeCommandInContainer.
  destruct (shell _ _ _); cbn [fst snd]; auto.
Qed.

Section PushFacts.

Variable shell : nat -> ContainerId -> string -> reply ExecResult.
Variable stringify : ExecResult -> string.
Variable stdout : ExecResult -> string.
Variable trim : string -> string.
Variable stripCredentials : string -> string.
Variable githubAccessToken : string.
Variable createRepo : reply GitHubResponse.
Variable isoNow : string.
Variable repoInsert : reply unit.
Variable historyInsert : reply unit.
Variable activityInsert : reply unit.
Variable c : ContainerId.
Variable w0 : World.

(** Nothing has been written to the control database. *)
Let untouched (w : World) : Prop :=
  ctl w = ctl w0 /\ length (container w0) <= length (container w).

(** The push has succeeded; the rows written do not include the
    history row. *)
Let unrecorded (w : World) : Prop :=
  pushed shell c w0 w
  /\ exists stmts, ctl w = ctl w0 ++ stmts /\ ~ In (Insert "github_push_history") stmts.

(** The push has succeeded and its history row is written. *)
Let recorded (w : World) : Prop :=
  pushed shell c w0 w
  /\ exists stmts, ctl w = ctl w0 ++ stmts /\ In (Insert "github_push_history") stmts.

(** Where a push that throws may stop. *)
Let failed (w : World) : Prop := untouched w \/ unrecorded w.

Lemma pushed_attempted (c' : ContainerId) (op : SandboxOp) (w : World) :
  pushed shell c w0 w -> pushed shell c w0 (attempted c' op w).
Proof.
  intros (n & res & Hn & Hnth & Hres & Hcode). exists n, res.
  repeat split; try assumption. cbn [container attempted].
  rewrite nth_error_app1; [exact Hnth|].
  apply nth_error_Some. rewrite Hnth. discriminate.
Qed.

Lemma lasting_untouched : lasting untouched.
Proof.
  split.
  - intros c' op w [H1 H2]. split; [exact H1|].
    cbn [container attempted]. rewrite length_app. lia.
  - intros line w H. exact H.
Qed.

Lemma lasting_unrecorded : lasting unrecorded.
Proof.
  split.
  - intros c' op w [H1 H2]. split; [now apply pushed_attempted|exact H2].
  - intros line w H. exact H.
Qed.

Lemma lasting_recorded : lasting recorded.
Proof.
  split.
  - intros c' op w [H1 H2]. split; [now apply pushed_attempted|exact H2].
  - intros line w H. exact H.
Qed.

Lemma lasting_failed : lasting failed.
Proof.
  destruct lasting_untouched as [A1 A2], lasting_unrecorded as [B1 B2].
  split.
  - intros c' op w [H|H]; [left|right]; auto.
  - intros line w [H|H]; [left|right]; auto.
Qed.

Ltac push_step P HP :=
  first
    [ apply holds_ret; intros; assumption
    | apply holds_throw; intros; first [assumption | left; assumption | right; assumption]
    | eapply (holds_weaken P); [apply holds_exec; exact HP | intros; assumption
                              | intros; assumption
                              | intros; first [assumption | left; assumption | right; assumption]]
    | apply holds_consoleError; exact HP
    | apply (holds_bind _ (fun _ => P)); [|intro]
    | match goal with
      | |- holds _ (if ?b then _ else _) _ _ => destruct b
      | |- holds _ (match ?o with Some _ => _ | None => _ end) _ _ => destruct o
      end ].

Lemma createGitHubRepo_untouched (projectId : string) :
  holds untouched (GitHubIntegration.createGitHubRepo createRepo projectId)
        (fun _ => untouched) failed.
Proof.
  unfold GitHubIntegration.createGitHubRepo. cbv zeta.
  apply (holds_tryCatch _ untouched).
  - apply (holds_bind _ (fun _ => untouched)); [now apply holds_ext|intro response].
    destruct (negb (gh_ok response)).
    + apply (holds_bind _ (fun _ => untouched)); [now apply holds_ext|intro errorData].
      repeat push_step untouched lasting_untouched.
    + apply (holds_bind _ (fun _ => untouched)); [now apply holds_ext|intro repoData].
      repeat push_step untouched lasting_untouched.
  - intro err. repeat push_step untouched lasting_untouched.
Qed.

Lemma pushToOrigin_pushes :
  holds untouched (GitHubIntegration.pushToOrigin shell stringify c)
        (fun _ => unrecorded) failed.
Proof.
  intros w [H1 H2]. unfold GitHubIntegration.pushToOrigin, bind,
    Daytona.executeCommandInContainer, consoleError, throw, ret.
  destruct (shell _ _ _) as [res|e] eqn:Hs; cbn [fst snd].
  - destruct (exitCode res =? 0) eqn:Hcode; cbn [negb fst snd].
    + split.
      * exists (length (container w)), res. repeat split; try assumption.
        -- cbn [container attempted].
           rewrite nth_error_app2 by lia. now rewrite Nat.sub_diag.
        -- now apply Nat.eqb_eq.
      * exists []. rewrite app_nil_r. now split.
    + left. split; [exact H1|]. cbn [container attempted logged].
      rewrite length_app. lia.
  - left. split; [exact H1|]. cbn [container attempted]. rewrite length_app. lia.
Qed.

Lemma pushed_ran (stmt : Stmt) (w : World) :
  pushed shell c w0 w -> pushed shell c w0 (ran stmt w).
Proof. intro H. exact H. Qed.

Lemma query_unrecorded (table : string) (r : reply unit) :
  table <> "github_push_history" ->
  holds unrecorded (query (Insert table) r) (fun _ => unrecorded) failed.
Proof.
  intros Hne w [H1 (stmts & H2 & H3)]. unfold query.
  destruct r; cbn [fst snd]; [|right; split; [exact H1|now exists stmts]].
  split; [exact H1|]. exists (stmts ++ [Insert table]).
  cbn [ctl ran]. rewrite H2, app_assoc. split; [reflexivity|].
  intro Hin. apply in_app_or in Hin. destruct Hin as [Hin|[Heq|[]]]; [tauto|].
  apply Hne. congruence.
Qed.

Lemma query_recorded (r : reply unit) :
  holds unrecorded (query (Insert "github_push_history") r) (fun _ => recorded) failed.
Proof.
  intros w [H1 (stmts & H2 & H3)]. unfold query.
  destruct r; cbn [fst snd]; [|right; split; [exact H1|now exists stmts]].
  split; [exact H1|]. exists (stmts ++ [Insert "github_push_history"]).
  cbn [ctl ran]. rewrite H2, app_assoc. split; [reflexivity|].
  apply in_or_app. right. now left.
Qed.

Lemma trackActivity_recorded (row : ActivityRow) :
  holds recorded
        (tryCatch
           (ActivityTracker.trackActivity activityInsert row ;;; ret tt)
           (fun _ => consoleError "[ActivityTracker] Failed to track GitHub push:"))
        (fun _ => recorded) failed.
Proof.
  intros w [H1 (stmts & H2 & H3)].
  unfold ActivityTracker.trackActivity, tryCatch, bind, consoleError, ret.
  destruct activityInsert; cbn [fst snd]; (split; [exact H1|]).
  - exists (stmts ++ [Insert "project_actions"]).
    cbn [ctl acted]. rewrite H2, app_assoc. split; [reflexivity|].
    apply in_or_app. now left.
  - now exists stmts.
Qed.

Lemma firstPush_pushes (projectId : string) :
  holds untouched
        (GitHubIntegration.firstPush shell stringify githubAccessToken createRepo
           repoInsert c projectId)
        (fun _ => unrecorded) failed.
Proof.
  unfold GitHubIntegration.firstPush. cbv zeta.
  apply (holds_bind _ (fun _ => untouched)); [apply createGitHubRepo_untouched|intro repoUrl].
  do 3 (apply (holds_bind _ (fun _ => untouched));
        [push_step untouched lasting_untouched|intros _]).
  apply (holds_bind _ (fun _ => untouched));
    [repeat push_step untouched lasting_untouched|intro authenticatedUrl].
  do 2 (apply (holds_bind _ (fun _ => untouched));
        [push_step untouched lasting_untouched|intros _]).
  apply (holds_bind _ (fun _ => unrecorded)); [apply pushToOrigin_pushes|intros _].
  apply (holds_bind _ (fun _ => unrecorded));
    [apply query_unrecorded; discriminate|intros _].
  apply holds_ret. trivial.
Qed.

Lemma laterPush_pushes :
  holds untouched
        (GitHubIntegration.laterPush shell stringify stdout trim isoNow c)
        (fun _ => unrecorded) failed.
Proof.
  unfold GitHubIntegration.laterPush. cbv zeta.
  apply (holds_bind _ (fun _ => untouched));
    [push_step untouched lasting_untouched|intro gitStatus].
  apply (holds_bind _ (fun _ => untouched));
    [repeat push_step untouched lasting_untouched|intro commitMessage].
  apply (holds_bind _ (fun _ => unrecorded)); [apply pushToOrigin_pushes|intros _].
  apply holds_ret. trivial.
Qed.

Lemma pushToGitHubDeterministic_holds (projectId : string)
      (filesModified : list FileModified) (userId requestId : string) :
  holds untouched
        (GitHubIntegration.pushToGitHubDeterministic shell stringify stdout trim
           stripCredentials githubAccessToken createRepo isoNow repoInsert
           historyInsert activityInsert c projectId filesModified userId requestId)
        (fun _ => recorded) failed.
Proof.
  unfold GitHubIntegration.pushToGitHubDeterministic. cbv zeta.
  apply (holds_bind _ (fun _ => untouched));
    [push_step untouched lasting_untouched|intro remoteResult].
  apply (holds_bind _ (fun _ => unrecorded)).
  { destruct (_ || _); [apply firstPush_pushes|apply laterPush_pushes]. }
  intro commitMessage.
  apply (holds_bind _ (fun _ => unrecorded));
    [push_step unrecorded lasting_unrecorded|intro commitShaResult].
  destruct (String.eqb (execResult commitShaResult) EmptyString);
    [apply holds_throw; intros; right; assumption|].
  apply (holds_bind _ (fun _ => unrecorded));
    [push_step unrecorded lasting_unrecorded|intro repoUrlResult].
  destruct (String.eqb (execResult repoUrlResult) EmptyString);
    [apply holds_throw; intros; right; assumption|].
  apply (holds_bind _ (fun _ => recorded)); [apply query_recorded|intros _].
  apply (holds_bind _ (fun _ => recorded)).
  { destruct (negb _); [apply trackActivity_recorded|apply holds_ret; trivial]. }
  intros _. apply holds_ret. trivial.
Qed.

End PushFacts.

(** X25.  [pushToGitHubDeterministic] writes to the control
    database only after a [git push origin main] that exited with 0,
    and it returns exactly when it has written the row of
    [github_push_history]: a push that git refused, a commit SHA or
    remote URL that cannot be read, or a failing INSERT make it throw
    with no history row written, and a failing activity row does not
    make it throw. *)
Theorem push_is_recorded_only_after_it_succeeded
        (shell : nat -> ContainerId -> string -> reply ExecResult)
        (stringify stdout : ExecResult -> string)
        (trim stripCredentials : string -> string) (githubAccessToken : string)
        (createRepo : reply GitHubResponse) (isoNow : string)
        (repoInsert historyInsert activityInsert : reply unit)
        (c : ContainerId) (projectId : string) (filesModified : list FileModified)
        (userId requestId : string) (w : World) :
  let run :=
    GitHubIntegration.pushToGitHubDeterministic shell stringify stdout trim
      stripCredentials githubAccessToken createRepo isoNow repoInsert
      historyInsert activityInsert c projectId filesModified userId requestId w in
  exists stmts,
    ctl (snd run) = ctl w ++ stmts
    /\ ((exists r, fst run = Ok r) <-> In (Insert "github_push_history") stmts)
    /\ (stmts <> [] -> pushed shell c w (snd run))
    /\ fst run <> OutOfFuel.
Proof.
  cbv zeta.
  pose proof (pushToGitHubDeterministic_holds shell stringify stdout trim
                stripCredentials githubAccessToken createRepo isoNow repoInsert
                historyInsert activityInsert c w projectId filesModified
                userId requestId w (conj eq_refl (Nat.le_refl _))) as H.
  destruct (fst (GitHubIntegration.pushToGitHubDeterministic _ _ _ _ _ _ _ _ _ _ _ _ _ _ _ _ _))
    as [r|e|]; [| |contradiction].
  - destruct H as [Hp (stmts & Hc & Hin)]. exists stmts.
    split; [exact Hc|]. split; [|split; [intros _; exact Hp|discriminate]].
    split; [intros _; exact Hin|intros _; now exists r].
  - destruct H as [[Hc _]|[Hp (stmts & Hc & Hin)]].
    + exists []. rewrite app_nil_r.
      split; [exact Hc|]. split; [|split; [intro Hne; now contradiction Hne|discriminate]].
      split; [intros [r Hr]; discriminate Hr|intros []].
    + exists stmts.
      split; [exact Hc|]. split; [|split; [intros _; exact Hp|discriminate]].
      split; [intros [r Hr]; discriminate Hr|intro Hin'; contradiction].
Qed.

(* ------------------------------------------------------------------ *)
(** ** A sandbox that cannot be created *)

(** One of the handler's paths is at its end: the messages begin with
    the two of the provisioning phase, the job has thrown, and the
    sandbox log holds nothing or the two commands of the clone. *)
Ltac finished :=
  cbn [fst snd bus container ran deliver dropped logged attempted];
  rewrite <- ?app_assoc; cbn [app];
  split; [eexists; reflexivity|];
  split; [eexists; reflexivity|];
  first [left; reflexivity | right; reflexivity].

(** The catch block of the handler: ROLLBACK, then the terminal error. *)
Ltac caught env :=
  cbn [fst snd pubAttempts container ran deliver dropped logged attempted];
  destruct (txRollback (m_infra env)); [|finished];
  cbn [fst snd pubAttempts container ran deliver dropped logged attempted];
  unfold Publisher.publishToChannel;
  cbn [fst snd pubAttempts container ran deliver dropped logged attempted];
  match goal with
  | |- context [match redisPublish (m_infra env) ?n with _ => _ end] =>
      destruct (redisPublish (m_infra env) n)
  end; finished.

(** A command sent to the sandbox that was never created. *)
Ltac shelled env command :=
  match goal with
  | |- context [sb_shell (m_box env) ?n None command] =>
      destruct (sb_shell (m_box env) n None command)
  end;
  cbn [fst snd pubAttempts container ran deliver dropped logged attempted].

(** X26.  A sandbox that cannot be created does not stop a
    modification job at the provisioning phase, and the job then fails
    for the want of it.  When [daytona.create] rejects (the pool, BEGIN
    and the two publications of the phase working), the handler still
    publishes "Sandbox provisioned" (15) right after "Provisioning new
    sandbox..." (10) and goes on with a [containerId] that is
    [undefined]; the job then throws: every command of the clone throws
    in [executeCommandInContainer] where it reads
    [sandbox.getUserHomeDir] of the sandbox that is not there, the
    directory listing swallows that and [git init] does not.  In the
    sandbox log there is nothing (the job failed before the clone) or
    the two commands of the clone, attempted without a sandbox. *)
Theorem failed_sandbox_creation_is_announced_as_provisioned
        (env : ModificationEnv) (job : JobData) (requestId streamId : string)
        (w : World) (e : string) :
  m_sandboxCreate env = Rejects e ->
  poolConnect (m_infra env) = Resolves tt ->
  txBegin (m_infra env) = Resolves tt ->
  (forall k, k < 2 -> redisPublish (m_infra env) (pubAttempts w + k) = Resolves tt) ->
  let run := Modification.handleProjectModificationOrchestration
               env job requestId streamId w in
  (exists rest,
     bus (snd run)
     = bus w ++ [(streamId, Progress "Provisioning new sandbox..." 10);
                 (streamId, Progress "Sandbox provisioned" 15)] ++ rest)
  /\ (exists e', fst run = Throw e')
  /\ (container (snd run) = container w
      \/ container (snd run)
         = container w ++ [(None, OpExec "ls -la"); (None, OpExec "git init")]).
Proof.
  intros Hcreate Hpool Hbegin Hpub. cbv zeta.
  pose proof (Hpub 0 (Nat.lt_0_succ 1)) as Hp0. rewrite Nat.add_0_r in Hp0.
  pose proof (Hpub 1 (Nat.lt_succ_diag_r 1)) as Hp1. rewrite Nat.add_1_r in Hp1.
  unfold Modification.handleProjectModificationOrchestration, Modification.modificationBody,
    Modification.modificationPhases, Modification.getProjectGitHubRepo,
    provisionDaytonaContainer, Publisher.publishProgress, Publisher.publishError,
    GitBranchManager.cloneProjectFromGitHub, GitBranchManager.listDirectory,
    GitBranchManager.checked, Daytona.executeCommandInContainer, shellOf, inContainer.
  rewrite Hpool, Hbegin, Hcreate.
  unfold bind, finally, tryCatch, ext, query, ret, throw, release, consoleError.
  rewrite publish_resolved by exact Hp0.
  cbn [fst snd].
  rewrite publish_resolved by exact Hp1.
  cbn [fst snd].
  destruct (m_repoRows env) as [[|row rows]|e1]; [caught env| |caught env].
  cbn [fst snd pubAttempts ran deliver dropped logged attempted].
  unfold Publisher.publishToChannel.
  cbn [fst snd pubAttempts container ran deliver dropped logged attempted].
  destruct (redisPublish (m_infra env) (S (S (pubAttempts w)))); [|caught env].
  shelled env "ls -la"; shelled env "git init"; caught env.
Qed.

Lemma failed_sandbox_creation_witness :
  let run := Modification.handleProjectModificationOrchestration withoutSandbox
               (Scenarios.jobData "p5" "s5") "req-1" "s5" emptyWorld in
  fst run = Throw noSandbox
  /\ bus (snd run)
     = [("s5", Progress "Provisioning new sandbox..." 10);
        ("s5", Progress "Sandbox provisioned" 15);
        ("s5", Progress "Repository found" 20);
        ("s5", Terminal ("Modification failed: " +++ noSandbox) true)]
  /\ ctl (snd run) = [Begin; Select "project_github_repos"; Rollback; Release]
  /\ (exists rest,
        bus (snd run)
        = bus emptyWorld ++ [("s5", Progress "Provisioning new sandbox..." 10);
                             ("s5", Progress "Sandbox provisioned" 15)] ++ rest)
  /\ (exists e', fst run = Throw e')
  /\ (container (snd run) = container emptyWorld
      \/ container (snd run)
         = container emptyWorld ++ [(None, OpExec "ls -la"); (None, OpExec "git init")]).
Proof.
  intro run. split; [reflexivity|]. split; [reflexivity|]. split; [reflexivity|].
  exact (failed_sandbox_creation_is_announced_as_provisioned withoutSandbox
           (Scenarios.jobData "p5" "s5") "req-1" "s5" emptyWorld
           "Total CPU quota exceeded" eq_refl eq_refl eq_refl (fun k _ => eq_refl)).
Defined.
